(** * Schedule validator of patient-scheduler-checker

    A shallow embedding of [run_scheduler_check.py]: the windowed lookup
    [find_related_appointment], the per-patient rule engine
    [check_patient_schedule], the batch scan of the [__main__] block and the
    report of [format_and_send_reports]; and of the schedulers of the
    generators ([find_next_available_day], [schedule_plan] of
    [appointment_generator_v3.py], [schedule_phase] of
    [appointment_generator_v5.py]), whose random draws are arguments.  The
    definitions come first, then the properties: those the specification
    states, further properties of the validator, of the report and of the
    generated schedules under the validator.

    Modelling conventions.
    - A DataFrame is the list of its rows, in row order.
    - A timestamp ([APPT_DTTM], a pandas [Timestamp]) is the number of
      nanoseconds since 1970-01-01T00:00:00, an integer of [Z]; missing
      values (NaT) and the bounds of the 64-bit representation are outside
      the model.
    - [t.date()] is the number of whole days since the epoch and is printed
      in ISO form (YYYY-MM-DD), as an f-string does.
    - Operations of the source that can raise ([.iloc[0]] on an empty
      selection) are written in an error monad, so that "never raises" is a
      statement about the model and not a consequence of its type. *)

From Stdlib Require Import ZArith List String Ascii Bool Lia DecimalString.
From Stdlib Require Import Permutation Sorted.
From Stdlib Require OrderedTypeEx.
Import ListNotations.

Local Open Scope string_scope.
Local Open Scope list_scope.
Local Open Scope Z_scope.

(** ** Results and exceptions *)

Inductive Exn : Type :=
| IndexError.

Inductive Res (A : Type) : Type :=
| Ok (a : A)
| Raise (e : Exn).

Arguments Ok {A} a.
Arguments Raise {A} e.

Definition bind {A B : Type} (c : Res A) (k : A -> Res B) : Res B :=
  match c with
  | Ok a => k a
  | Raise e => Raise e
  end.

Notation "x <- c ;; k" := (bind c (fun x => k))
  (at level 61, c at next level, right associativity).

(** A [for] loop whose body updates an accumulator and may raise. *)
Fixpoint for_each {A S : Type} (xs : list A) (body : S -> A -> Res S) (s : S)
  : Res S :=
  match xs with
  | [] => Ok s
  | x :: xs' => s' <- body s x ;; for_each xs' body s'
  end.

(** ** Time *)

Definition NS_PER_DAY : Z := 86400000000000.

(** [timedelta(days=n)] *)
Definition timedelta_days (n : Z) : Z := n * NS_PER_DAY.

(** [t.date()], as a day number; [(a.date() - b.date()).days] is the
    difference of two day numbers. *)
Definition date (t : Z) : Z := t / NS_PER_DAY.

(** Calendar date (year, month, day) of a day number, proleptic Gregorian. *)
Definition civil_from_days (z : Z) : Z * Z * Z :=
  let z := z + 719468 in
  let era := z / 146097 in
  let doe := z - era * 146097 in
  let yoe := (doe - doe / 1460 + doe / 36524 - doe / 146096) / 365 in
  let doy := doe - (365 * yoe + yoe / 4 - yoe / 100) in
  let mp := (5 * doy + 2) / 153 in
  let d := doy - (153 * mp + 2) / 5 + 1 in
  let m := if mp <? 10 then mp + 3 else mp - 9 in
  let y := yoe + era * 400 in
  (if m <=? 2 then y + 1 else y, m, d).

Definition digit (n : Z) : ascii := ascii_of_nat (48 + Z.to_nat (n mod 10)).

Definition pad2 (n : Z) : string :=
  String (digit (n / 10)) (String (digit n) EmptyString).

Definition pad4 (n : Z) : string :=
  String (digit (n / 1000)) (String (digit (n / 100)) (pad2 n)).

(** [str(d)] for a [datetime.date] [d]: "%04d-%02d-%02d". *)
Definition isoformat (d : Z) : string :=
  let '(y, m, dd) := civil_from_days d in
  (pad4 y ++ "-" ++ pad2 m ++ "-" ++ pad2 dd)%string.

(** ** Appointments *)

Record Appointment : Type := mkAppointment {
  APPT_ID : string;
  PATIENT_MRN : Z;
  APPT_TYPE : string;
  APPT_DTTM : Z;
  SCHEDULER_ID : string
}.

Definition DataFrame : Type := list Appointment.

(** [s.iloc[0]]: the first element of a selection; raises on an empty one. *)
Definition iloc0 {A : Type} (s : list A) : Res A :=
  match s with
  | [] => Raise IndexError
  | x :: _ => Ok x
  end.

(** [df.empty] *)
Definition empty {A : Type} (s : list A) : bool :=
  match s with
  | [] => true
  | _ :: _ => false
  end.

(** ** Windowed lookup *)

Definition in_selection (appt_type : string) (start_window end_window : Z)
    (a : Appointment) : bool :=
  (APPT_TYPE a =? appt_type)%string
  && (APPT_DTTM a >=? start_window)
  && (APPT_DTTM a <=? end_window).

Definition find_related_appointment (df : DataFrame) (appt_type : string)
    (base_time : Z) (time_window_days : Z) : Res (option Z) :=
  let start_window := base_time - timedelta_days time_window_days in
  let end_window := base_time + timedelta_days time_window_days in
  let related_appts := filter (in_selection appt_type start_window end_window) df in
  if negb (empty related_appts) then
    t <- iloc0 (map APPT_DTTM related_appts) ;;
    Ok (Some t)
  else Ok None.

(** ** Sorting by timestamp

    [sort_values('APPT_DTTM')]: rows in ascending order of timestamp.  The
    model is a stable insertion sort.  pandas does not promise an order among
    rows with equal timestamps; whichever it picks is a sorted table, which
    this sort leaves unchanged ([sort_values_id]), and the flags depend only
    on the rows present ([flags_perm]). *)

Fixpoint insert_row (a : Appointment) (l : DataFrame) : DataFrame :=
  match l with
  | [] => [a]
  | b :: l' =>
      if APPT_DTTM a <=? APPT_DTTM b then a :: b :: l'
      else b :: insert_row a l'
  end.

Fixpoint sort_values (df : DataFrame) : DataFrame :=
  match df with
  | [] => []
  | a :: df' => insert_row a (sort_values df')
  end.

(** ** Messages *)

Definition msg_no_lab (chemo_date : Z) : string :=
  ("Critical Error: A Chemo on " ++ isoformat chemo_date
  ++ " has no Lab test scheduled within the prior 7 days.")%string.

Definition msg_lab_after (lab_date chemo_date : Z) : string :=
  ("Order Error: Lab on " ++ isoformat lab_date
  ++ " is AFTER Chemo on " ++ isoformat chemo_date ++ ".")%string.

Definition msg_same_day (lab_date chemo_date : Z) : string :=
  ("Timing Error: Lab on " ++ isoformat lab_date
  ++ " is on the same day as Chemo on " ++ isoformat chemo_date
  ++ ". Must be at least 1 day prior.")%string.

Definition msg_visit_before (visit_date mammo_date : Z) : string :=
  ("Order Error: Oncology Visit on " ++ isoformat visit_date
  ++ " is BEFORE its related Mammogram on " ++ isoformat mammo_date ++ ".")%string.

Definition msg_too_soon (visit_date mammo_date : Z) : string :=
  ("Timing Error: Visit on " ++ isoformat visit_date
  ++ " is too soon after Mammogram on " ++ isoformat mammo_date
  ++ " (requires 2-day gap for results).")%string.

Definition msg_rt_before (rt_date sim_date : Z) : string :=
  ("Order Error: Radiation Therapy on " ++ isoformat rt_date
  ++ " is BEFORE its planning CT Simulation on " ++ isoformat sim_date ++ ".")%string.

(** ** Rules

    Each rule returns the flags that one loop iteration appends for the
    current appointment. *)

Definition chemo_rule (patient_appts : DataFrame) (appt_time : Z)
  : Res (list string) :=
  lab_time <- find_related_appointment patient_appts "Lab" appt_time 7 ;;
  match lab_time with
  | None => Ok [msg_no_lab (date appt_time)]
  | Some lab_time =>
      if lab_time >? appt_time then
        Ok [msg_lab_after (date lab_time) (date appt_time)]
      else if date appt_time - date lab_time <? 1 then
        Ok [msg_same_day (date lab_time) (date appt_time)]
      else Ok []
  end.

Definition oncology_rule (patient_appts : DataFrame) (appt_time : Z)
  : Res (list string) :=
  mammo_time <- find_related_appointment patient_appts "Mammogram" appt_time 14 ;;
  match mammo_time with
  | None => Ok []
  | Some mammo_time =>
      if mammo_time >? appt_time then
        Ok [msg_visit_before (date appt_time) (date mammo_time)]
      else if date appt_time - date mammo_time <? 2 then
        Ok [msg_too_soon (date appt_time) (date mammo_time)]
      else Ok []
  end.

Definition radiation_rule (patient_appts : DataFrame) (appt_time : Z)
  : Res (list string) :=
  sim_time <- find_related_appointment patient_appts "CT Simulation" appt_time 14 ;;
  match sim_time with
  | None => Ok []
  | Some sim_time =>
      if sim_time >? appt_time then
        Ok [msg_rt_before (date appt_time) (date sim_time)]
      else Ok []
  end.

(** The body of the loop over the sorted rows. *)
Definition appointment_flags (patient_appts : DataFrame)
    (current_appt : Appointment) : Res (list string) :=
  let appt_type := APPT_TYPE current_appt in
  let appt_time := APPT_DTTM current_appt in
  chemo <- (if (appt_type =? "Chemo")%string
            then chemo_rule patient_appts appt_time else Ok []) ;;
  visit <- (if (appt_type =? "Oncology Visit")%string
            then oncology_rule patient_appts appt_time else Ok []) ;;
  rt <- (if (appt_type =? "Radiation Therapy")%string
         then radiation_rule patient_appts appt_time else Ok []) ;;
  Ok (chemo ++ visit ++ rt).

(** [list(set(flags))]: the distinct messages, in an unspecified order. *)
Definition list_set (flags : list string) : list string :=
  nodup string_dec flags.

Definition check_patient_schedule (patient_appts : DataFrame)
  : Res (list string) :=
  let patient_appts := sort_values patient_appts in
  flags <- for_each patient_appts
             (fun flags current_appt =>
                new <- appointment_flags patient_appts current_appt ;;
                Ok (flags ++ new))
             [] ;;
  Ok (list_set flags).

(** ** Batch scan *)

Definition LOOKAHEAD_DAYS : Z := 60 * 2.

Record FlagRecord : Type := mkFlagRecord {
  FLAGGED_MRN : Z;
  FLAGGED_SCHEDULER_ID : string;
  FLAGS : list string
}.

(** [df[(df['APPT_DTTM'] >= today) & (df['APPT_DTTM'] <= future_date_limit)]] *)
Definition in_lookahead (today future_date_limit : Z) (a : Appointment) : bool :=
  (APPT_DTTM a >=? today) && (APPT_DTTM a <=? future_date_limit).

(** [groupby('PATIENT_MRN')] yields one group per distinct key, keys in
    ascending order, each group holding its rows in their original order. *)
Fixpoint insert_key (k : Z) (ks : list Z) : list Z :=
  match ks with
  | [] => [k]
  | k' :: ks' =>
      if k <? k' then k :: ks
      else if k =? k' then ks
      else k' :: insert_key k ks'
  end.

Definition group_keys (df : DataFrame) : list Z :=
  fold_right insert_key [] (map PATIENT_MRN df).

Definition rows_of (mrn : Z) (df : DataFrame) : DataFrame :=
  filter (fun a => PATIENT_MRN a =? mrn) df.

Definition groupby_mrn (df : DataFrame) : list (Z * DataFrame) :=
  map (fun mrn => (mrn, rows_of mrn df)) (group_keys df).

(** The loop of the main block over the groups of the filtered table. *)
Definition collect_flags (df_filtered : DataFrame) : Res (list FlagRecord) :=
  for_each (groupby_mrn df_filtered)
    (fun all_flags group =>
       let '(mrn, patient_appts) := group in
       flags_found <- check_patient_schedule patient_appts ;;
       if negb (empty flags_found) then
         scheduler_id <- iloc0 (map SCHEDULER_ID patient_appts) ;;
         Ok (all_flags ++ [mkFlagRecord mrn scheduler_id flags_found])
       else Ok all_flags)
    [].

(** What a run ends with: the early exit on an empty window, or the table of
    flagged patients handed to the report. *)
Inductive Outcome : Type :=
| NoUpcomingAppointments
| Flagged (all_flags : list FlagRecord).

Definition batch_scan (today lookahead_days : Z) (df_all : DataFrame)
  : Res Outcome :=
  let future_date_limit := today + timedelta_days lookahead_days in
  let df_filtered := filter (in_lookahead today future_date_limit) df_all in
  if empty df_filtered then Ok NoUpcomingAppointments
  else
    all_flags <- collect_flags df_filtered ;;
    Ok (Flagged all_flags).

Definition main (today : Z) (df_all : DataFrame) : Res Outcome :=
  batch_scan today LOOKAHEAD_DAYS df_all.

(** The flag records a run produces; none on the early exit. *)
Definition records_of (o : Outcome) : list FlagRecord :=
  match o with
  | NoUpcomingAppointments => []
  | Flagged all_flags => all_flags
  end.

(** ** Notions used in the statements *)

Definition time_le (a b : Appointment) : Prop := APPT_DTTM a <= APPT_DTTM b.

Definition sorted_by_time (df : DataFrame) : Prop := StronglySorted time_le df.

(** Row [a] has the sought type and lies in the closed window of
    [time_window_days] days around [base_time]. *)
Definition in_window (appt_type : string) (base_time time_window_days : Z)
    (a : Appointment) : Prop :=
  APPT_TYPE a = appt_type
  /\ base_time - timedelta_days time_window_days <= APPT_DTTM a
  /\ APPT_DTTM a <= base_time + timedelta_days time_window_days.

(** The flags one iteration appends, as a value. *)
Definition flags_at (df : DataFrame) (a : Appointment) : list string :=
  match appointment_flags df a with
  | Ok fl => fl
  | Raise _ => []
  end.

(** All the flags appended by the loop, before de-duplication. *)
Definition raw_flags (patient_appts : DataFrame) : list string :=
  flat_map (flags_at (sort_values patient_appts)) (sort_values patient_appts).

(** A type no rule is keyed on. *)
Definition triggers_nothing (appt_type : string) : Prop :=
  appt_type <> "Chemo" /\ appt_type <> "Oncology Visit"
  /\ appt_type <> "Radiation Therapy".

(** The record, if any, that the main loop appends for one group. *)
Definition group_record (group : Z * DataFrame) : list FlagRecord :=
  let '(mrn, patient_appts) := group in
  match list_set (raw_flags patient_appts), patient_appts with
  | _ :: _, first :: _ =>
      [mkFlagRecord mrn (SCHEDULER_ID first) (list_set (raw_flags patient_appts))]
  | _, _ => []
  end.

(** Message [m] is reported for patient [mrn]. *)
Definition flagged (outcome : Outcome) (mrn : Z) (m : string) : Prop :=
  exists r, In r (records_of outcome) /\ FLAGGED_MRN r = mrn /\ In m (FLAGS r).

(** ** Sample rows *)

(** A timestamp given as a day number and an hour of that day. *)
Definition at_time (day hour : Z) : Z :=
  day * NS_PER_DAY + hour * 3600000000000.

(** 2024-01-01 is day 19723. *)
Definition lab_3pm : Appointment :=
  mkAppointment "APT-10000001" 5 "Lab" (at_time 19723 15) "scheduler_A_diligent".
Definition lab_midnight : Appointment :=
  mkAppointment "APT-10000002" 5 "Lab" (at_time 19723 0) "scheduler_A_diligent".
Definition chemo_9am : Appointment :=
  mkAppointment "APT-10000003" 5 "Chemo" (at_time 19723 9) "scheduler_A_diligent".
Definition chemo_midnight : Appointment :=
  mkAppointment "APT-10000004" 5 "Chemo" (at_time 19723 0) "scheduler_A_diligent".

Definition lab_day5 : Appointment :=
  mkAppointment "APT-10000005" 5 "Lab" (at_time 5 0) "scheduler_B_hasty".
Definition lab_day3 : Appointment :=
  mkAppointment "APT-10000006" 5 "Lab" (at_time 3 0) "scheduler_B_hasty".

Definition chemo_6pm : Appointment :=
  mkAppointment "APT-10000007" 5 "Chemo" (at_time 19723 18) "scheduler_A_diligent".

Definition radiation_noon : Appointment :=
  mkAppointment "APT-10000008" 7 "Radiation Therapy" (at_time 19750 12)
    "scheduler_C_forgetful".

Definition mammogram_noon : Appointment :=
  mkAppointment "APT-10000009" 9 "Mammogram" (at_time 19730 12)
    "scheduler_B_hasty".
Definition visit_day_before : Appointment :=
  mkAppointment "APT-10000010" 9 "Oncology Visit" (at_time 19729 12)
    "scheduler_B_hasty".

(** Rows outside the window of 120 days that starts on 2023-12-29
    (day 19720): a Chemo long past and a Chemo far ahead, neither with a
    Lab. *)
Definition chemo_past : Appointment :=
  mkAppointment "APT-10000011" 5 "Chemo" (at_time 19000 9) "scheduler_A_diligent".
Definition chemo_far_ahead : Appointment :=
  mkAppointment "APT-10000012" 5 "Chemo" (at_time 19900 9) "scheduler_A_diligent".
Definition visit_other_scheduler : Appointment :=
  mkAppointment "APT-10000013" 9 "Oncology Visit" (at_time 19731 12)
    "scheduler_C_forgetful".

(** ** More sample rows *)

Definition lab_day_before : Appointment :=
  mkAppointment "APT-10000014" 5 "Lab" (at_time 19722 9) "scheduler_A_diligent".
Definition mammogram_day_before : Appointment :=
  mkAppointment "APT-10000015" 9 "Mammogram" (at_time 19728 12) "scheduler_B_hasty".
Definition simulation_day_after : Appointment :=
  mkAppointment "APT-10000016" 7 "CT Simulation" (at_time 19751 12)
    "scheduler_C_forgetful".

(** ** Notions used in the further properties *)

(** The types the rules are keyed on. *)
Definition is_trigger (appt_type : string) : bool :=
  (appt_type =? "Chemo")%string
  || (appt_type =? "Oncology Visit")%string
  || (appt_type =? "Radiation Therapy")%string.

(** Message [m] is backed by rows of the table: a trigger row [a] and,
    except for the "no Lab" message, a related row [b] of the type the rule
    seeks, inside the rule's window around [a], in the position relative to
    [a] that the message reports. *)
Definition flag_justified (appts : DataFrame) (m : string) : Prop :=
  exists a, In a appts
  /\ ((APPT_TYPE a = "Chemo"
       /\ ((m = msg_no_lab (date (APPT_DTTM a))
            /\ forall b, In b appts -> ~ in_window "Lab" (APPT_DTTM a) 7 b)
           \/ exists b, In b appts /\ in_window "Lab" (APPT_DTTM a) 7 b
              /\ ((m = msg_lab_after (date (APPT_DTTM b)) (date (APPT_DTTM a))
                   /\ APPT_DTTM b > APPT_DTTM a)
                  \/ (m = msg_same_day (date (APPT_DTTM b)) (date (APPT_DTTM a))
                      /\ APPT_DTTM b <= APPT_DTTM a
                      /\ date (APPT_DTTM b) = date (APPT_DTTM a)))))
      \/ (APPT_TYPE a = "Oncology Visit"
          /\ exists b, In b appts /\ in_window "Mammogram" (APPT_DTTM a) 14 b
             /\ ((m = msg_visit_before (date (APPT_DTTM a)) (date (APPT_DTTM b))
                  /\ APPT_DTTM b > APPT_DTTM a)
                 \/ (m = msg_too_soon (date (APPT_DTTM a)) (date (APPT_DTTM b))
                     /\ APPT_DTTM b <= APPT_DTTM a
                     /\ date (APPT_DTTM a) - date (APPT_DTTM b) < 2)))
      \/ (APPT_TYPE a = "Radiation Therapy"
          /\ exists b, In b appts /\ in_window "CT Simulation" (APPT_DTTM a) 14 b
             /\ m = msg_rt_before (date (APPT_DTTM a)) (date (APPT_DTTM b))
             /\ APPT_DTTM b > APPT_DTTM a)).

Definition lab_same_day_6pm : Appointment :=
  mkAppointment "APT-10000017" 5 "Lab" (at_time 19723 18) "scheduler_A_diligent".

Definition chemo_other_patient : Appointment :=
  mkAppointment "APT-10000018" 7 "Chemo" (at_time 19740 10) "scheduler_C_forgetful".

(** ** The report

    What [format_and_send_reports] and the main block print, as the list of
    the strings handed to [print], in order. *)

Definition INPUT_FILE : string := "generated_appointments_v5.csv".

(** The line feed. *)
Definition nl : string := String "010" EmptyString.

(** [s * n] *)
Fixpoint times (s : string) (n : nat) : string :=
  match n with
  | O => EmptyString
  | S n' => (s ++ times s n')%string
  end.

(** [str(z)] for an integer. *)
Definition string_of_Z (z : Z) : string := NilZero.string_of_int (Z.to_int z).

Definition banner : list string :=
  [(nl ++ times "=" 50)%string;
   "--- GENERATING SCHEDULER ERROR REPORTS ---";
   (times "=" 50 ++ nl)%string].

Definition line_no_errors : string :=
  "âœ… No scheduling errors were found in the upcoming appointments.".

Definition line_email (scheduler_id : string) : string :=
  ("--- Email Report for: " ++ scheduler_id ++ " ---")%string.

Definition line_subject : string :=
  ("Subject: Daily Patient Schedule Review Required" ++ nl)%string.

Definition line_hello : string :=
  ("Hello," ++ nl
   ++ "The automated monitoring system has flagged the following patient schedules for your review:"
   ++ nl)%string.

Definition line_patient (mrn : Z) : string :=
  ("  - PATIENT MRN: " ++ string_of_Z mrn)%string.

Definition line_reason (flag : string) : string :=
  ("    - Reason: " ++ flag)%string.

Definition line_thanks : string :=
  ("Thank you," ++ nl ++ "Clinical Informatics System" ++ nl)%string.

Definition line_end : string :=
  ("--- End of Report ---" ++ nl ++ nl)%string.

(** [groupby('SCHEDULER_ID')]: distinct keys in ascending order. *)
Fixpoint insert_name (k : string) (ks : list string) : list string :=
  match ks with
  | [] => [k]
  | k' :: ks' =>
      if String.ltb k k' then k :: ks
      else if (k =? k')%string then ks
      else k' :: insert_name k ks'
  end.

Definition scheduler_keys (df : list FlagRecord) : list string :=
  fold_right insert_name [] (map FLAGGED_SCHEDULER_ID df).

Definition records_of_scheduler (scheduler_id : string) (df : list FlagRecord)
  : list FlagRecord :=
  filter (fun r => (FLAGGED_SCHEDULER_ID r =? scheduler_id)%string) df.

Definition groupby_scheduler (df : list FlagRecord)
  : list (string * list FlagRecord) :=
  map (fun k => (k, records_of_scheduler k df)) (scheduler_keys df).

(** [group.groupby('PATIENT_MRN')] *)
Definition record_keys (df : list FlagRecord) : list Z :=
  fold_right insert_key [] (map FLAGGED_MRN df).

Definition records_of_mrn (mrn : Z) (df : list FlagRecord) : list FlagRecord :=
  filter (fun r => FLAGGED_MRN r =? mrn) df.

Definition groupby_flagged_mrn (df : list FlagRecord)
  : list (Z * list FlagRecord) :=
  map (fun k => (k, records_of_mrn k df)) (record_keys df).

Definition format_and_send_reports (flagged_patients_df : list FlagRecord)
  : Res (list string) :=
  let out := banner in
  if empty flagged_patients_df then Ok (out ++ [line_no_errors])
  else
    for_each (groupby_scheduler flagged_patients_df)
      (fun out by_scheduler =>
         let '(scheduler_id, group) := by_scheduler in
         let out := out ++ [line_email scheduler_id; line_subject; line_hello] in
         out <- for_each (groupby_flagged_mrn group)
                  (fun out by_mrn =>
                     let '(mrn, patient_flags) := by_mrn in
                     let out := out ++ [line_patient mrn] in
                     flags <- iloc0 (map FLAGS patient_flags) ;;
                     let out := out ++ map line_reason flags in
                     Ok (out ++ [EmptyString]))
                  out ;;
         Ok (out ++ [line_thanks; line_end]))
      out.

(** The standard output of a run; [None] stands for a missing input file. *)
Definition main_stdout (today : Z) (input : option DataFrame)
  : Res (list string) :=
  match input with
  | None =>
      Ok [("Error: The input file '" ++ INPUT_FILE
           ++ "' was not found. Please run an appointment generator script first.")%string]
  | Some df_all =>
      let out :=
        [("Loaded " ++ string_of_Z (Z.of_nat (List.length df_all))
          ++ " total appointments from '" ++ INPUT_FILE ++ "'.")%string] in
      let future_date_limit := today + timedelta_days LOOKAHEAD_DAYS in
      let df_filtered := filter (in_lookahead today future_date_limit) df_all in
      let out :=
        out ++ [("Filtered to " ++ string_of_Z (Z.of_nat (List.length df_filtered))
                 ++ " appointments scheduled in the next "
                 ++ string_of_Z LOOKAHEAD_DAYS ++ " days.")%string] in
      if empty df_filtered then
        Ok (out ++ ["No upcoming appointments found in the specified date range. Exiting."])
      else
        all_flags <- collect_flags df_filtered ;;
        report <- format_and_send_reports all_flags ;;
        Ok (out ++ report)
  end.

(** What the report prints for one patient of a scheduler's group, and for
    one scheduler. *)
Definition patient_block (by_mrn : Z * list FlagRecord) : list string :=
  let '(mrn, patient_flags) := by_mrn in
  [line_patient mrn]
  ++ map line_reason (match patient_flags with
                      | [] => []
                      | r :: _ => FLAGS r
                      end)
  ++ [EmptyString].

Definition email_block (by_scheduler : string * list FlagRecord) : list string :=
  let '(scheduler_id, group) := by_scheduler in
  [line_email scheduler_id; line_subject; line_hello]
  ++ flat_map patient_block (groupby_flagged_mrn group)
  ++ [line_thanks; line_end].

(** The strict order of [groupby] on scheduler names. *)
Definition name_lt (a b : string) : Prop := String.ltb a b = true.

(** The lines that open an email report. *)
Definition is_email_line (line : string) : bool :=
  String.prefix "--- Email Report for: " line.

Definition flagged_same_day : FlagRecord :=
  mkFlagRecord 5 "scheduler_A_diligent" [msg_same_day 19723 19723].
Definition flagged_no_lab : FlagRecord :=
  mkFlagRecord 5 "scheduler_A_diligent" [msg_no_lab 19723].

(** ** The generators: the next free business day

    [find_next_available_day] of [appointment_generator_v3.py] and
    [appointment_generator_v5.py] (the version of
    [appointment_generator_v2.py] first maps its appointments to their
    dates).  A datetime is a timestamp as above; [existing_dates] holds day
    numbers. *)

(** [t.weekday()]: Monday is 0 and Sunday is 6; day 0 was a Thursday. *)
Definition weekday (t : Z) : Z := (date t + 3) mod 7.

(** [d in existing_dates] *)
Definition date_in (d : Z) (existing_dates : list Z) : bool :=
  existsb (Z.eqb d) existing_dates.

(** The [while True] loop, run for at most [fuel] iterations. *)
Fixpoint find_next_available_day_loop (fuel : nat) (date_to_check : Z)
    (existing_dates : list Z) : option Z :=
  match fuel with
  | O => None
  | S fuel' =>
      if (weekday date_to_check <? 5)
         && negb (date_in (date date_to_check) existing_dates)
      then Some date_to_check
      else find_next_available_day_loop fuel'
             (date_to_check + timedelta_days 1) existing_dates
  end.

(** A number of iterations within which the loop returns: past the last
    taken date every day is free, and a weekday comes within three days. *)
Definition search_bound (start_date : Z) (existing_dates : list Z) : nat :=
  Z.to_nat (fold_right Z.max (date start_date) existing_dates - date start_date) + 4.

Definition find_next_available_day (start_date : Z) (existing_dates : list Z) : Z :=
  match find_next_available_day_loop (search_bound start_date existing_dates)
          start_date existing_dates with
  | Some found => found
  | None => start_date
  end.

(** Day [t] is a weekday whose date is not taken. *)
Definition available (existing_dates : list Z) (t : Z) : Prop :=
  weekday t < 5 /\ ~ In (date t) existing_dates.

Definition visit_alone : Appointment :=
  mkAppointment "APT-10000019" 9 "Oncology Visit" (at_time 19729 12) "scheduler_B_hasty".

(** ** The generators: [appointment_generator_v3.py]

    A schedule is the list of (datetime, appointment type) pairs that
    [schedule_plan] returns.  The coin tossed by the forgetful scheduler
    ([random.choice([True, False])]) is an argument. *)

Module V3.

(** The ['steps'] of [CARE_PLANS]. *)
Definition chemo_cycle : list string := ["Lab"; "Chemo"].
Definition imaging_followup : list string := ["Mammogram"; "Oncology Visit"].
Definition radiation_prep : list string := ["CT Simulation"; "Radiation Therapy"].
Definition full_workup : list string :=
  ["CT Chest/Abdomen/Pelvis"; "Bone Scan"; "Oncology Visit"].

(** The ['rule'] of each plan, on a dictionary from step to datetime;
    [(a - b).days] is the number of whole days of the difference. *)
Definition rule_chemo_cycle (dates : string -> Z) : bool :=
  let days := (dates "Chemo" - dates "Lab") / NS_PER_DAY in
  (1 <=? days) && (days <? 4).

Definition rule_imaging_followup (dates : string -> Z) : bool :=
  dates "Oncology Visit" >? dates "Mammogram".

Definition rule_radiation_prep (dates : string -> Z) : bool :=
  dates "Radiation Therapy" >? dates "CT Simulation".

Definition rule_full_workup (dates : string -> Z) : bool :=
  (dates "Oncology Visit" >? dates "CT Chest/Abdomen/Pelvis")
  && (dates "Oncology Visit" >? dates "Bone Scan").

(** [[d.date() for d, t in appointments]] *)
Definition dates_of (appointments : list (Z * string)) : list Z :=
  map (fun a => date (fst a)) appointments.

(** The loop of the diligent scheduler: the next search starts on the day
    just scheduled. *)
Fixpoint diligent_loop (plan_steps : list string) (current_date : Z)
    (appointments : list (Z * string)) : list (Z * string) :=
  match plan_steps with
  | [] => appointments
  | step :: rest =>
      let appt_date :=
        find_next_available_day current_date (dates_of appointments) in
      diligent_loop rest appt_date (appointments ++ [(appt_date, step)])
  end.

(** The loop of the hasty scheduler: the next search starts a day later. *)
Fixpoint hasty_loop (plan_steps : list string) (current_date : Z)
    (appointments : list (Z * string)) : list (Z * string) :=
  match plan_steps with
  | [] => appointments
  | step :: rest =>
      let appt_date :=
        find_next_available_day current_date (dates_of appointments) in
      hasty_loop rest (appt_date + timedelta_days 1)
        (appointments ++ [(appt_date, step)])
  end.

Definition schedule_plan (scheduler_id : string) (plan_steps : list string)
    (start_date : Z) (follows_rules : bool) : list (Z * string) :=
  if (scheduler_id =? "scheduler_A_diligent")%string then
    diligent_loop plan_steps start_date []
  else if (scheduler_id =? "scheduler_B_hasty")%string then
    hasty_loop plan_steps start_date []
  else if follows_rules then hasty_loop plan_steps start_date []
  else hasty_loop (rev plan_steps) start_date [].

End V3.

(** The first business day at or after [t], and the one after [t]. *)
Definition first_business_day (t : Z) : Z :=
  t + timedelta_days (if weekday t <? 5 then 0 else 7 - weekday t).

Definition next_business_day (t : Z) : Z :=
  first_business_day (t + timedelta_days 1).

(** [n] consecutive business days from [t] on. *)
Fixpoint business_run (n : nat) (t : Z) : list Z :=
  match n with
  | O => []
  | S n' => t :: business_run n' (next_business_day t)
  end.

(** The (datetime, type) pairs of the rows of a table. *)
Definition schedule_of (rows : DataFrame) : list (Z * string) :=
  map (fun a => (APPT_DTTM a, APPT_TYPE a)) rows.

(** The forgetful scheduler's coin fell on the side of the error. *)
Definition makes_error (scheduler_id : string) (follows_rules : bool) : bool :=
  negb (scheduler_id =? "scheduler_A_diligent")%string
  && negb (scheduler_id =? "scheduler_B_hasty")%string
  && negb follows_rules.

(** Rows of generated schedules that start on Monday 2024-01-01, 09:00. *)
Definition gen_chemo_monday : Appointment :=
  mkAppointment "1" 1234567 "Chemo" (at_time 19723 9) "scheduler_C_forgetful".
Definition gen_lab_tuesday : Appointment :=
  mkAppointment "2" 1234567 "Lab" (at_time 19724 9) "scheduler_C_forgetful".
Definition gen_mammogram_monday : Appointment :=
  mkAppointment "3" 2345678 "Mammogram" (at_time 19723 9) "scheduler_A_diligent".
Definition gen_visit_tuesday : Appointment :=
  mkAppointment "4" 2345678 "Oncology Visit" (at_time 19724 9) "scheduler_A_diligent".
Definition gen_simulation_monday : Appointment :=
  mkAppointment "5" 3456789 "CT Simulation" (at_time 19723 9) "scheduler_B_hasty".
Definition gen_radiation_tuesday : Appointment :=
  mkAppointment "6" 3456789 "Radiation Therapy" (at_time 19724 9) "scheduler_B_hasty".
Definition gen_visit_monday : Appointment :=
  mkAppointment "7" 4567890 "Oncology Visit" (at_time 19723 9) "scheduler_C_forgetful".
Definition gen_bone_scan_tuesday : Appointment :=
  mkAppointment "8" 4567890 "Bone Scan" (at_time 19724 9) "scheduler_C_forgetful".
Definition gen_ct_wednesday : Appointment :=
  mkAppointment "9" 4567890 "CT Chest/Abdomen/Pelvis" (at_time 19725 9)
    "scheduler_C_forgetful".

(** A dictionary from step to datetime agrees with a schedule. *)
Definition dates_agree (dates : string -> Z) (schedule : list (Z * string)) : Prop :=
  forall t step, In (t, step) schedule -> dates step = t.

(** ** The generators: [appointment_generator_v5.py]

    The outcomes of the calls of the [random] module are arguments: the
    successive values of [random.choice(BUSINESS_HOURS_TIMES)] (a time of
    day, as hour and minute), the successive values of
    [random.randint(2, 5)], and whether [random.random() < 0.4]. *)

Module V5.

Definition NS_PER_HOUR : Z := 3600000000000.
Definition NS_PER_MINUTE : Z := 60000000000.

(** [[time(h, m) for h in range(8, 17) for m in (0, 15, 30, 45)]] *)
Definition BUSINESS_HOURS_TIMES : list (Z * Z) :=
  flat_map (fun h => map (fun m => (h, m)) [0; 15; 30; 45])
    [8; 9; 10; 11; 12; 13; 14; 15; 16].

Record Random : Type := mkRandom {
  choice : nat -> Z * Z;
  randint_2_5 : nat -> Z;
  random_lt_04 : bool
}.

Record PlanDetails : Type := mkPlan {
  steps : list string;
  min_gap_days : option Z;
  max_gap_days : option Z
}.

(** [CARE_PLANS] *)
Definition initial_visit : PlanDetails := mkPlan ["Oncology Visit"] None None.
Definition chemo_cycle : PlanDetails := mkPlan ["Lab"; "Chemo"] (Some 0) (Some 2).
Definition imaging_followup : PlanDetails :=
  mkPlan ["Mammogram"; "Oncology Visit"] (Some 2) (Some 7).
Definition radiation_prep : PlanDetails :=
  mkPlan ["CT Simulation"; "Radiation Therapy"] (Some 1) (Some 5).

(** [plan_details.get('min_gap_days', 1)] *)
Definition get_min_gap (plan_details : PlanDetails) : Z :=
  match min_gap_days plan_details with
  | Some g => g
  | None => 1
  end.

(** [t.replace(hour=h, minute=m)]: the date, the seconds and the fraction of
    a second of [t] are kept. *)
Definition replace_hour_minute (t hour minute : Z) : Z :=
  date t * NS_PER_DAY + hour * NS_PER_HOUR + minute * NS_PER_MINUTE
  + t mod NS_PER_MINUTE.

(** [appt_date.replace(hour=random.choice(...).hour,
                       minute=random.choice(...).minute)],
    with the [n]-th and the next outcome of [random.choice]. *)
Definition random_slot (rnd : Random) (n : nat) (appt_date : Z) : Z :=
  replace_hour_minute appt_date (fst (choice rnd n)) (snd (choice rnd (S n))).

(** [appointments[-1][0]] *)
Definition last_datetime (appointments : list (Z * string)) : Res Z :=
  match rev appointments with
  | [] => Raise IndexError
  | a :: _ => Ok (fst a)
  end.

(** The loop of the diligent scheduler, from the [i]-th step on. *)
Fixpoint diligent_loop (rnd : Random) (plan_details : PlanDetails)
    (remaining : list string) (i : nat) (current_date : Z)
    (appointments : list (Z * string)) (existing_dates : list Z)
  : Res (list (Z * string) * list Z) :=
  match remaining with
  | [] => Ok (appointments, existing_dates)
  | step :: rest =>
      current_date <-
        (if (0 <? i)%nat then
           last <- last_datetime appointments ;;
           Ok (last + timedelta_days (get_min_gap plan_details))
         else Ok current_date) ;;
      let appt_date := find_next_available_day current_date existing_dates in
      let appt_datetime := random_slot rnd (2 * i) appt_date in
      diligent_loop rnd plan_details rest (S i) current_date
        (appointments ++ [(appt_datetime, step)])
        (existing_dates ++ [date appt_datetime])
  end.

(** The loop of the hasty and of the forgetful scheduler. *)
Fixpoint hasty_loop (rnd : Random) (remaining : list string) (i : nat)
    (current_date : Z) (appointments : list (Z * string))
    (existing_dates : list Z) : list (Z * string) * list Z :=
  match remaining with
  | [] => (appointments, existing_dates)
  | step :: rest =>
      let appt_date := find_next_available_day current_date existing_dates in
      let appt_datetime := random_slot rnd (2 * i) appt_date in
      hasty_loop rnd rest (S i)
        (appt_date + timedelta_days (randint_2_5 rnd i))
        (appointments ++ [(appt_datetime, step)])
        (existing_dates ++ [date appt_datetime])
  end.

(** [for i in range(1, len(appointments)): appointments[i] = (base_date.replace(...), appointments[i][1])],
    on the appointments after the first; the slots are drawn after those
    of the [n] appointments of the loop. *)
Fixpoint same_day_error (rnd : Random) (n : nat) (base_date : Z) (i : nat)
    (later : list (Z * string)) : list (Z * string) :=
  match later with
  | [] => []
  | a :: later' =>
      (random_slot rnd (2 * (n + i)) base_date, snd a)
      :: same_day_error rnd n base_date (S i) later'
  end.

Definition schedule_phase (rnd : Random) (scheduler_id : string)
    (plan_details : PlanDetails) (start_date : Z) (existing_dates : list Z)
  : Res (list (Z * string) * list Z) :=
  if (scheduler_id =? "scheduler_A_diligent")%string then
    diligent_loop rnd plan_details (steps plan_details) 0 start_date []
      existing_dates
  else
    let '(appointments, existing_dates) :=
      hasty_loop rnd (steps plan_details) 0 start_date [] existing_dates in
    if (scheduler_id =? "scheduler_C_forgetful")%string && random_lt_04 rnd then
      if (1 <? List.length appointments)%nat && (get_min_gap plan_details >? 0) then
        match appointments with
        | [] => Raise IndexError
        | first :: later =>
            Ok (first :: same_day_error rnd (List.length appointments)
                           (fst first) 0 later,
                existing_dates)
        end
      else if (1 <? List.length appointments)%nat then
        Ok (rev appointments, existing_dates)
      else Ok (appointments, existing_dates)
    else Ok (appointments, existing_dates).

End V5.

(** Every outcome of [random.choice] is an element of the list it is drawn
    from. *)
Definition business_hours (rnd : V5.Random) : Prop :=
  forall n, In (V5.choice rnd n) V5.BUSINESS_HOURS_TIMES.

(** Outcomes for the examples: 10:30 at every draw, a skip of 2 days. *)
Definition rnd_plain (lt_04 : bool) : V5.Random :=
  V5.mkRandom (fun _ => (10, 30)) (fun _ => 2) lt_04.

Definition gen5_lab_monday : Appointment :=
  mkAppointment "APT-20000001" 1234567 "Lab" (at_time 19723 10 + 30 * V5.NS_PER_MINUTE)
    "scheduler_A_diligent".
Definition gen5_chemo_tuesday : Appointment :=
  mkAppointment "APT-20000002" 1234567 "Chemo" (at_time 19724 10 + 30 * V5.NS_PER_MINUTE)
    "scheduler_A_diligent".
Definition gen5_mammogram_monday : Appointment :=
  mkAppointment "APT-20000003" 2345678 "Mammogram"
    (at_time 19723 10 + 30 * V5.NS_PER_MINUTE) "scheduler_C_forgetful".
Definition gen5_visit_monday : Appointment :=
  mkAppointment "APT-20000004" 2345678 "Oncology Visit"
    (at_time 19723 10 + 30 * V5.NS_PER_MINUTE) "scheduler_C_forgetful".

(** * Properties *)

(** ** The error monad *)

(** A loop whose body only appends to the accumulator is a [flat_map]. *)
Lemma for_each_flat_map {A B : Type} (body : list B -> A -> Res (list B))
    (g : A -> list B) :
  (forall acc x, body acc x = Ok (acc ++ g x)) ->
  forall (xs : list A) (acc : list B),
    for_each xs body acc = Ok (acc ++ flat_map g xs).
Proof.
  intros Hb. induction xs as [| x xs IH]; intros acc; simpl.
  - now rewrite app_nil_r.
  - rewrite Hb. simpl. rewrite IH. now rewrite app_assoc.
Qed.

(** ** Days *)

Lemma NS_PER_DAY_pos : 0 < NS_PER_DAY.
Proof. reflexivity. Qed.

Lemma date_spec (t : Z) :
  date t * NS_PER_DAY <= t < (date t + 1) * NS_PER_DAY.
Proof.
  unfold date.
  pose proof (Z.div_mod t NS_PER_DAY) as E.
  pose proof (Z.mod_pos_bound t NS_PER_DAY NS_PER_DAY_pos) as B.
  assert (NS_PER_DAY <> 0) as N by (pose proof NS_PER_DAY_pos; lia).
  specialize (E N). lia.
Qed.

(** Two timestamps of one calendar date are less than a day apart. *)
Lemma same_date_close (a b : Z) :
  date a = date b -> - NS_PER_DAY < a - b < NS_PER_DAY.
Proof.
  intros E. pose proof (date_spec a). pose proof (date_spec b).
  rewrite E in *. lia.
Qed.

(** ** Sorting *)

Lemma insert_row_perm (a : Appointment) (l : DataFrame) :
  Permutation (insert_row a l) (a :: l).
Proof.
  induction l as [| b l IH]; simpl.
  - apply Permutation_refl.
  - destruct (APPT_DTTM a <=? APPT_DTTM b).
    + apply Permutation_refl.
    + eapply perm_trans; [apply perm_skip, IH | apply perm_swap].
Qed.

Lemma sort_values_perm (df : DataFrame) : Permutation (sort_values df) df.
Proof.
  induction df as [| a df IH]; simpl.
  - apply perm_nil.
  - eapply perm_trans; [apply insert_row_perm | now apply perm_skip].
Qed.

Lemma sort_values_In (df : DataFrame) (a : Appointment) :
  In a (sort_values df) <-> In a df.
Proof.
  split; apply Permutation_in;
    [apply sort_values_perm | apply Permutation_sym, sort_values_perm].
Qed.

Lemma insert_row_sorted (a : Appointment) (l : DataFrame) :
  sorted_by_time l -> sorted_by_time (insert_row a l).
Proof.
  unfold sorted_by_time.
  induction l as [| b l IH]; simpl; intros Hs.
  - repeat constructor.
  - inversion Hs as [| b' l' Hl Hb]; subst.
    destruct (APPT_DTTM a <=? APPT_DTTM b) eqn:E.
    + apply Z.leb_le in E. constructor; [exact Hs |].
      constructor; [exact E |].
      eapply Forall_impl; [| exact Hb].
      unfold time_le; intros c Hc; lia.
    + apply Z.leb_gt in E. constructor; [now apply IH |].
      apply Forall_forall. intros c Hc.
      apply (Permutation_in _ (insert_row_perm a l)) in Hc.
      destruct Hc as [<- | Hc]; [unfold time_le; lia |].
      rewrite Forall_forall in Hb. now apply Hb.
Qed.

Lemma sort_values_sorted (df : DataFrame) : sorted_by_time (sort_values df).
Proof.
  induction df as [| a df IH]; simpl.
  - constructor.
  - now apply insert_row_sorted.
Qed.

(** Sorting a table that is already in order leaves it as it is. *)
Lemma sort_values_id (df : DataFrame) :
  sorted_by_time df -> sort_values df = df.
Proof.
  unfold sorted_by_time.
  induction df as [| a df IH]; simpl; intros Hs; [reflexivity |].
  inversion Hs as [| a' l' Hl Ha]; subst.
  rewrite IH by assumption.
  destruct df as [| b df]; [reflexivity |]. simpl.
  inversion Ha as [| b' l'' Hab Hrest]; subst. unfold time_le in Hab.
  apply Z.leb_le in Hab. now rewrite Hab.
Qed.

(** ** The windowed lookup *)

Lemma in_selection_spec (appt_type : string) (base_time w : Z) (a : Appointment) :
  in_selection appt_type (base_time - timedelta_days w)
    (base_time + timedelta_days w) a = true
  <-> in_window appt_type base_time w a.
Proof.
  unfold in_selection, in_window.
  rewrite !andb_true_iff, String.eqb_eq, Z.geb_le, Z.leb_le. tauto.
Qed.

(** The guard on [.empty] keeps [.iloc[0]] from raising: the lookup is the
    timestamp of the first selected row, if there is one. *)
Lemma find_related_appointment_first (df : DataFrame) (appt_type : string)
    (base_time w : Z) :
  find_related_appointment df appt_type base_time w
  = Ok (hd_error (map APPT_DTTM
          (filter (in_selection appt_type (base_time - timedelta_days w)
                     (base_time + timedelta_days w)) df))).
Proof.
  unfold find_related_appointment.
  destruct (filter _ df) as [| a l]; reflexivity.
Qed.

Lemma hd_filter_none {A : Type} (p : A -> bool) (l : list A) :
  hd_error (filter p l) = None <-> (forall a, In a l -> p a = false).
Proof.
  induction l as [| x l IH]; simpl.
  - split; [intros _ a [] | reflexivity].
  - destruct (p x) eqn:E; simpl.
    + split; [discriminate |]. intros H.
      specialize (H x (or_introl eq_refl)). congruence.
    + rewrite IH. split.
      * intros H a [<- | Ha]; auto.
      * intros H a Ha. apply H. now right.
Qed.

Lemma hd_filter_some {A : Type} (p : A -> bool) (l : list A) (x : A) :
  hd_error (filter p l) = Some x -> In x l /\ p x = true.
Proof.
  intros H. apply filter_In.
  destruct (filter p l) as [| y r]; [discriminate |].
  injection H as ->. now left.
Qed.

Lemma find_related_appointment_None (df : DataFrame) (appt_type : string)
    (base_time w : Z) :
  find_related_appointment df appt_type base_time w = Ok None
  <-> (forall a, In a df -> ~ in_window appt_type base_time w a).
Proof.
  rewrite find_related_appointment_first.
  set (p := in_selection _ _ _).
  assert (hd_error (map APPT_DTTM (filter p df)) = None
          <-> hd_error (filter p df) = None) as M
    by (destruct (filter p df); simpl; split; congruence).
  split.
  - intros H a Ha W. injection H as H.
    rewrite M, hd_filter_none in H. specialize (H a Ha).
    apply in_selection_spec in W. subst p. congruence.
  - intros H. f_equal. apply M, hd_filter_none. intros a Ha.
    specialize (H a Ha). subst p.
    destruct (in_selection _ _ _ a) eqn:E; [| reflexivity].
    apply in_selection_spec in E. contradiction.
Qed.

Lemma find_related_appointment_Some (df : DataFrame) (appt_type : string)
    (base_time w t : Z) :
  find_related_appointment df appt_type base_time w = Ok (Some t) ->
  exists a, In a df /\ in_window appt_type base_time w a /\ APPT_DTTM a = t.
Proof.
  rewrite find_related_appointment_first. intros H. injection H as H.
  set (p := in_selection _ _ _) in *.
  destruct (hd_error (filter p df)) as [a |] eqn:E.
  - destruct (hd_filter_some _ _ _ E) as [Ha Hp].
    exists a. split; [exact Ha |]. split; [now apply in_selection_spec |].
    destruct (filter p df); simpl in *; congruence.
  - destruct (filter p df); simpl in *; discriminate.
Qed.

(** In a table sorted by timestamp the first selected row is the earliest. *)
Lemma hd_filter_sorted_min (p : Appointment -> bool) (df : DataFrame) (a : Appointment) :
  sorted_by_time df ->
  hd_error (filter p df) = Some a ->
  forall b, In b df -> p b = true -> APPT_DTTM a <= APPT_DTTM b.
Proof.
  unfold sorted_by_time.
  induction df as [| x df IH]; simpl; intros Hs H b Hb Hp; [contradiction |].
  inversion Hs as [| x' l' Hl Hx]; subst.
  rewrite Forall_forall in Hx.
  destruct (p x) eqn:E.
  - injection H as <-. destruct Hb as [<- | Hb]; [lia | now apply Hx].
  - destruct Hb as [<- | Hb]; [congruence |]. now apply IH.
Qed.

Lemma find_related_appointment_min (df : DataFrame) (appt_type : string)
    (base_time w t : Z) :
  sorted_by_time df ->
  find_related_appointment df appt_type base_time w = Ok (Some t) ->
  forall b, In b df -> in_window appt_type base_time w b -> t <= APPT_DTTM b.
Proof.
  intros Hs H b Hb W.
  rewrite find_related_appointment_first in H. injection H as H.
  set (p := in_selection _ _ _) in *.
  destruct (hd_error (filter p df)) as [a |] eqn:E.
  - assert (APPT_DTTM a = t) as <-
      by (destruct (filter p df); simpl in *; congruence).
    eapply hd_filter_sorted_min; eauto. now apply in_selection_spec.
  - destruct (filter p df); simpl in *; discriminate.
Qed.

(** The lookup never raises. *)
Lemma find_related_appointment_total (df : DataFrame) (appt_type : string)
    (base_time w : Z) :
  exists r, find_related_appointment df appt_type base_time w = Ok r.
Proof. rewrite find_related_appointment_first. eauto. Qed.

(** On sorted tables the lookup depends only on the rows present. *)
Lemma find_related_appointment_perm (df1 df2 : DataFrame) (appt_type : string)
    (base_time w : Z) :
  sorted_by_time df1 -> sorted_by_time df2 -> Permutation df1 df2 ->
  find_related_appointment df1 appt_type base_time w
  = find_related_appointment df2 appt_type base_time w.
Proof.
  intros S1 S2 P.
  destruct (find_related_appointment_total df1 appt_type base_time w) as [r1 E1].
  destruct (find_related_appointment_total df2 appt_type base_time w) as [r2 E2].
  rewrite E1, E2. f_equal.
  destruct r1 as [t1 |], r2 as [t2 |]; trivial.
  - destruct (find_related_appointment_Some _ _ _ _ _ E1) as (a1 & I1 & W1 & T1).
    destruct (find_related_appointment_Some _ _ _ _ _ E2) as (a2 & I2 & W2 & T2).
    pose proof (find_related_appointment_min _ _ _ _ _ S1 E1 a2
                  (Permutation_in _ (Permutation_sym P) I2) W2).
    pose proof (find_related_appointment_min _ _ _ _ _ S2 E2 a1
                  (Permutation_in _ P I1) W1).
    f_equal. lia.
  - destruct (find_related_appointment_Some _ _ _ _ _ E1) as (a1 & I1 & W1 & _).
    rewrite find_related_appointment_None in E2.
    exfalso. exact (E2 a1 (Permutation_in _ P I1) W1).
  - destruct (find_related_appointment_Some _ _ _ _ _ E2) as (a2 & I2 & W2 & _).
    rewrite find_related_appointment_None in E1.
    exfalso. exact (E1 a2 (Permutation_in _ (Permutation_sym P) I2) W2).
Qed.

(** ** The rules, one appointment at a time *)

Ltac lookup_cases df ty t w :=
  let r := fresh "r" in
  let E := fresh "E" in
  destruct (find_related_appointment_total df ty t w) as [r E];
  rewrite E; simpl; destruct r as [? |]; simpl;
  repeat match goal with |- context [if ?c then _ else _] => destruct c end.

Lemma chemo_rule_total (df : DataFrame) (t : Z) :
  exists fl, chemo_rule df t = Ok fl /\ (List.length fl <= 1)%nat.
Proof.
  unfold chemo_rule. lookup_cases df "Lab" t 7;
    eexists; split; try reflexivity; simpl; lia.
Qed.

Lemma oncology_rule_total (df : DataFrame) (t : Z) :
  exists fl, oncology_rule df t = Ok fl /\ (List.length fl <= 1)%nat.
Proof.
  unfold oncology_rule. lookup_cases df "Mammogram" t 14;
    eexists; split; try reflexivity; simpl; lia.
Qed.

Lemma radiation_rule_total (df : DataFrame) (t : Z) :
  exists fl, radiation_rule df t = Ok fl /\ (List.length fl <= 1)%nat.
Proof.
  unfold radiation_rule. lookup_cases df "CT Simulation" t 14;
    eexists; split; try reflexivity; simpl; lia.
Qed.

Lemma appointment_flags_total (df : DataFrame) (a : Appointment) :
  exists fl, appointment_flags df a = Ok fl.
Proof.
  unfold appointment_flags.
  destruct (chemo_rule_total df (APPT_DTTM a)) as (f1 & E1 & _).
  destruct (oncology_rule_total df (APPT_DTTM a)) as (f2 & E2 & _).
  destruct (radiation_rule_total df (APPT_DTTM a)) as (f3 & E3 & _).
  rewrite E1, E2, E3.
  destruct (APPT_TYPE a =? "Chemo")%string,
           (APPT_TYPE a =? "Oncology Visit")%string,
           (APPT_TYPE a =? "Radiation Therapy")%string; simpl; eauto.
Qed.

Lemma appointment_flags_value (df : DataFrame) (a : Appointment) :
  appointment_flags df a = Ok (flags_at df a).
Proof.
  unfold flags_at.
  destruct (appointment_flags_total df a) as [fl E]. now rewrite E.
Qed.

Lemma check_patient_schedule_value (patient_appts : DataFrame) :
  check_patient_schedule patient_appts = Ok (list_set (raw_flags patient_appts)).
Proof.
  unfold check_patient_schedule, raw_flags.
  rewrite (for_each_flat_map _ (flags_at (sort_values patient_appts)));
    [reflexivity |].
  intros acc a. now rewrite appointment_flags_value.
Qed.

Lemma list_set_In (flags : list string) (m : string) :
  In m (list_set flags) <-> In m flags.
Proof. apply nodup_In. Qed.

Lemma list_set_NoDup (flags : list string) : NoDup (list_set flags).
Proof. apply NoDup_nodup. Qed.

(** Every returned message was appended for some row, and conversely. *)
Lemma check_patient_schedule_In (patient_appts : DataFrame) (flags : list string)
    (m : string) :
  check_patient_schedule patient_appts = Ok flags ->
  (In m flags <->
   exists a, In a patient_appts /\ In m (flags_at (sort_values patient_appts) a)).
Proof.
  rewrite check_patient_schedule_value. intros H. injection H as <-.
  rewrite list_set_In. unfold raw_flags. rewrite in_flat_map.
  split; intros (a & Ha & Hm); exists a; split; trivial;
    now apply sort_values_In.
Qed.

(** ** Independence of the row order *)

Lemma appointment_flags_perm (df1 df2 : DataFrame) (a : Appointment) :
  sorted_by_time df1 -> sorted_by_time df2 -> Permutation df1 df2 ->
  appointment_flags df1 a = appointment_flags df2 a.
Proof.
  intros S1 S2 P.
  unfold appointment_flags, chemo_rule, oncology_rule, radiation_rule.
  now rewrite !(find_related_appointment_perm df1 df2) by assumption.
Qed.

Lemma flags_perm (df1 df2 : DataFrame) :
  Permutation df1 df2 -> Permutation (raw_flags df1) (raw_flags df2).
Proof.
  intros P. unfold raw_flags.
  assert (Permutation (sort_values df1) (sort_values df2)) as PS.
  { eapply perm_trans; [apply sort_values_perm |].
    eapply perm_trans; [exact P | apply Permutation_sym, sort_values_perm]. }
  rewrite (flat_map_ext (flags_at (sort_values df1)) (flags_at (sort_values df2))).
  - now apply Permutation_flat_map.
  - intros a. unfold flags_at.
    now rewrite (appointment_flags_perm (sort_values df1) (sort_values df2))
      by (try apply sort_values_sorted; exact PS).
Qed.

Lemma list_set_perm (l1 l2 : list string) :
  Permutation l1 l2 -> Permutation (list_set l1) (list_set l2).
Proof.
  intros P. apply NoDup_Permutation; try apply list_set_NoDup.
  intros m. rewrite !list_set_In.
  split; apply Permutation_in; [exact P | now apply Permutation_sym].
Qed.

(** ** Dispatch on the appointment type *)

Lemma appointment_flags_chemo (df : DataFrame) (a : Appointment) :
  APPT_TYPE a = "Chemo" ->
  appointment_flags df a = chemo_rule df (APPT_DTTM a).
Proof.
  intros T. unfold appointment_flags. rewrite T. simpl.
  destruct (chemo_rule_total df (APPT_DTTM a)) as (fl & E & _).
  rewrite E. simpl. now rewrite app_nil_r.
Qed.

Lemma appointment_flags_visit (df : DataFrame) (a : Appointment) :
  APPT_TYPE a = "Oncology Visit" ->
  appointment_flags df a = oncology_rule df (APPT_DTTM a).
Proof.
  intros T. unfold appointment_flags. rewrite T. simpl.
  destruct (oncology_rule_total df (APPT_DTTM a)) as (fl & E & _).
  rewrite E. simpl. now rewrite app_nil_r.
Qed.

Lemma appointment_flags_radiation (df : DataFrame) (a : Appointment) :
  APPT_TYPE a = "Radiation Therapy" ->
  appointment_flags df a = radiation_rule df (APPT_DTTM a).
Proof.
  intros T. unfold appointment_flags. rewrite T. simpl.
  destruct (radiation_rule_total df (APPT_DTTM a)) as (fl & E & _).
  now rewrite E.
Qed.

Lemma appointment_flags_other (df : DataFrame) (a : Appointment) :
  triggers_nothing (APPT_TYPE a) -> appointment_flags df a = Ok [].
Proof.
  intros (T1 & T2 & T3). unfold appointment_flags.
  apply String.eqb_neq in T1, T2, T3. now rewrite T1, T2, T3.
Qed.

(** ** The message templates are pairwise distinct *)

Lemma msg_no_lab_not_lab_after (d l c : Z) : msg_no_lab d <> msg_lab_after l c.
Proof. unfold msg_no_lab, msg_lab_after; simpl; discriminate. Qed.

Lemma msg_no_lab_not_same_day (d l c : Z) : msg_no_lab d <> msg_same_day l c.
Proof. unfold msg_no_lab, msg_same_day; simpl; discriminate. Qed.

Lemma msg_lab_after_not_same_day (l c l' c' : Z) :
  msg_lab_after l c <> msg_same_day l' c'.
Proof. unfold msg_lab_after, msg_same_day; simpl; discriminate. Qed.

Lemma msg_visit_before_not_too_soon (v m v' m' : Z) :
  msg_visit_before v m <> msg_too_soon v' m'.
Proof. unfold msg_visit_before, msg_too_soon; simpl; discriminate. Qed.

(** ** Lab and Chemo on one calendar date *)

Lemma flat_map_nil {A B : Type} (f : A -> list B) (l : list A) :
  (forall a, In a l -> f a = []) -> flat_map f l = [].
Proof.
  induction l as [| x l IH]; simpl; intros H; [reflexivity |].
  rewrite (H x (or_introl eq_refl)), IH; [reflexivity |].
  intros a Ha. apply H. now right.
Qed.

Lemma flags_at_other (df : DataFrame) (a : Appointment) :
  triggers_nothing (APPT_TYPE a) -> flags_at df a = [].
Proof. intros T. unfold flags_at. now rewrite appointment_flags_other. Qed.

Lemma lab_triggers_nothing : triggers_nothing "Lab".
Proof. repeat split; discriminate. Qed.

(** The Lab that the Chemo rule finds when the table holds one Lab, on the
    Chemo's date. *)
Lemma find_only_lab (df others : DataFrame) (lab chemo : Appointment) :
  Permutation df (lab :: chemo :: others) ->
  APPT_TYPE lab = "Lab" -> APPT_TYPE chemo = "Chemo" ->
  Forall (fun a => APPT_TYPE a <> "Lab") others ->
  date (APPT_DTTM lab) = date (APPT_DTTM chemo) ->
  find_related_appointment df "Lab" (APPT_DTTM chemo) 7
  = Ok (Some (APPT_DTTM lab)).
Proof.
  intros P TL TC O D.
  destruct (find_related_appointment_total df "Lab" (APPT_DTTM chemo) 7) as [r E].
  rewrite E. f_equal. destruct r as [t |].
  - destruct (find_related_appointment_Some _ _ _ _ _ E) as (a & Ia & (Ta & _) & <-).
    apply (Permutation_in _ P) in Ia.
    destruct Ia as [<- | [<- | Ia]]; [reflexivity | congruence |].
    rewrite Forall_forall in O. now destruct (O a Ia).
  - rewrite find_related_appointment_None in E. exfalso.
    apply (E lab); [apply (Permutation_in _ (Permutation_sym P)); now left |].
    pose proof (same_date_close _ _ D). pose proof NS_PER_DAY_pos.
    unfold in_window, timedelta_days. repeat split; [exact TL | lia | lia].
Qed.

(** The loop's flags when one row raises [fl] and every other row nothing. *)
Lemma raw_flags_single (appts rest : DataFrame) (a : Appointment)
    (m : string) :
  Permutation appts (a :: rest) ->
  flags_at (sort_values appts) a = [m] ->
  (forall b, In b rest -> flags_at (sort_values appts) b = []) ->
  check_patient_schedule appts = Ok [m].
Proof.
  intros P Ha Hrest.
  rewrite check_patient_schedule_value. f_equal.
  assert (Permutation (raw_flags appts) [m]) as PM.
  { unfold raw_flags.
    eapply perm_trans.
    - apply Permutation_flat_map.
      eapply perm_trans; [apply sort_values_perm | exact P].
    - simpl. rewrite Ha, (flat_map_nil _ rest Hrest). apply Permutation_refl. }
  apply Permutation_sym, Permutation_length_1_inv in PM.
  now rewrite PM.
Qed.

(** C1, as stated, fails: a Lab at 15:00 and a Chemo at 09:00 of one date
    (2024-01-01) yield the "Lab after Chemo" flag and not the same-day
    flag. *)
Lemma same_date_lab_later_counterexample :
  date (APPT_DTTM lab_3pm) = date (APPT_DTTM chemo_9am)
  /\ check_patient_schedule [lab_3pm; chemo_9am]
     = Ok ["Order Error: Lab on 2024-01-01 is AFTER Chemo on 2024-01-01."]
  /\ check_patient_schedule [lab_3pm; chemo_9am]
     = Ok [msg_lab_after (date (APPT_DTTM lab_3pm)) (date (APPT_DTTM chemo_9am))]
  /\ check_patient_schedule [lab_3pm; chemo_9am]
     <> Ok [msg_same_day (date (APPT_DTTM lab_3pm)) (date (APPT_DTTM chemo_9am))].
Proof.
  repeat split; try (vm_compute; reflexivity).
  vm_compute. discriminate.
Qed.

(** C1 (amended): a Lab and a Chemo on one calendar date, the Lab's
    timestamp not later than the Chemo's, among rows of types that trigger no
    rule and are not Labs: the validator returns exactly the same-day timing
    flag, which is neither the "no Lab" nor the "Lab after Chemo" flag. *)
Theorem same_date_lab_chemo (appts others : DataFrame) (lab chemo : Appointment) :
  Permutation appts (lab :: chemo :: others) ->
  APPT_TYPE lab = "Lab" -> APPT_TYPE chemo = "Chemo" ->
  Forall (fun a => APPT_TYPE a <> "Lab" /\ triggers_nothing (APPT_TYPE a)) others ->
  date (APPT_DTTM lab) = date (APPT_DTTM chemo) ->
  APPT_DTTM lab <= APPT_DTTM chemo ->
  let flag := msg_same_day (date (APPT_DTTM lab)) (date (APPT_DTTM chemo)) in
  check_patient_schedule appts = Ok [flag]
  /\ (forall d, flag <> msg_no_lab d)
  /\ (forall l c, flag <> msg_lab_after l c).
Proof.
  intros P TL TC O D LE flag.
  split; [| split; intros; apply not_eq_sym;
              [apply msg_no_lab_not_same_day | apply msg_lab_after_not_same_day]].
  assert (Permutation (sort_values appts) (lab :: chemo :: others)) as PS
    by (eapply perm_trans; [apply sort_values_perm | exact P]).
  apply (raw_flags_single appts (lab :: others) chemo).
  - eapply perm_trans; [exact P | apply perm_swap].
  - unfold flags_at. rewrite appointment_flags_chemo by exact TC.
    unfold chemo_rule.
    rewrite (find_only_lab _ others lab chemo PS TL TC); trivial.
    + simpl. rewrite D, Z.sub_diag.
      replace (APPT_DTTM lab >? APPT_DTTM chemo) with false
        by (symmetry; rewrite Z.gtb_ltb; now apply Z.ltb_ge).
      simpl. subst flag. now rewrite D.
    + eapply Forall_impl; [| exact O]. now intros a [H _].
  - intros b [<- | Hb].
    + apply flags_at_other. rewrite TL. exact lab_triggers_nothing.
    + apply flags_at_other. rewrite Forall_forall in O. now apply O.
Qed.

Lemma same_date_lab_chemo_witness :
  check_patient_schedule [lab_midnight; chemo_midnight]
  = Ok ["Timing Error: Lab on 2024-01-01 is on the same day as Chemo on 2024-01-01. Must be at least 1 day prior."].
Proof.
  refine (proj1 (same_date_lab_chemo [lab_midnight; chemo_midnight] []
                   lab_midnight chemo_midnight _ _ _ _ _ _)).
  - apply Permutation_refl.
  - reflexivity.
  - reflexivity.
  - constructor.
  - reflexivity.
  - vm_compute. discriminate.
Defined.

(** ** The lookup returns the earliest candidate of a sorted table *)




(** ** Totality *)


(** ** Order independence and de-duplication *)

(** C8: the flags depend only on the rows present: two presentations of the
    same rows (in particular the same table twice) yield flag lists with the
    same members. *)
Theorem check_patient_schedule_order_independent (appts1 appts2 : DataFrame) :
  Permutation appts1 appts2 ->
  exists flags1 flags2,
    check_patient_schedule appts1 = Ok flags1
    /\ check_patient_schedule appts2 = Ok flags2
    /\ (forall m, In m flags1 <-> In m flags2)
    /\ Permutation flags1 flags2.
Proof.
  intros P.
  exists (list_set (raw_flags appts1)), (list_set (raw_flags appts2)).
  rewrite !check_patient_schedule_value.
  pose proof (list_set_perm _ _ (flags_perm _ _ P)) as PF.
  repeat split; trivial; apply Permutation_in;
    [exact PF | now apply Permutation_sym].
Qed.

Lemma check_patient_schedule_order_independent_witness :
  exists flags1 flags2,
    check_patient_schedule [lab_3pm; chemo_9am] = Ok flags1
    /\ check_patient_schedule [chemo_9am; lab_3pm] = Ok flags2
    /\ (forall m, In m flags1 <-> In m flags2)
    /\ Permutation flags1 flags2.
Proof.
  apply (check_patient_schedule_order_independent
           [lab_3pm; chemo_9am] [chemo_9am; lab_3pm]).
  apply perm_swap.
Defined.

(** C9: the returned flag list has no duplicates. *)
Theorem check_patient_schedule_no_duplicates (patient_appts : DataFrame) :
  exists flags,
    check_patient_schedule patient_appts = Ok flags /\ NoDup flags.
Proof.
  exists (list_set (raw_flags patient_appts)).
  split; [apply check_patient_schedule_value | apply list_set_NoDup].
Qed.

(** Two Chemo rows of one date, neither with a Lab nearby, append the same
    text twice; it is returned once. *)
Example duplicate_message_returned_once :
  raw_flags [chemo_9am; chemo_6pm]
  = [msg_no_lab 19723; msg_no_lab 19723]
  /\ check_patient_schedule [chemo_9am; chemo_6pm] = Ok [msg_no_lab 19723].
Proof. split; vm_compute; reflexivity. Qed.

(** ** A Chemo with no Lab in its window *)

(** C3: for a Chemo row with no Lab row within 7 days of it (both ends
    included), the iteration for that Chemo appends exactly the "no Lab"
    flag, which is no ordering or same-day flag, and the validator returns
    it. *)
Theorem chemo_without_lab (patient_appts : DataFrame) (chemo : Appointment) :
  In chemo patient_appts ->
  APPT_TYPE chemo = "Chemo" ->
  (forall a, In a patient_appts -> ~ in_window "Lab" (APPT_DTTM chemo) 7 a) ->
  let flag := msg_no_lab (date (APPT_DTTM chemo)) in
  appointment_flags (sort_values patient_appts) chemo = Ok [flag]
  /\ (exists flags, check_patient_schedule patient_appts = Ok flags /\ In flag flags)
  /\ (forall l c, flag <> msg_lab_after l c)
  /\ (forall l c, flag <> msg_same_day l c).
Proof.
  intros I T N flag.
  assert (appointment_flags (sort_values patient_appts) chemo = Ok [flag]) as E.
  { rewrite appointment_flags_chemo by exact T. unfold chemo_rule.
    replace (find_related_appointment (sort_values patient_appts) "Lab"
               (APPT_DTTM chemo) 7) with (@Ok (option Z) None); [reflexivity |].
    symmetry. apply find_related_appointment_None.
    intros a Ha. apply N. now apply sort_values_In. }
  split; [exact E |]. split.
  - exists (list_set (raw_flags patient_appts)).
    split; [apply check_patient_schedule_value |].
    apply list_set_In. unfold raw_flags. apply in_flat_map.
    exists chemo. split; [now apply sort_values_In |].
    unfold flags_at. rewrite E. now left.
  - split; intros; [apply msg_no_lab_not_lab_after | apply msg_no_lab_not_same_day].
Qed.

Lemma chemo_without_lab_witness :
  appointment_flags (sort_values [chemo_9am]) chemo_9am
  = Ok ["Critical Error: A Chemo on 2024-01-01 has no Lab test scheduled within the prior 7 days."].
Proof.
  refine (proj1 (chemo_without_lab [chemo_9am] chemo_9am _ _ _)).
  - now left.
  - reflexivity.
  - intros a [<- | []] [T _]. discriminate T.
Defined.

(** ** A Radiation Therapy with no CT Simulation in its window *)

(** C10: for a Radiation Therapy row with no CT Simulation row within 14
    days of it, the iteration for that row appends no flag. *)
Theorem radiation_without_simulation (patient_appts : DataFrame) (rt : Appointment) :
  In rt patient_appts ->
  APPT_TYPE rt = "Radiation Therapy" ->
  (forall a, In a patient_appts
             -> ~ in_window "CT Simulation" (APPT_DTTM rt) 14 a) ->
  appointment_flags (sort_values patient_appts) rt = Ok [].
Proof.
  intros I T N.
  rewrite appointment_flags_radiation by exact T. unfold radiation_rule.
  replace (find_related_appointment (sort_values patient_appts) "CT Simulation"
             (APPT_DTTM rt) 14) with (@Ok (option Z) None); [reflexivity |].
  symmetry. apply find_related_appointment_None.
  intros a Ha. apply N. now apply sort_values_In.
Qed.

Lemma radiation_without_simulation_witness :
  appointment_flags (sort_values [radiation_noon]) radiation_noon = Ok []
  /\ check_patient_schedule [radiation_noon] = Ok [].
Proof.
  split; [| reflexivity].
  apply (radiation_without_simulation [radiation_noon] radiation_noon).
  - now left.
  - reflexivity.
  - intros a [<- | []] [T _]. discriminate T.
Defined.

(** ** One flag per rule *)

(** C4: every rule appends at most one flag per evaluation.  When the
    Mammogram found for an Oncology Visit is later than the visit, the rule
    appends the "before" flag alone, whatever the gap in calendar days; when
    the Lab found for a Chemo is later than the Chemo, the rule appends the
    "Lab after Chemo" flag alone. *)
Theorem one_flag_per_rule (patient_appts : DataFrame) (appt_time : Z) :
  (exists fl, chemo_rule patient_appts appt_time = Ok fl
              /\ (List.length fl <= 1)%nat)
  /\ (exists fl, oncology_rule patient_appts appt_time = Ok fl
                 /\ (List.length fl <= 1)%nat)
  /\ (exists fl, radiation_rule patient_appts appt_time = Ok fl
                 /\ (List.length fl <= 1)%nat)
  /\ (forall mammo_time,
        find_related_appointment patient_appts "Mammogram" appt_time 14
        = Ok (Some mammo_time) ->
        mammo_time > appt_time ->
        oncology_rule patient_appts appt_time
        = Ok [msg_visit_before (date appt_time) (date mammo_time)]
        /\ forall v m, ~ In (msg_too_soon v m)
                         [msg_visit_before (date appt_time) (date mammo_time)])
  /\ (forall lab_time,
        find_related_appointment patient_appts "Lab" appt_time 7
        = Ok (Some lab_time) ->
        lab_time > appt_time ->
        chemo_rule patient_appts appt_time
        = Ok [msg_lab_after (date lab_time) (date appt_time)]
        /\ forall l c, ~ In (msg_same_day l c)
                         [msg_lab_after (date lab_time) (date appt_time)]).
Proof.
  split; [apply chemo_rule_total |].
  split; [apply oncology_rule_total |].
  split; [apply radiation_rule_total |].
  split.
  - intros mammo_time E G. unfold oncology_rule. rewrite E. simpl.
    apply Z.gtb_gt in G. rewrite G. split; [reflexivity |].
    intros v m [H | []]. now apply msg_visit_before_not_too_soon in H.
  - intros lab_time E G. unfold chemo_rule. rewrite E. simpl.
    apply Z.gtb_gt in G. rewrite G. split; [reflexivity |].
    intros l c [H | []]. now apply msg_lab_after_not_same_day in H.
Qed.

(** A Mammogram at [T] and an Oncology Visit a day before it: the gap is
    below two days, and the only flag is the "before" one. *)
Lemma one_flag_per_rule_witness :
  date (APPT_DTTM visit_day_before) - date (APPT_DTTM mammogram_noon) < 2
  /\ oncology_rule [visit_day_before; mammogram_noon] (APPT_DTTM visit_day_before)
     = Ok ["Order Error: Oncology Visit on 2024-01-07 is BEFORE its related Mammogram on 2024-01-08."]
  /\ check_patient_schedule [mammogram_noon; visit_day_before]
     = Ok ["Order Error: Oncology Visit on 2024-01-07 is BEFORE its related Mammogram on 2024-01-08."].
Proof.
  split; [reflexivity |]. split; [| reflexivity].
  refine (proj1 (proj1 (proj2 (proj2 (proj2
    (one_flag_per_rule [visit_day_before; mammogram_noon]
       (APPT_DTTM visit_day_before))))) (APPT_DTTM mammogram_noon) _ _)).
  - reflexivity.
  - reflexivity.
Defined.

(** ** The batch scan *)

Lemma collect_flags_value (df_filtered : DataFrame) :
  collect_flags df_filtered = Ok (flat_map group_record (groupby_mrn df_filtered)).
Proof.
  unfold collect_flags.
  rewrite (for_each_flat_map _ group_record); [reflexivity |].
  intros acc [mrn patient_appts].
  rewrite check_patient_schedule_value. simpl.
  destruct patient_appts as [| first rest].
  - simpl. now rewrite app_nil_r.
  - destruct (list_set (raw_flags (first :: rest))); simpl.
    + now rewrite app_nil_r.
    + reflexivity.
Qed.

Lemma group_record_In (mrn : Z) (patient_appts : DataFrame) (r : FlagRecord) :
  In r (group_record (mrn, patient_appts))
  <-> exists first rest flags,
        patient_appts = first :: rest
        /\ check_patient_schedule patient_appts = Ok flags
        /\ flags <> []
        /\ r = mkFlagRecord mrn (SCHEDULER_ID first) flags.
Proof.
  rewrite check_patient_schedule_value. simpl. split.
  - destruct patient_appts as [| first rest].
    + destruct (list_set (raw_flags [])); intros [].
    + destruct (list_set (raw_flags (first :: rest))) as [| m fl] eqn:E;
        [intros [] |].
      intros [<- | []]. exists first, rest, (m :: fl).
      split; [reflexivity |]. split; [reflexivity |].
      split; [discriminate | reflexivity].
  - intros (first & rest & flags & -> & E & N & ->).
    injection E as E. rewrite E.
    destruct flags; [contradiction | now left].
Qed.

(** Keys of the groups *)

Lemma insert_key_In (k x : Z) (ks : list Z) :
  In x (insert_key k ks) <-> x = k \/ In x ks.
Proof.
  induction ks as [| k' ks IH]; simpl.
  - intuition.
  - destruct (k <? k') eqn:L; simpl; [intuition |].
    destruct (k =? k') eqn:E; simpl.
    + apply Z.eqb_eq in E. subst k'. intuition.
    + rewrite IH. intuition.
Qed.

Lemma group_keys_In (df : DataFrame) (k : Z) :
  In k (group_keys df) <-> exists a, In a df /\ PATIENT_MRN a = k.
Proof.
  unfold group_keys. induction df as [| a df IH]; simpl.
  - split; [intros [] | intros (a & [] & _)].
  - rewrite insert_key_In, IH. split.
    + intros [-> | (b & Hb & E)]; [exists a; auto | exists b; auto].
    + intros (b & [<- | Hb] & E); [now left | right; now exists b].
Qed.

Lemma insert_key_sorted (k : Z) (ks : list Z) :
  StronglySorted Z.lt ks -> StronglySorted Z.lt (insert_key k ks).
Proof.
  induction ks as [| k' ks IH]; simpl; intros Hs.
  - repeat constructor.
  - inversion Hs as [| k'' l Hl Hk]; subst.
    destruct (k <? k') eqn:L.
    + apply Z.ltb_lt in L. constructor; [exact Hs |].
      constructor; [exact L |].
      eapply Forall_impl; [| exact Hk]. intros; lia.
    + destruct (k =? k') eqn:E; [exact Hs |].
      apply Z.ltb_ge in L. apply Z.eqb_neq in E.
      constructor; [now apply IH |].
      apply Forall_forall. intros x Hx. apply insert_key_In in Hx.
      destruct Hx as [-> | Hx]; [lia |].
      rewrite Forall_forall in Hk. now apply Hk.
Qed.

Lemma group_keys_sorted (df : DataFrame) : StronglySorted Z.lt (group_keys df).
Proof.
  unfold group_keys. induction (map PATIENT_MRN df) as [| k ks IH]; simpl.
  - constructor.
  - now apply insert_key_sorted.
Qed.

Lemma strictly_sorted_NoDup (ks : list Z) : StronglySorted Z.lt ks -> NoDup ks.
Proof.
  induction 1 as [| k ks Hs IH Hk]; constructor; [| exact IH].
  intros I. rewrite Forall_forall in Hk. specialize (Hk k I). lia.
Qed.

Lemma rows_of_In (mrn : Z) (df : DataFrame) (a : Appointment) :
  In a (rows_of mrn df) <-> In a df /\ PATIENT_MRN a = mrn.
Proof. unfold rows_of. now rewrite filter_In, Z.eqb_eq. Qed.

Lemma collect_flags_In (df : DataFrame) (r : FlagRecord) :
  In r (flat_map group_record (groupby_mrn df))
  <-> In r (group_record (FLAGGED_MRN r, rows_of (FLAGGED_MRN r) df)).
Proof.
  unfold groupby_mrn. rewrite in_flat_map. split.
  - intros ((mrn & g) & Hg & Hr). apply in_map_iff in Hg.
    destruct Hg as (k & E & _). injection E as -> <-.
    assert (FLAGGED_MRN r = mrn) as ->; [| exact Hr].
    apply group_record_In in Hr.
    destruct Hr as (first & rest & flags & _ & _ & _ & ->). reflexivity.
  - intros Hr. exists (FLAGGED_MRN r, rows_of (FLAGGED_MRN r) df).
    split; [| exact Hr]. apply in_map_iff. exists (FLAGGED_MRN r).
    split; [reflexivity |]. apply group_keys_In.
    apply group_record_In in Hr.
    destruct Hr as (first & rest & flags & E & _).
    exists first. apply rows_of_In. rewrite E. now left.
Qed.

Lemma records_mrn_NoDup (G : Z -> DataFrame) (ks : list Z) :
  NoDup ks ->
  NoDup (map FLAGGED_MRN (flat_map (fun k => group_record (k, G k)) ks))
  /\ (forall k, In k (map FLAGGED_MRN
                        (flat_map (fun k => group_record (k, G k)) ks))
                -> In k ks).
Proof.
  induction 1 as [| k ks Hk Hnd [IH1 IH2]].
  - simpl. split; [constructor | intros k []].
  - cbn [flat_map]. rewrite map_app.
    assert (map FLAGGED_MRN (group_record (k, G k)) = []
            \/ map FLAGGED_MRN (group_record (k, G k)) = [k]) as [E | E].
    { simpl. destruct (list_set (raw_flags (G k))), (G k); simpl; auto. }
    + rewrite E. simpl. split; [exact IH1 | intros; right; auto].
    + rewrite E. simpl. split.
      * constructor; [intros I; now apply Hk, IH2 | exact IH1].
      * intros x [-> | I]; [now left | right; auto].
Qed.

Lemma flat_map_over_map {A B C : Type} (f : B -> list C) (h : A -> B) (l : list A) :
  flat_map f (map h l) = flat_map (fun x => f (h x)) l.
Proof.
  induction l as [| x l IH]; simpl; [reflexivity | now rewrite IH].
Qed.

(** The scan never raises, and its records are those of the groups of the
    filtered table. *)
Lemma batch_scan_value (today lookahead_days : Z) (df_all : DataFrame) :
  exists outcome,
    batch_scan today lookahead_days df_all = Ok outcome
    /\ records_of outcome
       = flat_map group_record
           (groupby_mrn
              (filter (in_lookahead today (today + timedelta_days lookahead_days))
                 df_all)).
Proof.
  unfold batch_scan.
  destruct (filter _ df_all) as [| a l].
  - exists NoUpcomingAppointments. now split.
  - cbn [empty]. rewrite collect_flags_value.
    eexists. split; reflexivity.
Qed.

Lemma flagged_iff (outcome : Outcome) (df : DataFrame) (mrn : Z) (m : string) :
  records_of outcome = flat_map group_record (groupby_mrn df) ->
  (flagged outcome mrn m <-> In m (raw_flags (rows_of mrn df))).
Proof.
  intros R. unfold flagged. rewrite R. split.
  - intros (r & Hr & <- & Hm).
    apply collect_flags_In, group_record_In in Hr.
    destruct Hr as (first & rest & flags & _ & E & _ & Hr).
    rewrite Hr in Hm. cbn [FLAGS] in Hm.
    rewrite check_patient_schedule_value in E. injection E as <-.
    exact (proj1 (list_set_In _ _) Hm).
  - intros Hm.
    destruct (rows_of mrn df) as [| first rest] eqn:G;
      [cbv in Hm; contradiction |].
    exists (mkFlagRecord mrn (SCHEDULER_ID first) (list_set (raw_flags (first :: rest)))).
    split; [| split; [reflexivity | exact (proj2 (list_set_In _ _) Hm)]].
    apply collect_flags_In. simpl FLAGGED_MRN. rewrite G.
    apply group_record_In. exists first, rest, (list_set (raw_flags (first :: rest))).
    split; [reflexivity |]. split; [apply check_patient_schedule_value |].
    split; [| reflexivity].
    intros Z0. apply (proj2 (list_set_In _ _)) in Hm. now rewrite Z0 in Hm.
Qed.

Lemma filter_perm {A : Type} (p : A -> bool) (l1 l2 : list A) :
  Permutation l1 l2 -> Permutation (filter p l1) (filter p l2).
Proof.
  induction 1 as [| x l1 l2 P IH | x y l | l1 l2 l3 P1 IH1 P2 IH2]; simpl.
  - apply perm_nil.
  - destruct (p x); [now apply perm_skip | exact IH].
  - destruct (p x), (p y); try apply Permutation_refl. apply perm_swap.
  - eapply perm_trans; eassumption.
Qed.


(** C5: two tables with the same rows inside [today, today + horizon] get
    the same flags for every patient, whatever rows they hold outside the
    window. *)
Theorem out_of_window_rows_do_not_interfere (today lookahead_days : Z)
    (table1 table2 : DataFrame) :
  Permutation
    (filter (in_lookahead today (today + timedelta_days lookahead_days)) table1)
    (filter (in_lookahead today (today + timedelta_days lookahead_days)) table2) ->
  exists outcome1 outcome2,
    batch_scan today lookahead_days table1 = Ok outcome1
    /\ batch_scan today lookahead_days table2 = Ok outcome2
    /\ (forall mrn m, flagged outcome1 mrn m <-> flagged outcome2 mrn m).
Proof.
  intros P.
  destruct (batch_scan_value today lookahead_days table1) as (o1 & E1 & R1).
  destruct (batch_scan_value today lookahead_days table2) as (o2 & E2 & R2).
  exists o1, o2. split; [exact E1 |]. split; [exact E2 |].
  intros mrn m.
  rewrite (flagged_iff _ _ mrn m R1), (flagged_iff _ _ mrn m R2).
  assert (Permutation
            (raw_flags (rows_of mrn
               (filter (in_lookahead today (today + timedelta_days lookahead_days)) table1)))
            (raw_flags (rows_of mrn
               (filter (in_lookahead today (today + timedelta_days lookahead_days)) table2))))
    as PF by (apply flags_perm, filter_perm, P).
  split; apply Permutation_in; [exact PF | now apply Permutation_sym].
Qed.

Lemma out_of_window_rows_do_not_interfere_witness :
  exists outcome1 outcome2,
    batch_scan (at_time 19720 0) LOOKAHEAD_DAYS [lab_3pm; chemo_9am] = Ok outcome1
    /\ batch_scan (at_time 19720 0) LOOKAHEAD_DAYS
         [chemo_past; chemo_9am; lab_3pm; chemo_far_ahead] = Ok outcome2
    /\ (forall mrn m, flagged outcome1 mrn m <-> flagged outcome2 mrn m).
Proof.
  apply (out_of_window_rows_do_not_interfere (at_time 19720 0) LOOKAHEAD_DAYS
           [lab_3pm; chemo_9am] [chemo_past; chemo_9am; lab_3pm; chemo_far_ahead]).
  change (Permutation [lab_3pm; chemo_9am] [chemo_9am; lab_3pm]).
  apply perm_swap.
Defined.

(** A run over two patients: rows outside the window are dropped, patient 5
    is reported, patient 7 has nothing to report, and patient 9 is reported
    under the scheduler of the first of that patient's rows. *)
Example main_two_patients :
  main (at_time 19720 0)
    [chemo_past; visit_day_before; radiation_noon; lab_3pm; chemo_9am;
     visit_other_scheduler; mammogram_noon; chemo_far_ahead]
  = Ok (Flagged
          [mkFlagRecord 5 "scheduler_A_diligent"
             ["Order Error: Lab on 2024-01-01 is AFTER Chemo on 2024-01-01."];
           mkFlagRecord 9 "scheduler_B_hasty"
             ["Order Error: Oncology Visit on 2024-01-07 is BEFORE its related Mammogram on 2024-01-08.";
              "Timing Error: Visit on 2024-01-09 is too soon after Mammogram on 2024-01-08 (requires 2-day gap for results)."]]).
Proof. vm_compute. reflexivity. Qed.

(** A window without rows ends the run before any rule is evaluated. *)
Lemma batch_scan_empty_window (today lookahead_days : Z) (df_all : DataFrame) :
  filter (in_lookahead today (today + timedelta_days lookahead_days)) df_all = [] ->
  batch_scan today lookahead_days df_all = Ok NoUpcomingAppointments.
Proof. intros E. unfold batch_scan. now rewrite E. Qed.


(** * Further properties of the validator *)

(** ** The lookup on tables in any row order *)

Lemma hd_filter_split {A : Type} (p : A -> bool) (l : list A) (a : A) :
  hd_error (filter p l) = Some a
  <-> exists pre post,
        l = pre ++ a :: post /\ p a = true
        /\ (forall b, In b pre -> p b = false).
Proof.
  induction l as [| x l IH]; simpl.
  - split; [discriminate |].
    intros (pre & post & E & _). now destruct pre.
  - destruct (p x) eqn:Px; simpl.
    + split.
      * intros H. injection H as <-. exists [], l.
        repeat split; trivial. intros b [].
      * intros (pre & post & E & Pa & Hpre).
        destruct pre as [| y pre]; simpl in E; injection E as -> E.
        -- reflexivity.
        -- rewrite (Hpre y (or_introl eq_refl)) in Px. discriminate.
    + rewrite IH. split.
      * intros (pre & post & -> & Pa & Hpre). exists (x :: pre), post.
        repeat split; trivial. intros b [<- | Hb]; auto.
      * intros (pre & post & E & Pa & Hpre).
        destruct pre as [| y pre]; simpl in E; injection E as -> E.
        -- congruence.
        -- exists pre, post. repeat split; trivial.
           intros b Hb. apply Hpre. now right.
Qed.

(** X1: on a table in any row order the lookup returns the timestamp of the
    first row, in row order, that has the sought type and lies in the closed
    window. *)
Theorem find_related_appointment_first_row (df : DataFrame) (appt_type : string)
    (base_time time_window_days t : Z) :
  find_related_appointment df appt_type base_time time_window_days = Ok (Some t)
  <-> exists pre a post,
        df = pre ++ a :: post
        /\ in_window appt_type base_time time_window_days a
        /\ APPT_DTTM a = t
        /\ (forall b, In b pre
                      -> ~ in_window appt_type base_time time_window_days b).
Proof.
  rewrite find_related_appointment_first.
  set (p := in_selection _ _ _).
  assert (forall b, p b = false
                    <-> ~ in_window appt_type base_time time_window_days b) as Pf.
  { intros b. subst p. rewrite <- in_selection_spec.
    destruct (in_selection _ _ _ b); split; congruence. }
  split.
  - intros H. injection H as H.
    destruct (hd_error (filter p df)) as [a |] eqn:E;
      [| destruct (filter p df); discriminate].
    assert (APPT_DTTM a = t) as Ta
      by (destruct (filter p df); simpl in *; congruence).
    apply hd_filter_split in E. destruct E as (pre & post & -> & Pa & Hpre).
    exists pre, a, post. split; [reflexivity |].
    split; [now apply in_selection_spec |]. split; [exact Ta |].
    intros b Hb. now apply Pf, Hpre.
  - intros (pre & a & post & -> & Wa & <- & Hpre).
    assert (hd_error (filter p (pre ++ a :: post)) = Some a) as E.
    { apply hd_filter_split. exists pre, post. split; [reflexivity |].
      split; [now apply in_selection_spec |].
      intros b Hb. now apply Pf, Hpre. }
    destruct (filter p (pre ++ a :: post)); simpl in *; congruence.
Qed.

(** X2: a timestamp the lookup returns is at most [time_window_days] days
    from the reference time; so a negative window finds nothing and a window
    of zero days finds only an appointment at the reference time itself. *)
Theorem find_related_appointment_within (df : DataFrame) (appt_type : string)
    (base_time time_window_days t : Z) :
  find_related_appointment df appt_type base_time time_window_days = Ok (Some t) ->
  0 <= time_window_days
  /\ Z.abs (t - base_time) <= time_window_days * NS_PER_DAY.
Proof.
  intros H.
  destruct (find_related_appointment_Some _ _ _ _ _ H) as (a & _ & (_ & L & U) & <-).
  unfold timedelta_days in *. pose proof NS_PER_DAY_pos. split; [nia | lia].
Qed.

Lemma find_related_appointment_within_witness :
  0 <= 7 /\ Z.abs (APPT_DTTM lab_day5 - at_time 4 0) <= 7 * NS_PER_DAY.
Proof.
  apply (find_related_appointment_within [lab_day5; lab_day3] "Lab").
  reflexivity.
Defined.



(** ** One trigger and its related appointment *)

Lemma flags_at_le_1 (df : DataFrame) (a : Appointment) :
  (List.length (flags_at df a) <= 1)%nat.
Proof.
  unfold flags_at.
  destruct (String.eqb_spec (APPT_TYPE a) "Chemo") as [T | T1].
  { rewrite appointment_flags_chemo by exact T.
    destruct (chemo_rule_total df (APPT_DTTM a)) as (fl & -> & L). exact L. }
  destruct (String.eqb_spec (APPT_TYPE a) "Oncology Visit") as [T | T2].
  { rewrite appointment_flags_visit by exact T.
    destruct (oncology_rule_total df (APPT_DTTM a)) as (fl & -> & L). exact L. }
  destruct (String.eqb_spec (APPT_TYPE a) "Radiation Therapy") as [T | T3].
  { rewrite appointment_flags_radiation by exact T.
    destruct (radiation_rule_total df (APPT_DTTM a)) as (fl & -> & L). exact L. }
  rewrite appointment_flags_other by (repeat split; assumption).
  simpl. lia.
Qed.

(** When a single row can raise flags, the validator returns that row's. *)
Lemma check_single_source (appts rest : DataFrame) (a : Appointment) :
  Permutation appts (a :: rest) ->
  (forall b, In b rest -> flags_at (sort_values appts) b = []) ->
  check_patient_schedule appts = Ok (flags_at (sort_values appts) a).
Proof.
  intros P Hrest.
  rewrite check_patient_schedule_value. f_equal.
  assert (Permutation (flags_at (sort_values appts) a) (raw_flags appts)) as PM.
  { unfold raw_flags. apply Permutation_sym. eapply perm_trans.
    - apply Permutation_flat_map.
      eapply perm_trans; [apply sort_values_perm | exact P].
    - simpl. rewrite (flat_map_nil _ rest Hrest), app_nil_r.
      apply Permutation_refl. }
  pose proof (flags_at_le_1 (sort_values appts) a) as L.
  destruct (flags_at (sort_values appts) a) as [| m [| m' fl]].
  - apply Permutation_nil in PM. now rewrite PM.
  - apply Permutation_length_1_inv in PM. now rewrite PM.
  - simpl in L. lia.
Qed.

(** The lookup when the table holds a single row of the sought type, inside
    the window. *)
Lemma find_only_related (df others : DataFrame) (related trigger : Appointment)
    (appt_type : string) (base_time w : Z) :
  Permutation df (related :: trigger :: others) ->
  APPT_TYPE related = appt_type ->
  APPT_TYPE trigger <> appt_type ->
  Forall (fun a => APPT_TYPE a <> appt_type) others ->
  in_window appt_type base_time w related ->
  find_related_appointment df appt_type base_time w
  = Ok (Some (APPT_DTTM related)).
Proof.
  intros P TR TT O W.
  destruct (find_related_appointment_total df appt_type base_time w) as [r E].
  rewrite E. f_equal. destruct r as [t |].
  - destruct (find_related_appointment_Some _ _ _ _ _ E) as (a & Ia & (Ta & _) & <-).
    apply (Permutation_in _ P) in Ia.
    destruct Ia as [<- | [<- | Ia]]; [reflexivity | contradiction |].
    rewrite Forall_forall in O. now destruct (O a Ia).
  - rewrite find_related_appointment_None in E. exfalso.
    apply (E related); [| exact W].
    apply (Permutation_in _ (Permutation_sym P)). now left.
Qed.

(** The validator on one trigger row, its single related row and rows that
    neither trigger a rule nor have the related type. *)
Lemma check_pair (appts others : DataFrame) (related trigger : Appointment)
    (related_type : string) :
  Permutation appts (related :: trigger :: others) ->
  APPT_TYPE related = related_type ->
  triggers_nothing related_type ->
  Forall (fun a => APPT_TYPE a <> related_type
                   /\ triggers_nothing (APPT_TYPE a)) others ->
  check_patient_schedule appts = Ok (flags_at (sort_values appts) trigger).
Proof.
  intros P TR N O.
  apply (check_single_source appts (related :: others) trigger).
  - eapply perm_trans; [exact P | apply perm_swap].
  - intros b [<- | Hb]; apply flags_at_other.
    + now rewrite TR.
    + rewrite Forall_forall in O. now apply O.
Qed.

Lemma mammogram_triggers_nothing : triggers_nothing "Mammogram".
Proof. repeat split; discriminate. Qed.

Lemma ct_simulation_triggers_nothing : triggers_nothing "CT Simulation".
Proof. repeat split; discriminate. Qed.

(** X4: a Chemo whose only Lab is within the 7 days before it, on an earlier
    calendar date, raises no flag: the validator returns the empty list. *)
Theorem lab_a_day_before_chemo (appts others : DataFrame) (lab chemo : Appointment) :
  Permutation appts (lab :: chemo :: others) ->
  APPT_TYPE lab = "Lab" -> APPT_TYPE chemo = "Chemo" ->
  Forall (fun a => APPT_TYPE a <> "Lab" /\ triggers_nothing (APPT_TYPE a)) others ->
  APPT_DTTM chemo - timedelta_days 7 <= APPT_DTTM lab ->
  date (APPT_DTTM lab) < date (APPT_DTTM chemo) ->
  check_patient_schedule appts = Ok [].
Proof.
  intros P TL TC O W D.
  assert (APPT_DTTM lab < APPT_DTTM chemo) as Lt.
  { destruct (Z.lt_ge_cases (APPT_DTTM lab) (APPT_DTTM chemo)) as [H | H];
      [exact H |].
    apply (Z.div_le_mono _ _ NS_PER_DAY NS_PER_DAY_pos) in H.
    unfold date in D. lia. }
  rewrite (check_pair appts others lab chemo "Lab" P TL lab_triggers_nothing O).
  f_equal. unfold flags_at.
  rewrite appointment_flags_chemo by exact TC. unfold chemo_rule.
  rewrite (find_only_related _ others lab chemo "Lab").
  - simpl.
    replace (APPT_DTTM lab >? APPT_DTTM chemo) with false
      by (symmetry; rewrite Z.gtb_ltb; apply Z.ltb_ge; lia).
    replace (date (APPT_DTTM chemo) - date (APPT_DTTM lab) <? 1) with false
      by (symmetry; apply Z.ltb_ge; lia).
    reflexivity.
  - eapply perm_trans; [apply sort_values_perm | exact P].
  - exact TL.
  - rewrite TC. discriminate.
  - eapply Forall_impl; [| exact O]. now intros a [H _].
  - unfold in_window, timedelta_days in *. pose proof NS_PER_DAY_pos.
    split; [exact TL |]. split; lia.
Qed.

Lemma lab_a_day_before_chemo_witness :
  check_patient_schedule [chemo_9am; lab_day_before] = Ok [].
Proof.
  apply (lab_a_day_before_chemo [chemo_9am; lab_day_before] []
           lab_day_before chemo_9am).
  - apply perm_swap.
  - reflexivity.
  - reflexivity.
  - constructor.
  - vm_compute. discriminate.
  - reflexivity.
Defined.

(** The Oncology Visit rule on a visit with a single Mammogram in its window. *)
Lemma visit_pair_flags (appts others : DataFrame)
    (mammo visit : Appointment) :
  Permutation appts (mammo :: visit :: others) ->
  APPT_TYPE mammo = "Mammogram" -> APPT_TYPE visit = "Oncology Visit" ->
  Forall (fun a => APPT_TYPE a <> "Mammogram"
                   /\ triggers_nothing (APPT_TYPE a)) others ->
  in_window "Mammogram" (APPT_DTTM visit) 14 mammo ->
  check_patient_schedule appts
  = Ok (if APPT_DTTM mammo >? APPT_DTTM visit then
          [msg_visit_before (date (APPT_DTTM visit)) (date (APPT_DTTM mammo))]
        else if date (APPT_DTTM visit) - date (APPT_DTTM mammo) <? 2 then
          [msg_too_soon (date (APPT_DTTM visit)) (date (APPT_DTTM mammo))]
        else []).
Proof.
  intros P TM TV O W.
  rewrite (check_pair appts others mammo visit "Mammogram" P TM
             mammogram_triggers_nothing O).
  f_equal. unfold flags_at.
  rewrite appointment_flags_visit by exact TV. unfold oncology_rule.
  rewrite (find_only_related _ others mammo visit "Mammogram").
  - simpl. destruct (APPT_DTTM mammo >? APPT_DTTM visit); [reflexivity |].
    now destruct (date (APPT_DTTM visit) - date (APPT_DTTM mammo) <? 2).
  - eapply perm_trans; [apply sort_values_perm | exact P].
  - exact TM.
  - rewrite TV. discriminate.
  - eapply Forall_impl; [| exact O]. now intros a [H _].
  - exact W.
Qed.

(** X5: an Oncology Visit whose only Mammogram lies within 14 days of it:
    the validator returns the "before" flag alone when the Mammogram is
    later than the visit, otherwise the "too soon" flag alone when the two
    calendar dates are less than 2 days apart, otherwise nothing. *)
Theorem visit_with_one_mammogram (appts others : DataFrame)
    (mammo visit : Appointment) :
  Permutation appts (mammo :: visit :: others) ->
  APPT_TYPE mammo = "Mammogram" -> APPT_TYPE visit = "Oncology Visit" ->
  Forall (fun a => APPT_TYPE a <> "Mammogram"
                   /\ triggers_nothing (APPT_TYPE a)) others ->
  in_window "Mammogram" (APPT_DTTM visit) 14 mammo ->
  check_patient_schedule appts
  = Ok (if APPT_DTTM mammo >? APPT_DTTM visit then
          [msg_visit_before (date (APPT_DTTM visit)) (date (APPT_DTTM mammo))]
        else if date (APPT_DTTM visit) - date (APPT_DTTM mammo) <? 2 then
          [msg_too_soon (date (APPT_DTTM visit)) (date (APPT_DTTM mammo))]
        else []).
Proof. exact (visit_pair_flags appts others mammo visit). Qed.

(** A Mammogram at [T] and an Oncology Visit at [T + 1 day]: exactly the
    "too soon" flag. *)
Lemma visit_with_one_mammogram_witness :
  check_patient_schedule [visit_day_before; mammogram_day_before]
  = Ok ["Timing Error: Visit on 2024-01-07 is too soon after Mammogram on 2024-01-06 (requires 2-day gap for results)."].
Proof.
  refine (visit_with_one_mammogram [visit_day_before; mammogram_day_before] []
            mammogram_day_before visit_day_before _ _ _ _ _).
  - apply perm_swap.
  - reflexivity.
  - reflexivity.
  - constructor.
  - unfold in_window. split; [reflexivity |]. split; vm_compute; discriminate.
Defined.

(** The Radiation Therapy rule on a therapy with a single CT Simulation in its window. *)
Lemma radiation_pair_flags (appts others : DataFrame)
    (sim rt : Appointment) :
  Permutation appts (sim :: rt :: others) ->
  APPT_TYPE sim = "CT Simulation" -> APPT_TYPE rt = "Radiation Therapy" ->
  Forall (fun a => APPT_TYPE a <> "CT Simulation"
                   /\ triggers_nothing (APPT_TYPE a)) others ->
  in_window "CT Simulation" (APPT_DTTM rt) 14 sim ->
  check_patient_schedule appts
  = Ok (if APPT_DTTM sim >? APPT_DTTM rt then
          [msg_rt_before (date (APPT_DTTM rt)) (date (APPT_DTTM sim))]
        else []).
Proof.
  intros P TS TR O W.
  rewrite (check_pair appts others sim rt "CT Simulation" P TS
             ct_simulation_triggers_nothing O).
  f_equal. unfold flags_at.
  rewrite appointment_flags_radiation by exact TR. unfold radiation_rule.
  rewrite (find_only_related _ others sim rt "CT Simulation").
  - simpl. now destruct (APPT_DTTM sim >? APPT_DTTM rt).
  - eapply perm_trans; [apply sort_values_perm | exact P].
  - exact TS.
  - rewrite TR. discriminate.
  - eapply Forall_impl; [| exact O]. now intros a [H _].
  - exact W.
Qed.

(** X6: a Radiation Therapy whose only CT Simulation lies within 14 days of
    it: the validator returns the "before" flag alone when the simulation is
    later than the therapy, and nothing otherwise, however close the two
    are. *)
Theorem radiation_with_one_simulation (appts others : DataFrame)
    (sim rt : Appointment) :
  Permutation appts (sim :: rt :: others) ->
  APPT_TYPE sim = "CT Simulation" -> APPT_TYPE rt = "Radiation Therapy" ->
  Forall (fun a => APPT_TYPE a <> "CT Simulation"
                   /\ triggers_nothing (APPT_TYPE a)) others ->
  in_window "CT Simulation" (APPT_DTTM rt) 14 sim ->
  check_patient_schedule appts
  = Ok (if APPT_DTTM sim >? APPT_DTTM rt then
          [msg_rt_before (date (APPT_DTTM rt)) (date (APPT_DTTM sim))]
        else []).
Proof. exact (radiation_pair_flags appts others sim rt). Qed.

Lemma radiation_with_one_simulation_witness :
  check_patient_schedule [radiation_noon; simulation_day_after]
  = Ok ["Order Error: Radiation Therapy on 2024-01-28 is BEFORE its planning CT Simulation on 2024-01-29."].
Proof.
  refine (radiation_with_one_simulation [radiation_noon; simulation_day_after] []
            simulation_day_after radiation_noon _ _ _ _ _).
  - apply perm_swap.
  - reflexivity.
  - reflexivity.
  - constructor.
  - unfold in_window. split; [reflexivity |]. split; vm_compute; discriminate.
Defined.

(** ** What the Chemo rule sees among several Labs *)

(** X7: a Lab inside the 7-day window on a calendar date before the Chemo's
    silences the Chemo rule: no flag is appended for that Chemo, whatever
    other Labs the table holds (on the same day or after it). *)
Theorem chemo_with_earlier_lab (patient_appts : DataFrame) (chemo lab : Appointment) :
  APPT_TYPE chemo = "Chemo" ->
  In lab patient_appts ->
  in_window "Lab" (APPT_DTTM chemo) 7 lab ->
  date (APPT_DTTM lab) < date (APPT_DTTM chemo) ->
  appointment_flags (sort_values patient_appts) chemo = Ok [].
Proof.
  intros TC IL W D.
  rewrite appointment_flags_chemo by exact TC. unfold chemo_rule.
  apply sort_values_In in IL.
  destruct (find_related_appointment_total (sort_values patient_appts) "Lab"
              (APPT_DTTM chemo) 7) as [[t |] E]; rewrite E; simpl.
  - pose proof (find_related_appointment_min _ _ _ _ _
                  (sort_values_sorted patient_appts) E lab IL W) as Hmin.
    pose proof (Z.div_le_mono _ _ NS_PER_DAY NS_PER_DAY_pos Hmin) as Dm.
    fold (date t) in Dm. fold (date (APPT_DTTM lab)) in Dm.
    assert (t < APPT_DTTM chemo) as Lt.
    { destruct (Z.lt_ge_cases t (APPT_DTTM chemo)) as [H | H]; [exact H |].
      apply (Z.div_le_mono _ _ NS_PER_DAY NS_PER_DAY_pos) in H.
      fold (date t) in H. fold (date (APPT_DTTM chemo)) in H. lia. }
    replace (t >? APPT_DTTM chemo) with false
      by (symmetry; rewrite Z.gtb_ltb; apply Z.ltb_ge; lia).
    replace (date (APPT_DTTM chemo) - date t <? 1) with false
      by (symmetry; apply Z.ltb_ge; lia).
    reflexivity.
  - rewrite find_related_appointment_None in E. now destruct (E lab IL).
Qed.

Lemma chemo_with_earlier_lab_witness :
  appointment_flags
    (sort_values [lab_same_day_6pm; chemo_9am; lab_day_before]) chemo_9am
  = Ok [].
Proof.
  apply (chemo_with_earlier_lab [lab_same_day_6pm; chemo_9am; lab_day_before]
           chemo_9am lab_day_before).
  - reflexivity.
  - right; right; now left.
  - unfold in_window. split; [reflexivity |]. split; vm_compute; discriminate.
  - reflexivity.
Defined.

(** X8: the "Lab after Chemo" flag is appended for a Chemo exactly when
    there are Labs in its 7-day window and every one of them is later than
    the Chemo. *)
Theorem lab_after_chemo_iff (patient_appts : DataFrame) (chemo : Appointment) :
  APPT_TYPE chemo = "Chemo" ->
  ((exists lab_date,
      appointment_flags (sort_values patient_appts) chemo
      = Ok [msg_lab_after lab_date (date (APPT_DTTM chemo))])
   <-> (exists lab, In lab patient_appts
                    /\ in_window "Lab" (APPT_DTTM chemo) 7 lab)
       /\ (forall lab, In lab patient_appts
                       -> in_window "Lab" (APPT_DTTM chemo) 7 lab
                       -> APPT_DTTM lab > APPT_DTTM chemo)).
Proof.
  intros TC.
  rewrite appointment_flags_chemo by exact TC. unfold chemo_rule.
  pose proof (sort_values_sorted patient_appts) as Hs.
  destruct (find_related_appointment_total (sort_values patient_appts) "Lab"
              (APPT_DTTM chemo) 7) as [[t |] E]; rewrite E; simpl.
  - destruct (find_related_appointment_Some _ _ _ _ _ E) as (a & Ia & Wa & Ta).
    destruct (t >? APPT_DTTM chemo) eqn:G.
    + apply Z.gtb_gt in G. split; [| intros _; eauto].
      intros _. split.
      * exists a. split; [now apply sort_values_In | exact Wa].
      * intros lab Il Wl. apply sort_values_In in Il.
        pose proof (find_related_appointment_min _ _ _ _ _ Hs E lab Il Wl). lia.
    + assert (t <= APPT_DTTM chemo) as Le
        by (rewrite Z.gtb_ltb in G; now apply Z.ltb_ge in G).
      split.
      * intros [l H]. exfalso.
        destruct (date (APPT_DTTM chemo) - date t <? 1); [| discriminate H].
        assert (msg_lab_after l (date (APPT_DTTM chemo))
                = msg_same_day (date t) (date (APPT_DTTM chemo))) as M
          by (symmetry; exact (f_equal (fun r => match r with
                                                 | Ok [x] => x
                                                 | _ => EmptyString
                                                 end) H)).
        now apply msg_lab_after_not_same_day in M.
      * intros [_ H]. apply (proj1 (sort_values_In _ _)) in Ia.
        specialize (H a Ia Wa). lia.
  - rewrite find_related_appointment_None in E. split.
    + intros [l H].
      assert (msg_no_lab (date (APPT_DTTM chemo))
              = msg_lab_after l (date (APPT_DTTM chemo))) as M
        by exact (f_equal (fun r => match r with
                                    | Ok [x] => x
                                    | _ => EmptyString
                                    end) H).
      now apply msg_no_lab_not_lab_after in M.
    + intros [(lab & Il & Wl) _]. apply sort_values_In in Il.
      now destruct (E lab Il).
Qed.

Lemma lab_after_chemo_iff_witness :
  (exists lab_date,
      appointment_flags (sort_values [lab_3pm; chemo_9am]) chemo_9am
      = Ok [msg_lab_after lab_date (date (APPT_DTTM chemo_9am))])
  <-> (exists lab, In lab [lab_3pm; chemo_9am]
                   /\ in_window "Lab" (APPT_DTTM chemo_9am) 7 lab)
      /\ (forall lab, In lab [lab_3pm; chemo_9am]
                      -> in_window "Lab" (APPT_DTTM chemo_9am) 7 lab
                      -> APPT_DTTM lab > APPT_DTTM chemo_9am).
Proof.
  apply (lab_after_chemo_iff [lab_3pm; chemo_9am] chemo_9am).
  reflexivity.
Defined.

(** ** How many flags, and what they are about *)

Lemma list_set_length (flags : list string) :
  (List.length (list_set flags) <= List.length flags)%nat.
Proof.
  unfold list_set. induction flags as [| m flags IH]; simpl; [lia |].
  destruct (in_dec string_dec m flags); simpl; lia.
Qed.

Lemma is_trigger_false (appt_type : string) :
  is_trigger appt_type = false -> triggers_nothing appt_type.
Proof.
  unfold is_trigger, triggers_nothing. rewrite !orb_false_iff.
  intros [[H1 H2] H3]. now rewrite <- !String.eqb_neq.
Qed.

Lemma flat_map_flags_length (df rows : DataFrame) :
  (List.length (flat_map (flags_at df) rows)
   <= List.length (filter (fun a => is_trigger (APPT_TYPE a)) rows))%nat.
Proof.
  induction rows as [| a rows IH]; simpl; [lia |].
  rewrite length_app.
  destruct (is_trigger (APPT_TYPE a)) eqn:T; simpl.
  - pose proof (flags_at_le_1 df a). lia.
  - rewrite flags_at_other by now apply is_trigger_false. simpl. lia.
Qed.

(** X9: the validator returns at most one flag per Chemo, Oncology Visit or
    Radiation Therapy row of the table; a table without such rows gets no
    flag. *)
Theorem flags_bounded_by_triggers (patient_appts : DataFrame) :
  exists flags,
    check_patient_schedule patient_appts = Ok flags
    /\ (List.length flags
        <= List.length (filter (fun a => is_trigger (APPT_TYPE a)) patient_appts))%nat.
Proof.
  exists (list_set (raw_flags patient_appts)).
  split; [apply check_patient_schedule_value |].
  eapply Nat.le_trans; [apply list_set_length |]. unfold raw_flags.
  eapply Nat.le_trans; [apply flat_map_flags_length |].
  apply Nat.eq_le_incl, Permutation_length, filter_perm, sort_values_perm.
Qed.

(** X10: every message the validator returns is backed by rows of the
    table: a trigger row and (but for the "no Lab" message, which needs the
    absence of any Lab in the window) a row of the related type inside the
    rule's window, later than the trigger for an ordering message, not later
    and too close in calendar days for a timing message. *)
Theorem flags_are_justified (patient_appts : DataFrame) :
  exists flags,
    check_patient_schedule patient_appts = Ok flags
    /\ (forall m, In m flags -> flag_justified patient_appts m).
Proof.
  exists (list_set (raw_flags patient_appts)).
  split; [apply check_patient_schedule_value |].
  intros m Hm. apply (proj1 (list_set_In _ _)) in Hm. unfold raw_flags in Hm.
  apply in_flat_map in Hm. destruct Hm as (a & Ia & Hm).
  apply (proj1 (sort_values_In _ _)) in Ia.
  exists a. split; [exact Ia |].
  unfold flags_at in Hm.
  set (S := sort_values patient_appts) in *.
  assert (forall b, In b S -> In b patient_appts) as back
    by (intros b; apply sort_values_In).
  assert (forall b, In b patient_appts -> In b S) as forth
    by (intros b; apply sort_values_In).
  destruct (String.eqb_spec (APPT_TYPE a) "Chemo") as [T | T1].
  { left. split; [exact T |].
    rewrite appointment_flags_chemo in Hm by exact T. unfold chemo_rule in Hm.
    destruct (find_related_appointment_total S "Lab" (APPT_DTTM a) 7)
      as [[t |] E]; rewrite E in Hm; simpl in Hm.
    - right.
      destruct (find_related_appointment_Some _ _ _ _ _ E) as (b & Ib & Wb & Tb).
      exists b. split; [now apply back |]. split; [exact Wb |]. rewrite Tb.
      destruct (t >? APPT_DTTM a) eqn:G.
      + destruct Hm as [<- | []]. left. split; [reflexivity |].
        now apply Z.gtb_gt.
      + assert (t <= APPT_DTTM a) as Le
          by (rewrite Z.gtb_ltb in G; now apply Z.ltb_ge in G).
        destruct (date (APPT_DTTM a) - date t <? 1) eqn:D; [| destruct Hm].
        destruct Hm as [<- | []]. right. split; [reflexivity |].
        split; [exact Le |]. apply Z.ltb_lt in D.
        pose proof (Z.div_le_mono _ _ NS_PER_DAY NS_PER_DAY_pos Le) as Dm.
        fold (date t) in Dm. fold (date (APPT_DTTM a)) in Dm. lia.
    - left. destruct Hm as [<- | []]. split; [reflexivity |].
      rewrite find_related_appointment_None in E.
      intros b Ib. now apply E, forth. }
  destruct (String.eqb_spec (APPT_TYPE a) "Oncology Visit") as [T | T2].
  { right; left. split; [exact T |].
    rewrite appointment_flags_visit in Hm by exact T. unfold oncology_rule in Hm.
    destruct (find_related_appointment_total S "Mammogram" (APPT_DTTM a) 14)
      as [[t |] E]; rewrite E in Hm; simpl in Hm; [| destruct Hm].
    destruct (find_related_appointment_Some _ _ _ _ _ E) as (b & Ib & Wb & Tb).
    exists b. split; [now apply back |]. split; [exact Wb |]. rewrite Tb.
    destruct (t >? APPT_DTTM a) eqn:G.
    - destruct Hm as [<- | []]. left. split; [reflexivity |].
      now apply Z.gtb_gt.
    - assert (t <= APPT_DTTM a) as Le
        by (rewrite Z.gtb_ltb in G; now apply Z.ltb_ge in G).
      destruct (date (APPT_DTTM a) - date t <? 2) eqn:D; [| destruct Hm].
      destruct Hm as [<- | []]. right. split; [reflexivity |].
      split; [exact Le | now apply Z.ltb_lt]. }
  destruct (String.eqb_spec (APPT_TYPE a) "Radiation Therapy") as [T | T3].
  { right; right. split; [exact T |].
    rewrite appointment_flags_radiation in Hm by exact T.
    unfold radiation_rule in Hm.
    destruct (find_related_appointment_total S "CT Simulation" (APPT_DTTM a) 14)
      as [[t |] E]; rewrite E in Hm; simpl in Hm; [| destruct Hm].
    destruct (find_related_appointment_Some _ _ _ _ _ E) as (b & Ib & Wb & Tb).
    exists b. split; [now apply back |]. split; [exact Wb |]. rewrite Tb.
    destruct (t >? APPT_DTTM a) eqn:G; [| destruct Hm].
    destruct Hm as [<- | []]. split; [reflexivity | now apply Z.gtb_gt]. }
  rewrite appointment_flags_other in Hm by (repeat split; assumption).
  destruct Hm.
Qed.

(** * Further properties of the batch scan *)

(** X11: the flags reported for a patient depend only on that patient's rows
    inside the window: two tables that agree on them (up to row order)
    report the same messages for the patient, whatever the rows of other
    patients. *)
Theorem patient_isolation (today lookahead_days : Z) (table1 table2 : DataFrame)
    (mrn : Z) :
  Permutation
    (rows_of mrn
       (filter (in_lookahead today (today + timedelta_days lookahead_days)) table1))
    (rows_of mrn
       (filter (in_lookahead today (today + timedelta_days lookahead_days)) table2)) ->
  exists outcome1 outcome2,
    batch_scan today lookahead_days table1 = Ok outcome1
    /\ batch_scan today lookahead_days table2 = Ok outcome2
    /\ (forall m, flagged outcome1 mrn m <-> flagged outcome2 mrn m).
Proof.
  intros P.
  destruct (batch_scan_value today lookahead_days table1) as (o1 & E1 & R1).
  destruct (batch_scan_value today lookahead_days table2) as (o2 & E2 & R2).
  exists o1, o2. split; [exact E1 |]. split; [exact E2 |].
  intros m.
  rewrite (flagged_iff _ _ mrn m R1), (flagged_iff _ _ mrn m R2).
  pose proof (flags_perm _ _ P) as PF.
  split; apply Permutation_in; [exact PF | now apply Permutation_sym].
Qed.

Lemma patient_isolation_witness :
  exists outcome1 outcome2,
    batch_scan (at_time 19720 0) LOOKAHEAD_DAYS [lab_3pm; chemo_9am] = Ok outcome1
    /\ batch_scan (at_time 19720 0) LOOKAHEAD_DAYS
         [chemo_other_patient; chemo_9am; radiation_noon; lab_3pm] = Ok outcome2
    /\ (forall m, flagged outcome1 5 m <-> flagged outcome2 5 m).
Proof.
  apply (patient_isolation (at_time 19720 0) LOOKAHEAD_DAYS
           [lab_3pm; chemo_9am]
           [chemo_other_patient; chemo_9am; radiation_noon; lab_3pm] 5).
  change (Permutation [lab_3pm; chemo_9am] [chemo_9am; lab_3pm]).
  apply perm_swap.
Defined.

Lemma records_mrn_sorted (G : Z -> DataFrame) (ks : list Z) :
  StronglySorted Z.lt ks ->
  StronglySorted Z.lt
    (map FLAGGED_MRN (flat_map (fun k => group_record (k, G k)) ks)).
Proof.
  induction 1 as [| k ks Hs IH Hk].
  - constructor.
  - pose proof (proj2 (records_mrn_NoDup G ks (strictly_sorted_NoDup ks Hs))) as Sub.
    cbn [flat_map]. rewrite map_app.
    assert (map FLAGGED_MRN (group_record (k, G k)) = []
            \/ map FLAGGED_MRN (group_record (k, G k)) = [k]) as [E | E].
    { simpl. destruct (list_set (raw_flags (G k))), (G k); simpl; auto. }
    + rewrite E. exact IH.
    + rewrite E. simpl. constructor; [exact IH |].
      apply Forall_forall. intros x Hx.
      rewrite Forall_forall in Hk. now apply Hk, Sub.
Qed.

(** X12: the records of a run come in strictly ascending order of patient
    number, the order in which the groups are visited. *)
Theorem records_in_mrn_order (today lookahead_days : Z) (df_all : DataFrame) :
  exists outcome,
    batch_scan today lookahead_days df_all = Ok outcome
    /\ StronglySorted Z.lt (map FLAGGED_MRN (records_of outcome)).
Proof.
  destruct (batch_scan_value today lookahead_days df_all) as (outcome & E & R).
  exists outcome. split; [exact E |]. rewrite R.
  unfold groupby_mrn. rewrite flat_map_over_map.
  apply (records_mrn_sorted (fun k => rows_of k _)), group_keys_sorted.
Qed.

(** X13: when every patient's rows in the window name a single scheduler,
    the records do not depend on the row order of the table: each record of
    one run has a record of the other run with the same patient, the same
    scheduler and the same flags. *)
Theorem single_scheduler_records (today lookahead_days : Z)
    (table1 table2 : DataFrame) :
  Permutation
    (filter (in_lookahead today (today + timedelta_days lookahead_days)) table1)
    (filter (in_lookahead today (today + timedelta_days lookahead_days)) table2) ->
  (forall a b,
     In a (filter (in_lookahead today (today + timedelta_days lookahead_days)) table1) ->
     In b (filter (in_lookahead today (today + timedelta_days lookahead_days)) table1) ->
     PATIENT_MRN a = PATIENT_MRN b -> SCHEDULER_ID a = SCHEDULER_ID b) ->
  exists outcome1 outcome2,
    batch_scan today lookahead_days table1 = Ok outcome1
    /\ batch_scan today lookahead_days table2 = Ok outcome2
    /\ (forall r1, In r1 (records_of outcome1) ->
          exists r2, In r2 (records_of outcome2)
                     /\ FLAGGED_MRN r2 = FLAGGED_MRN r1
                     /\ FLAGGED_SCHEDULER_ID r2 = FLAGGED_SCHEDULER_ID r1
                     /\ Permutation (FLAGS r1) (FLAGS r2)).
Proof.
  intros P Single.
  destruct (batch_scan_value today lookahead_days table1) as (o1 & E1 & R1).
  destruct (batch_scan_value today lookahead_days table2) as (o2 & E2 & R2).
  set (f1 := filter _ table1) in *. set (f2 := filter _ table2) in *.
  exists o1, o2. split; [exact E1 |]. split; [exact E2 |].
  intros r1 H1. rewrite R1 in H1.
  apply collect_flags_In, group_record_In in H1.
  destruct H1 as (first1 & rest1 & flags1 & G1 & C1 & N1 & Hr1).
  set (mrn := FLAGGED_MRN r1) in *.
  rewrite check_patient_schedule_value in C1. injection C1 as C1.
  assert (Permutation (rows_of mrn f1) (rows_of mrn f2)) as PR
    by (apply filter_perm, P).
  pose proof (list_set_perm _ _ (flags_perm _ _ PR)) as PF.
  destruct (rows_of mrn f2) as [| first2 rest2] eqn:G2.
  { rewrite G1 in PR. apply Permutation_sym, Permutation_nil in PR.
    discriminate PR. }
  exists (mkFlagRecord mrn (SCHEDULER_ID first2)
            (list_set (raw_flags (first2 :: rest2)))).
  split; [| split; [reflexivity | split]].
  - rewrite R2. apply collect_flags_In. cbn [FLAGGED_MRN]. rewrite G2.
    apply group_record_In.
    exists first2, rest2, (list_set (raw_flags (first2 :: rest2))).
    split; [reflexivity |]. split; [apply check_patient_schedule_value |].
    split; [| reflexivity].
    intros Z0. rewrite Z0, C1 in PF.
    apply Permutation_sym, Permutation_nil in PF. contradiction.
  - rewrite Hr1. cbn [FLAGGED_SCHEDULER_ID]. symmetry.
    assert (In first1 (rows_of mrn f1)) as I1 by (rewrite G1; now left).
    assert (In first2 (rows_of mrn f2)) as I2 by (rewrite G2; now left).
    apply rows_of_In in I1, I2. destruct I1 as [I1 M1], I2 as [I2 M2].
    apply Single; [exact I1 | | congruence].
    apply (Permutation_in _ (Permutation_sym P) I2).
  - rewrite Hr1. cbn [FLAGS]. rewrite <- C1. exact PF.
Qed.

Lemma single_scheduler_records_witness :
  exists outcome1 outcome2,
    batch_scan (at_time 19720 0) LOOKAHEAD_DAYS [lab_3pm; chemo_9am] = Ok outcome1
    /\ batch_scan (at_time 19720 0) LOOKAHEAD_DAYS
         [chemo_past; chemo_9am; lab_3pm] = Ok outcome2
    /\ (forall r1, In r1 (records_of outcome1) ->
          exists r2, In r2 (records_of outcome2)
                     /\ FLAGGED_MRN r2 = FLAGGED_MRN r1
                     /\ FLAGGED_SCHEDULER_ID r2 = FLAGGED_SCHEDULER_ID r1
                     /\ Permutation (FLAGS r1) (FLAGS r2)).
Proof.
  apply (single_scheduler_records (at_time 19720 0) LOOKAHEAD_DAYS
           [lab_3pm; chemo_9am] [chemo_past; chemo_9am; lab_3pm]).
  - change (Permutation [lab_3pm; chemo_9am] [chemo_9am; lab_3pm]).
    apply perm_swap.
  - change (forall a b, In a [lab_3pm; chemo_9am] -> In b [lab_3pm; chemo_9am] ->
            PATIENT_MRN a = PATIENT_MRN b -> SCHEDULER_ID a = SCHEDULER_ID b).
    intros a b [<- | [<- | []]] [<- | [<- | []]] _; reflexivity.
Defined.

(** * The report *)

(** ** Keys of the groups *)

Lemma for_each_flat_map_in {A B : Type} (body : list B -> A -> Res (list B))
    (g : A -> list B) :
  forall (xs : list A),
    (forall acc x, In x xs -> body acc x = Ok (acc ++ g x)) ->
    forall acc, for_each xs body acc = Ok (acc ++ flat_map g xs).
Proof.
  induction xs as [| x xs IH]; intros Hb acc; simpl.
  - now rewrite app_nil_r.
  - rewrite Hb by now left. simpl.
    rewrite IH by (intros; apply Hb; now right). now rewrite app_assoc.
Qed.

Lemma name_lt_iff (a b : string) : name_lt a b <-> OrderedTypeEx.String_as_OT.lt a b.
Proof.
  unfold name_lt, String.ltb.
  rewrite <- OrderedTypeEx.String_as_OT.cmp_lt. unfold OrderedTypeEx.String_as_OT.cmp.
  destruct (String.compare a b); split; congruence.
Qed.

Lemma name_lt_trans (a b c : string) : name_lt a b -> name_lt b c -> name_lt a c.
Proof.
  rewrite !name_lt_iff. apply OrderedTypeEx.String_as_OT.lt_trans.
Qed.

Lemma name_lt_irrefl (a : string) : ~ name_lt a a.
Proof.
  rewrite name_lt_iff. intros H.
  now apply (OrderedTypeEx.String_as_OT.lt_not_eq a a H).
Qed.

Lemma name_lt_total (a b : string) :
  String.ltb a b = false -> a <> b -> name_lt b a.
Proof.
  unfold name_lt, String.ltb. intros H N.
  pose proof (OrderedTypeEx.String_as_OT.cmp_antisym b a) as A.
  unfold OrderedTypeEx.String_as_OT.cmp in A. rewrite A.
  destruct (String.compare a b) eqn:C; simpl; try discriminate; [| reflexivity].
  now apply String.compare_eq_iff in C.
Qed.

Lemma insert_name_In (k x : string) (ks : list string) :
  In x (insert_name k ks) <-> x = k \/ In x ks.
Proof.
  induction ks as [| k' ks IH]; simpl.
  - intuition.
  - destruct (String.ltb k k'); simpl; [intuition |].
    destruct (String.eqb_spec k k') as [-> | N]; simpl.
    + intuition.
    + rewrite IH. intuition.
Qed.

Lemma insert_name_sorted (k : string) (ks : list string) :
  StronglySorted name_lt ks -> StronglySorted name_lt (insert_name k ks).
Proof.
  induction ks as [| k' ks IH]; simpl; intros Hs.
  - repeat constructor.
  - inversion Hs as [| k'' l Hl Hk]; subst.
    destruct (String.ltb k k') eqn:L.
    + constructor; [exact Hs |]. constructor; [exact L |].
      eapply Forall_impl; [| exact Hk].
      intros c Hc. now apply (name_lt_trans k k' c).
    + destruct (String.eqb_spec k k') as [-> | N]; [exact Hs |].
      constructor; [now apply IH |].
      apply Forall_forall. intros x Hx. apply insert_name_In in Hx.
      destruct Hx as [-> | Hx]; [now apply name_lt_total |].
      rewrite Forall_forall in Hk. now apply Hk.
Qed.

Lemma scheduler_keys_sorted (df : list FlagRecord) :
  StronglySorted name_lt (scheduler_keys df).
Proof.
  unfold scheduler_keys.
  induction (map FLAGGED_SCHEDULER_ID df) as [| k ks IH]; simpl.
  - constructor.
  - now apply insert_name_sorted.
Qed.

Lemma name_sorted_NoDup (ks : list string) : StronglySorted name_lt ks -> NoDup ks.
Proof.
  induction 1 as [| k ks Hs IH Hk]; constructor; [| exact IH].
  intros I. rewrite Forall_forall in Hk.
  exact (name_lt_irrefl k (Hk k I)).
Qed.

Lemma scheduler_keys_In (df : list FlagRecord) (s : string) :
  In s (scheduler_keys df) <-> exists r, In r df /\ FLAGGED_SCHEDULER_ID r = s.
Proof.
  unfold scheduler_keys. induction df as [| a df IH]; simpl.
  - split; [intros [] | intros (a & [] & _)].
  - rewrite insert_name_In, IH. split.
    + intros [-> | (b & Hb & E)]; [exists a; auto | exists b; auto].
    + intros (b & [<- | Hb] & E); [now left | right; now exists b].
Qed.

Lemma record_keys_In (df : list FlagRecord) (k : Z) :
  In k (record_keys df) <-> exists r, In r df /\ FLAGGED_MRN r = k.
Proof.
  unfold record_keys. induction df as [| a df IH]; simpl.
  - split; [intros [] | intros (a & [] & _)].
  - rewrite insert_key_In, IH. split.
    + intros [-> | (b & Hb & E)]; [exists a; auto | exists b; auto].
    + intros (b & [<- | Hb] & E); [now left | right; now exists b].
Qed.

(** ** The lines of the report *)

Lemma patient_loop_value (group : list FlagRecord) (out : list string) :
  for_each (groupby_flagged_mrn group)
    (fun out by_mrn =>
       let '(mrn, patient_flags) := by_mrn in
       let out := out ++ [line_patient mrn] in
       flags <- iloc0 (map FLAGS patient_flags) ;;
       let out := out ++ map line_reason flags in
       Ok (out ++ [EmptyString]))
    out
  = Ok (out ++ flat_map patient_block (groupby_flagged_mrn group)).
Proof.
  apply for_each_flat_map_in.
  intros acc [mrn patient_flags] Hin.
  unfold groupby_flagged_mrn in Hin. apply in_map_iff in Hin.
  destruct Hin as (k & E & Hk). injection E as <- <-.
  apply record_keys_In in Hk. destruct Hk as (r & Hr & Ek).
  assert (In r (records_of_mrn k group)) as Hf
    by (apply filter_In; split; [exact Hr | now apply Z.eqb_eq]).
  destruct (records_of_mrn k group) as [| r0 rest]; [destruct Hf |].
  simpl. now rewrite <- !app_assoc.
Qed.

Lemma format_and_send_reports_value (df : list FlagRecord) :
  format_and_send_reports df
  = Ok (banner ++ (if empty df then [line_no_errors]
                   else flat_map email_block (groupby_scheduler df))).
Proof.
  unfold format_and_send_reports.
  destruct (empty df); [reflexivity |].
  apply for_each_flat_map.
  intros acc [scheduler_id group].
  rewrite patient_loop_value. simpl. now rewrite <- !app_assoc.
Qed.

(** Two lines that differ in their fixed text. *)
Ltac lines_differ H :=
  cbv [line_reason line_patient line_email line_subject line_hello line_thanks
       line_end line_no_errors nl banner times] in H;
  cbn [append] in H; discriminate H.

Lemma line_reason_inj (m m' : string) : line_reason m = line_reason m' -> m = m'.
Proof. unfold line_reason. simpl. intros H. now injection H. Qed.

(** Which lines of a patient's block, and of an email, are "Reason" lines. *)
Lemma patient_block_reason (k : Z) (patient_flags : list FlagRecord) (m : string) :
  In (line_reason m) (patient_block (k, patient_flags))
  <-> exists r rest, patient_flags = r :: rest /\ In m (FLAGS r).
Proof.
  unfold patient_block. split.
  - intros H. cbn [app In] in H. destruct H as [H | H]; [lines_differ H |].
    apply in_app_or in H. destruct H as [H | [H | []]]; [| lines_differ H].
    apply in_map_iff in H. destruct H as (m' & E & Hm).
    apply line_reason_inj in E. subst m'.
    destruct patient_flags as [| r rest]; [destruct Hm |].
    now exists r, rest.
  - intros (r & rest & -> & Hm). cbn [app In]. right. apply in_or_app. left.
    now apply in_map.
Qed.

Lemma email_block_reason (s : string) (group : list FlagRecord) (m : string) :
  In (line_reason m) (email_block (s, group))
  <-> exists k r rest,
        In k (record_keys group)
        /\ records_of_mrn k group = r :: rest /\ In m (FLAGS r).
Proof.
  unfold email_block. split.
  - intros H. cbn [app In] in H.
    destruct H as [H | [H | [H | H]]]; try lines_differ H.
    apply in_app_or in H.
    destruct H as [H | [H | [H | []]]]; try lines_differ H.
    apply in_flat_map in H. destruct H as ((k & pf) & Hk & H).
    unfold groupby_flagged_mrn in Hk. apply in_map_iff in Hk.
    destruct Hk as (k' & E & Hk). injection E as -> <-.
    apply patient_block_reason in H. destruct H as (r & rest & E & Hm).
    now exists k, r, rest.
  - intros (k & r & rest & Hk & E & Hm). cbn [app In].
    do 3 right. apply in_or_app. left. apply in_flat_map.
    exists (k, records_of_mrn k group). split.
    + unfold groupby_flagged_mrn. apply in_map_iff. now exists k.
    + apply patient_block_reason. now exists r, rest.
Qed.

Lemma filter_filter {A : Type} (p q : A -> bool) (l : list A) :
  filter p (filter q l) = filter (fun x => q x && p x) l.
Proof.
  induction l as [| x l IH]; simpl; [reflexivity |].
  destruct (q x); simpl; [| exact IH].
  destruct (p x); now rewrite IH.
Qed.

(** Record [r] is the first of the table for its scheduler and patient. *)
Lemma first_of_pair (df : list FlagRecord) (r : FlagRecord) :
  (exists rest,
     records_of_mrn (FLAGGED_MRN r)
       (records_of_scheduler (FLAGGED_SCHEDULER_ID r) df) = r :: rest)
  <-> exists pre post,
        df = pre ++ r :: post
        /\ (forall r', In r' pre ->
              ~ (FLAGGED_SCHEDULER_ID r' = FLAGGED_SCHEDULER_ID r
                 /\ FLAGGED_MRN r' = FLAGGED_MRN r)).
Proof.
  unfold records_of_mrn, records_of_scheduler. rewrite filter_filter.
  set (p := fun x : FlagRecord =>
              (FLAGGED_SCHEDULER_ID x =? FLAGGED_SCHEDULER_ID r)%string
              && (FLAGGED_MRN x =? FLAGGED_MRN r)).
  assert (forall x, p x = true
                    <-> FLAGGED_SCHEDULER_ID x = FLAGGED_SCHEDULER_ID r
                        /\ FLAGGED_MRN x = FLAGGED_MRN r) as Pt.
  { intros x. subst p. cbv beta.
    now rewrite andb_true_iff, String.eqb_eq, Z.eqb_eq. }
  assert ((exists rest, filter p df = r :: rest)
          <-> hd_error (filter p df) = Some r) as ->.
  { destruct (filter p df) as [| r0 rest]; simpl; split.
    - intros [rest E]. discriminate.
    - discriminate.
    - intros [rest' E]. now injection E as -> _.
    - intros E. injection E as ->. now exists rest. }
  rewrite hd_filter_split. split.
  - intros (pre & post & E & _ & Hpre). exists pre, post.
    split; [exact E |]. intros r' Hr' H. apply Pt in H.
    rewrite (Hpre r' Hr') in H. discriminate.
  - intros (pre & post & E & Hpre). exists pre, post.
    split; [exact E |]. split; [now apply Pt |].
    intros r' Hr'. destruct (p r') eqn:Pr; [| reflexivity].
    apply Pt in Pr. now destruct (Hpre r' Hr').
Qed.

Lemma banner_no_reason (m : string) : ~ In (line_reason m) banner.
Proof. intros [H | [H | [H | []]]]; lines_differ H. Qed.

(** The "Reason" lines of a report. *)
Lemma report_reason_In (df : list FlagRecord) (m : string) :
  In (line_reason m)
     (banner ++ (if empty df then [line_no_errors]
                 else flat_map email_block (groupby_scheduler df)))
  <-> exists r pre post,
        df = pre ++ r :: post /\ In m (FLAGS r)
        /\ (forall r', In r' pre ->
              ~ (FLAGGED_SCHEDULER_ID r' = FLAGGED_SCHEDULER_ID r
                 /\ FLAGGED_MRN r' = FLAGGED_MRN r)).
Proof.
  split.
  - intros H. apply in_app_or in H.
    destruct H as [H | H]; [now apply banner_no_reason in H |].
    destruct (empty df) eqn:Em; [destruct H as [H | []]; lines_differ H |].
    apply in_flat_map in H.
    destruct H as ((s & group) & Hs & H).
    unfold groupby_scheduler in Hs. apply in_map_iff in Hs.
    destruct Hs as (s' & E & Hs). injection E as -> <-.
    apply email_block_reason in H. destruct H as (k & r & rest & Hk & E & Hm).
    assert (In r (records_of_mrn k (records_of_scheduler s df))) as Hr
      by (rewrite E; now left).
    unfold records_of_mrn, records_of_scheduler in Hr.
    rewrite !filter_In, String.eqb_eq, Z.eqb_eq in Hr.
    destruct Hr as [[_ Es] Ek]. subst s k.
    destruct (proj1 (first_of_pair df r) (ex_intro _ rest E))
      as (pre & post & Ed & Hpre).
    now exists r, pre, post.
  - intros (r & pre & post & Ed & Hm & Hpre).
    apply in_or_app. right.
    destruct (proj2 (first_of_pair df r)) as [rest E];
      [now exists pre, post |].
    assert (In r df) as Hr by (rewrite Ed; apply in_elt).
    assert (empty df = false) as Em
      by (destruct df; [destruct Hr | reflexivity]).
    rewrite Em. apply in_flat_map.
    exists (FLAGGED_SCHEDULER_ID r,
            records_of_scheduler (FLAGGED_SCHEDULER_ID r) df).
    split.
    + unfold groupby_scheduler. apply in_map_iff.
      exists (FLAGGED_SCHEDULER_ID r). split; [reflexivity |].
      apply scheduler_keys_In. now exists r.
    + apply email_block_reason. exists (FLAGGED_MRN r), r, rest.
      split; [| split; [exact E | exact Hm]].
      apply record_keys_In. exists r. split; [| reflexivity].
      unfold records_of_scheduler. apply filter_In.
      split; [exact Hr | apply String.eqb_refl].
Qed.

(** A property of every kind of line holds of every line of the emails. *)
Lemma report_body_Forall (P : string -> Prop) :
  (forall s, P (line_email s)) -> P line_subject -> P line_hello ->
  (forall k, P (line_patient k)) -> (forall m, P (line_reason m)) ->
  P EmptyString -> P line_thanks -> P line_end ->
  forall groups, Forall P (flat_map email_block groups).
Proof.
  intros He Hs Hh Hp Hr H0 Ht Hd groups.
  apply Forall_flat_map, Forall_forall. intros [s group] _.
  unfold email_block. repeat (apply Forall_cons; [auto |]).
  apply Forall_app. split; [| repeat constructor; auto].
  apply Forall_flat_map, Forall_forall. intros [k pf] _.
  unfold patient_block. apply Forall_cons; [auto |].
  apply Forall_app. split; [| repeat constructor; auto].
  apply Forall_forall. intros l Hl. apply in_map_iff in Hl.
  destruct Hl as (m & <- & _). auto.
Qed.

(** X14: the report never raises and opens with the banner; the line saying
    that no scheduling errors were found is printed exactly when the table
    of flagged patients is empty, and is then the only line after the
    banner. *)
Theorem report_no_errors_line (flagged_patients_df : list FlagRecord) :
  exists body,
    format_and_send_reports flagged_patients_df = Ok (banner ++ body)
    /\ (In line_no_errors (banner ++ body) <-> flagged_patients_df = [])
    /\ (flagged_patients_df = [] -> body = [line_no_errors]).
Proof.
  rewrite format_and_send_reports_value. eexists. split; [reflexivity |].
  destruct flagged_patients_df as [| r df]; cbn [empty].
  - split; [| reflexivity]. split; [reflexivity |].
    intros _. apply in_or_app. right. now left.
  - split; [| discriminate]. split; [| discriminate].
    intros H. exfalso. apply in_app_or in H. destruct H as [H | H].
    + destruct H as [H | [H | [H | []]]]; lines_differ H.
    + pose proof (report_body_Forall (fun l => l <> line_no_errors)) as F.
      eapply Forall_forall in F; [exact (F eq_refl) | .. | exact H];
        try (intros ? E); try (intros E); lines_differ E.
Qed.

(** X15: a flag is printed as a "Reason" line exactly when it belongs to a
    record that is the first of the table for its scheduler and patient;
    flags of later records of the same scheduler and patient are not
    printed. *)
Theorem report_reason_lines (flagged_patients_df : list FlagRecord) (m : string) :
  exists out,
    format_and_send_reports flagged_patients_df = Ok out
    /\ (In (line_reason m) out
        <-> exists r pre post,
              flagged_patients_df = pre ++ r :: post
              /\ In m (FLAGS r)
              /\ (forall r', In r' pre ->
                    ~ (FLAGGED_SCHEDULER_ID r' = FLAGGED_SCHEDULER_ID r
                       /\ FLAGGED_MRN r' = FLAGGED_MRN r))).
Proof.
  rewrite format_and_send_reports_value. eexists. split; [reflexivity |].
  apply report_reason_In.
Qed.

(** A second record of one patient under one scheduler is passed over. *)
Example report_skips_second_record :
  format_and_send_reports [flagged_same_day; flagged_no_lab]
  = Ok (banner
        ++ [line_email "scheduler_A_diligent"; line_subject; line_hello;
            line_patient 5; line_reason (msg_same_day 19723 19723); EmptyString;
            line_thanks; line_end]).
Proof. vm_compute. reflexivity. Qed.

(** ** One email per scheduler *)

Lemma prefix_append (s t : string) : String.prefix s (s ++ t)%string = true.
Proof.
  induction s as [| c s IH]; simpl.
  - now destruct t.
  - destruct (ascii_dec c c); [exact IH | contradiction].
Qed.

Lemma filter_flat_map {A B : Type} (p : B -> bool) (f : A -> list B) (l : list A) :
  filter p (flat_map f l) = flat_map (fun x => filter p (f x)) l.
Proof.
  induction l as [| x l IH]; simpl; [reflexivity |].
  now rewrite filter_app, IH.
Qed.

Lemma filter_none {A : Type} (p : A -> bool) (l : list A) :
  Forall (fun x => p x = false) l -> filter p l = [].
Proof.
  induction 1 as [| x l Hx _ IH]; simpl; [reflexivity |]. now rewrite Hx.
Qed.

Lemma email_block_emails (s : string) (group : list FlagRecord) :
  filter is_email_line (email_block (s, group)) = [line_email s].
Proof.
  unfold email_block. cbn [app filter].
  replace (is_email_line (line_email s)) with true
    by (symmetry; apply prefix_append).
  replace (is_email_line line_subject) with false by reflexivity.
  replace (is_email_line line_hello) with false by reflexivity.
  f_equal. rewrite filter_app. cbn [filter].
  replace (is_email_line line_thanks) with false by reflexivity.
  replace (is_email_line line_end) with false by reflexivity.
  rewrite app_nil_r. apply filter_none.
  apply Forall_flat_map, Forall_forall. intros [k pf] _.
  unfold patient_block. apply Forall_cons; [reflexivity |].
  apply Forall_app. split; [| repeat constructor].
  apply Forall_forall. intros l Hl. apply in_map_iff in Hl.
  now destruct Hl as (m & <- & _).
Qed.

(** X16: the report holds one email per distinct scheduler of the table, in
    ascending order of the scheduler names. *)
Theorem report_one_email_per_scheduler (flagged_patients_df : list FlagRecord) :
  exists out,
    format_and_send_reports flagged_patients_df = Ok out
    /\ filter is_email_line out
       = map line_email (scheduler_keys flagged_patients_df)
    /\ StronglySorted name_lt (scheduler_keys flagged_patients_df)
    /\ NoDup (scheduler_keys flagged_patients_df)
    /\ (forall s, In s (scheduler_keys flagged_patients_df)
                  <-> exists r, In r flagged_patients_df
                                /\ FLAGGED_SCHEDULER_ID r = s).
Proof.
  rewrite format_and_send_reports_value. eexists. split; [reflexivity |].
  split; [| split; [apply scheduler_keys_sorted |
                    split; [apply name_sorted_NoDup, scheduler_keys_sorted |
                            apply scheduler_keys_In]]].
  rewrite filter_app.
  replace (filter is_email_line banner) with (@nil string) by reflexivity.
  destruct flagged_patients_df as [| r df]; [reflexivity |].
  cbn [empty app]. unfold groupby_scheduler.
  rewrite filter_flat_map, flat_map_over_map.
  induction (scheduler_keys (r :: df)) as [| s ks IH]; [reflexivity |].
  cbn [flat_map map]. now rewrite email_block_emails, IH.
Qed.

(** ** From the table of appointments to the printed report *)

Lemma first_when_unique (df : list FlagRecord) (r : FlagRecord) :
  NoDup (map FLAGGED_MRN df) -> In r df ->
  exists pre post,
    df = pre ++ r :: post
    /\ (forall r', In r' pre ->
          ~ (FLAGGED_SCHEDULER_ID r' = FLAGGED_SCHEDULER_ID r
             /\ FLAGGED_MRN r' = FLAGGED_MRN r)).
Proof.
  intros N Hr. destruct (in_split _ _ Hr) as (pre & post & ->).
  exists pre, post. split; [reflexivity |].
  intros r' Hr' [_ E]. rewrite map_app in N. cbn [map] in N.
  apply NoDup_remove_2 in N. apply N, in_or_app. left.
  rewrite <- E. now apply in_map.
Qed.

(** X17: a run prints a flag as a "Reason" line exactly when the scan
    reports that flag for some patient, that is, for some patient whose
    rows inside the lookahead window raise it. *)
Theorem main_prints_the_flags (today : Z) (df_all : DataFrame) :
  exists out outcome,
    main_stdout today (Some df_all) = Ok out
    /\ main today df_all = Ok outcome
    /\ (forall m, In (line_reason m) out <-> exists mrn, flagged outcome mrn m).
Proof.
  unfold main_stdout, main, batch_scan.
  set (f := filter _ df_all).
  destruct f as [| a l] eqn:Ef; cbn [empty].
  - eexists. exists NoUpcomingAppointments.
    split; [reflexivity |]. split; [reflexivity |].
    intros m. split.
    + intros H. cbn [app In] in H.
      destruct H as [H | [H | [H | []]]];
        unfold line_reason in H; cbn [append] in H; discriminate H.
    + intros (mrn & r & [] & _).
  - rewrite collect_flags_value. cbn [bind].
    rewrite format_and_send_reports_value. cbn [bind].
    eexists. eexists. split; [reflexivity |]. split; [reflexivity |].
    set (records := flat_map group_record (groupby_mrn (a :: l))).
    assert (NoDup (map FLAGGED_MRN records)) as N.
    { subst records. unfold groupby_mrn. rewrite flat_map_over_map.
      apply (records_mrn_NoDup (fun k => rows_of k (a :: l))).
      apply strictly_sorted_NoDup, group_keys_sorted. }
    intros m. unfold flagged. cbn [records_of]. fold records. split.
    + intros H. cbn [app In] in H.
      destruct H as [H | [H | H]];
        try (unfold line_reason in H; cbn [append] in H; discriminate H).
      apply report_reason_In in H.
      destruct H as (r & pre & post & E & Hm & _).
      exists (FLAGGED_MRN r), r. split; [| split; [reflexivity | exact Hm]].
      rewrite E. apply in_elt.
    + intros (mrn & r & Hr & _ & Hm). cbn [app In]. do 2 right.
      apply report_reason_In.
      destruct (first_when_unique records r N Hr) as (pre & post & E & Hpre).
      now exists r, pre, post.
Qed.

(** * The generators *)

(** ** Days and weekdays *)

Lemma date_add_days (t k : Z) : date (t + timedelta_days k) = date t + k.
Proof.
  unfold date, timedelta_days. apply Z.div_add.
  pose proof NS_PER_DAY_pos. lia.
Qed.

Lemma weekday_range (t : Z) : 0 <= weekday t < 7.
Proof. unfold weekday. apply Z.mod_pos_bound. lia. Qed.

Lemma weekday_add_days (t k : Z) :
  weekday (t + timedelta_days k) = (weekday t + k) mod 7.
Proof.
  unfold weekday. rewrite date_add_days.
  rewrite Zplus_mod_idemp_l. f_equal. lia.
Qed.

Lemma timedelta_days_add (t j k : Z) :
  t + timedelta_days j + timedelta_days k = t + timedelta_days (j + k).
Proof. unfold timedelta_days. lia. Qed.

Lemma date_in_spec (d : Z) (existing_dates : list Z) :
  date_in d existing_dates = true <-> In d existing_dates.
Proof.
  unfold date_in. rewrite existsb_exists. split.
  - intros (x & Hx & E). apply Z.eqb_eq in E. now subst.
  - intros H. exists d. split; [exact H | apply Z.eqb_refl].
Qed.

(** ** The search for a free business day *)

Lemma available_test (existing_dates : list Z) (t : Z) :
  (weekday t <? 5) && negb (date_in (date t) existing_dates) = true
  <-> available existing_dates t.
Proof.
  unfold available.
  rewrite andb_true_iff, Z.ltb_lt, negb_true_iff, <- date_in_spec.
  destruct (date_in (date t) existing_dates); intuition congruence.
Qed.

(** What the loop returns, when it returns: the first available day at or
    after the start, at the start's time of day. *)
Lemma find_loop_spec (existing_dates : list Z) :
  forall (fuel : nat) (t found : Z),
    find_next_available_day_loop fuel t existing_dates = Some found ->
    exists k, 0 <= k < Z.of_nat fuel
              /\ found = t + timedelta_days k
              /\ available existing_dates found
              /\ (forall j, 0 <= j < k
                            -> ~ available existing_dates (t + timedelta_days j)).
Proof.
  induction fuel as [| fuel IH]; intros t found H;
    cbn [find_next_available_day_loop] in H; [discriminate |].
  destruct ((weekday t <? 5) && negb (date_in (date t) existing_dates)) eqn:T.
  - injection H as <-. exists 0. split; [lia |].
    split; [unfold timedelta_days; lia |].
    split; [now apply available_test | intros j Hj; lia].
  - destruct (IH _ _ H) as (k & Hk & E & A & Hmin).
    exists (k + 1). split; [lia |].
    split; [rewrite E, timedelta_days_add; f_equal; f_equal; lia |].
    split; [exact A |].
    intros j Hj. destruct (Z.eq_dec j 0) as [-> | Nz].
    + replace (t + timedelta_days 0) with t by (unfold timedelta_days; lia).
      rewrite <- available_test, T. discriminate.
    + replace (t + timedelta_days j)
        with (t + timedelta_days 1 + timedelta_days (j - 1))
        by (rewrite timedelta_days_add; f_equal; f_equal; lia).
      apply Hmin. lia.
Qed.

(** More fuel does not change a result. *)
Lemma find_loop_more_fuel (existing_dates : list Z) :
  forall (fuel fuel' : nat) (t found : Z),
    (fuel <= fuel')%nat ->
    find_next_available_day_loop fuel t existing_dates = Some found ->
    find_next_available_day_loop fuel' t existing_dates = Some found.
Proof.
  induction fuel as [| fuel IH]; intros fuel' t found L H;
    cbn [find_next_available_day_loop] in H; [discriminate |].
  destruct fuel' as [| fuel']; [lia |]. cbn [find_next_available_day_loop].
  destruct ((weekday t <? 5) && negb (date_in (date t) existing_dates));
    [exact H |].
  apply (IH fuel'); [lia | exact H].
Qed.

(** Past the taken dates, three iterations suffice. *)
Lemma find_loop_free (existing_dates : list Z) (fuel : nat) (t : Z) :
  (forall d, In d existing_dates -> d < date t) ->
  (3 <= fuel)%nat ->
  exists found, find_next_available_day_loop fuel t existing_dates = Some found.
Proof.
  intros Free L.
  assert (forall k, 0 <= k -> ~ In (date (t + timedelta_days k)) existing_dates)
    as NotIn.
  { intros k Hk I. rewrite date_add_days in I. specialize (Free _ I). lia. }
  assert (forall k, 0 <= k -> weekday (t + timedelta_days k) < 5 ->
            (weekday (t + timedelta_days k) <? 5)
            && negb (date_in (date (t + timedelta_days k)) existing_dates) = true)
    as Pass.
  { intros k Hk W. apply available_test. split; [exact W | now apply NotIn]. }
  pose proof (weekday_range t) as R.
  destruct fuel as [| [| [| fuel]]]; try lia.
  pose proof (Pass 0 (Z.le_refl 0)) as P0.
  pose proof (Pass 1 ltac:(lia)) as P1.
  pose proof (Pass 2 ltac:(lia)) as P2.
  replace (t + timedelta_days 0) with t in P0 by (unfold timedelta_days; lia).
  cbn [find_next_available_day_loop].
  destruct ((weekday t <? 5) && negb (date_in (date t) existing_dates)) eqn:T0;
    [eauto |].
  destruct ((weekday (t + timedelta_days 1) <? 5)
            && negb (date_in (date (t + timedelta_days 1)) existing_dates)) eqn:T1;
    [eauto |].
  rewrite timedelta_days_add. change (1 + 1) with 2.
  destruct ((weekday (t + timedelta_days 2) <? 5)
            && negb (date_in (date (t + timedelta_days 2)) existing_dates)) eqn:T2;
    [eauto |].
  exfalso.
  assert (weekday t = 5 \/ weekday t = 6) as [W | W].
  { destruct (Z_lt_ge_dec (weekday t) 5) as [Lt | Ge]; [| lia].
    specialize (P0 Lt). discriminate P0. }
  - assert (weekday (t + timedelta_days 2) < 5) as W2
      by (rewrite weekday_add_days, W; reflexivity).
    specialize (P2 W2). discriminate P2.
  - assert (weekday (t + timedelta_days 1) < 5) as W1
      by (rewrite weekday_add_days, W; reflexivity).
    specialize (P1 W1). discriminate P1.
Qed.

Lemma find_loop_terminates (existing_dates : list Z) :
  forall (n : nat) (fuel : nat) (t : Z),
    (forall d, In d existing_dates -> d < date t + Z.of_nat n) ->
    (n + 3 <= fuel)%nat ->
    exists found, find_next_available_day_loop fuel t existing_dates = Some found.
Proof.
  induction n as [| n IH]; intros fuel t Free L.
  - apply find_loop_free; [| lia].
    intros d Hd. specialize (Free d Hd). lia.
  - destruct fuel as [| fuel]; [lia |]. cbn [find_next_available_day_loop].
    destruct ((weekday t <? 5) && negb (date_in (date t) existing_dates));
      [eauto |].
    apply IH; [| lia].
    intros d Hd. specialize (Free d Hd). rewrite date_add_days. lia.
Qed.

Lemma fold_max_bound (x : Z) (l : list Z) :
  x <= fold_right Z.max x l /\ (forall d, In d l -> d <= fold_right Z.max x l).
Proof.
  induction l as [| y l [IH1 IH2]]; simpl.
  - split; [lia | intros d []].
  - split; [lia |]. intros d [<- | Hd]; [lia |]. specialize (IH2 d Hd). lia.
Qed.

Lemma find_next_available_day_found (start_date : Z) (existing_dates : list Z) :
  find_next_available_day_loop (search_bound start_date existing_dates)
    start_date existing_dates
  = Some (find_next_available_day start_date existing_dates).
Proof.
  unfold find_next_available_day.
  destruct (fold_max_bound (date start_date) existing_dates) as [B1 B2].
  destruct (find_loop_terminates existing_dates
              (Z.to_nat (fold_right Z.max (date start_date) existing_dates
                         - date start_date) + 1)
              (search_bound start_date existing_dates) start_date) as [found E].
  - intros d Hd. specialize (B2 d Hd). lia.
  - unfold search_bound. lia.
  - now rewrite E.
Qed.

(** X18: the search for a free business day ends for every start and every
    list of taken dates (any number of iterations from [search_bound] on
    gives the same result), and it returns the first day at or after the
    start, at the start's time of day, that is a weekday and whose date is
    not taken. *)
Theorem find_next_available_day_earliest (start_date : Z) (existing_dates : list Z) :
  (forall fuel, (search_bound start_date existing_dates <= fuel)%nat ->
     find_next_available_day_loop fuel start_date existing_dates
     = Some (find_next_available_day start_date existing_dates))
  /\ exists k,
       0 <= k
       /\ find_next_available_day start_date existing_dates
          = start_date + timedelta_days k
       /\ available existing_dates (find_next_available_day start_date existing_dates)
       /\ (forall j, 0 <= j < k
                     -> ~ available existing_dates (start_date + timedelta_days j)).
Proof.
  pose proof (find_next_available_day_found start_date existing_dates) as F.
  split.
  - intros fuel L. exact (find_loop_more_fuel _ _ _ _ _ L F).
  - destruct (find_loop_spec _ _ _ _ F) as (k & Hk & E & A & Hmin).
    exists k. repeat split; trivial; try lia; apply A.
Qed.

(** The result in terms of the first available day. *)
Lemma find_next_available_day_unique (start_date : Z) (existing_dates : list Z)
    (k : Z) :
  0 <= k ->
  available existing_dates (start_date + timedelta_days k) ->
  (forall j, 0 <= j < k -> ~ available existing_dates (start_date + timedelta_days j)) ->
  find_next_available_day start_date existing_dates = start_date + timedelta_days k.
Proof.
  intros Hk A Hmin.
  destruct (find_loop_spec _ _ _ _
              (find_next_available_day_found start_date existing_dates))
    as (k' & Hk' & E & A' & Hmin').
  rewrite E in *. f_equal. f_equal.
  destruct (Z.lt_trichotomy k k') as [L | [Eq | L]]; [| exact (eq_sym Eq) |].
  - exfalso. apply (Hmin' k); [lia | exact A].
  - exfalso. apply (Hmin k'); [lia | exact A'].
Qed.

(** The search when no taken date lies on or after the start. *)
Lemma find_next_available_day_when_free (start_date : Z) (existing_dates : list Z) :
  (forall d, In d existing_dates -> d < date start_date) ->
  find_next_available_day start_date existing_dates
  = start_date
    + timedelta_days (if weekday start_date <? 5 then 0
                      else 7 - weekday start_date).
Proof.
  intros Free. pose proof (weekday_range start_date) as R.
  assert (forall k, 0 <= k ->
            ~ In (date (start_date + timedelta_days k)) existing_dates) as NotIn.
  { intros k Hk I. rewrite date_add_days in I. specialize (Free _ I). lia. }
  apply find_next_available_day_unique.
  - destruct (weekday start_date <? 5); lia.
  - split; [| apply NotIn; destruct (weekday start_date <? 5); lia].
    rewrite weekday_add_days.
    destruct (weekday start_date <? 5) eqn:W.
    + apply Z.ltb_lt in W. rewrite Z.add_0_r, Z.mod_small; lia.
    + replace (weekday start_date + (7 - weekday start_date)) with 7 by lia.
      reflexivity.
  - intros j Hj [W _]. rewrite weekday_add_days in W.
    destruct (weekday start_date <? 5) eqn:T; [lia |].
    apply Z.ltb_ge in T. rewrite Z.mod_small in W; lia.
Qed.

(** X19: when no taken date lies on or after the start's date, the search
    returns the start itself on a weekday, the Monday after it (two days
    later) on a Saturday and the Monday after it (one day later) on a
    Sunday. *)
Theorem find_next_available_day_free (start_date : Z) (existing_dates : list Z) :
  (forall d, In d existing_dates -> d < date start_date) ->
  find_next_available_day start_date existing_dates
  = start_date
    + timedelta_days (if weekday start_date <? 5 then 0
                      else 7 - weekday start_date).
Proof. exact (find_next_available_day_when_free start_date existing_dates). Qed.

Lemma find_next_available_day_free_witness :
  find_next_available_day (at_time 19728 9) [19727] = at_time 19730 9.
Proof.
  refine (find_next_available_day_free (at_time 19728 9) [19727] _).
  intros d [<- | []]. reflexivity.
Defined.

(** ** More on the validator, for the generated schedules *)

(** The Chemo rule on a Chemo with a single Lab in its window. *)
Lemma chemo_pair_flags (appts others : DataFrame) (lab chemo : Appointment) :
  Permutation appts (lab :: chemo :: others) ->
  APPT_TYPE lab = "Lab" -> APPT_TYPE chemo = "Chemo" ->
  Forall (fun a => APPT_TYPE a <> "Lab" /\ triggers_nothing (APPT_TYPE a)) others ->
  in_window "Lab" (APPT_DTTM chemo) 7 lab ->
  check_patient_schedule appts
  = Ok (if APPT_DTTM lab >? APPT_DTTM chemo then
          [msg_lab_after (date (APPT_DTTM lab)) (date (APPT_DTTM chemo))]
        else if date (APPT_DTTM chemo) - date (APPT_DTTM lab) <? 1 then
          [msg_same_day (date (APPT_DTTM lab)) (date (APPT_DTTM chemo))]
        else []).
Proof.
  intros P TL TC O W.
  rewrite (check_pair appts others lab chemo "Lab" P TL lab_triggers_nothing O).
  f_equal. unfold flags_at.
  rewrite appointment_flags_chemo by exact TC. unfold chemo_rule.
  rewrite (find_only_related _ others lab chemo "Lab").
  - simpl. destruct (APPT_DTTM lab >? APPT_DTTM chemo); [reflexivity |].
    now destruct (date (APPT_DTTM chemo) - date (APPT_DTTM lab) <? 1).
  - eapply perm_trans; [apply sort_values_perm | exact P].
  - exact TL.
  - rewrite TC. discriminate.
  - eapply Forall_impl; [| exact O]. now intros a [H _].
  - exact W.
Qed.

(** Without Chemo rows and without rows of the types the other two rules
    look for, nothing is flagged. *)
Lemma no_related_no_flags (patient_appts : DataFrame) :
  (forall a, In a patient_appts ->
     APPT_TYPE a <> "Chemo" /\ APPT_TYPE a <> "Mammogram"
     /\ APPT_TYPE a <> "CT Simulation") ->
  check_patient_schedule patient_appts = Ok [].
Proof.
  intros H. rewrite check_patient_schedule_value. f_equal.
  unfold raw_flags. rewrite flat_map_nil; [reflexivity |].
  intros a Ia. apply (proj1 (sort_values_In _ _)) in Ia.
  destruct (H a Ia) as (NC & _).
  assert (forall ty t w, (ty = "Mammogram" \/ ty = "CT Simulation") ->
            find_related_appointment (sort_values patient_appts) ty t w = Ok None)
    as NoRel.
  { intros ty t w Hty. apply find_related_appointment_None.
    intros b Ib [Tb _]. apply (proj1 (sort_values_In _ _)) in Ib.
    destruct (H b Ib) as (_ & NM & NS). destruct Hty; congruence. }
  unfold flags_at.
  destruct (String.eqb_spec (APPT_TYPE a) "Oncology Visit") as [T | T2].
  { rewrite appointment_flags_visit by exact T. unfold oncology_rule.
    now rewrite NoRel by now left. }
  destruct (String.eqb_spec (APPT_TYPE a) "Radiation Therapy") as [T | T3].
  { rewrite appointment_flags_radiation by exact T. unfold radiation_rule.
    now rewrite NoRel by now right. }
  now rewrite appointment_flags_other by (repeat split; assumption).
Qed.

(** X20: a table with no Chemo, no Mammogram and no CT Simulation row raises
    no flag: an Oncology Visit or a Radiation Therapy without its related
    appointment anywhere in the table is never reported. *)
Theorem silent_without_related_rows (patient_appts : DataFrame) :
  (forall a, In a patient_appts ->
     APPT_TYPE a <> "Chemo" /\ APPT_TYPE a <> "Mammogram"
     /\ APPT_TYPE a <> "CT Simulation") ->
  check_patient_schedule patient_appts = Ok [].
Proof. exact (no_related_no_flags patient_appts). Qed.

Lemma silent_without_related_rows_witness :
  check_patient_schedule [radiation_noon; visit_alone] = Ok [].
Proof.
  apply (silent_without_related_rows [radiation_noon; visit_alone]).
  intros a [<- | [<- | []]]; repeat split; discriminate.
Defined.

(** ** The schedules of [appointment_generator_v3.py] *)

Lemma first_business_day_ge (t : Z) : t <= first_business_day t.
Proof.
  unfold first_business_day, timedelta_days.
  pose proof (weekday_range t). pose proof NS_PER_DAY_pos.
  destruct (weekday t <? 5); nia.
Qed.

Lemma first_business_day_weekday (t : Z) : weekday (first_business_day t) < 5.
Proof.
  unfold first_business_day. rewrite weekday_add_days.
  pose proof (weekday_range t).
  destruct (weekday t <? 5) eqn:W.
  - apply Z.ltb_lt in W. rewrite Z.add_0_r, Z.mod_small; lia.
  - replace (weekday t + (7 - weekday t)) with 7 by lia. reflexivity.
Qed.

(** From a weekday the next business day is the next day, or the Monday
    after a Friday. *)
Lemma next_business_day_gap (t : Z) :
  weekday t < 5 ->
  next_business_day t = t + timedelta_days (if weekday t =? 4 then 3 else 1).
Proof.
  intros W. pose proof (weekday_range t) as R.
  unfold next_business_day, first_business_day.
  rewrite weekday_add_days, timedelta_days_add. f_equal. f_equal.
  destruct (weekday t =? 4) eqn:F.
  - apply Z.eqb_eq in F. rewrite F. reflexivity.
  - apply Z.eqb_neq in F.
    rewrite Z.mod_small by lia.
    replace (weekday t + 1 <? 5) with true by (symmetry; apply Z.ltb_lt; lia).
    lia.
Qed.

(** A search that starts on a taken date moves on to the next day. *)
Lemma find_skip_taken (t : Z) (existing_dates : list Z) :
  In (date t) existing_dates ->
  find_next_available_day t existing_dates
  = find_next_available_day (t + timedelta_days 1) existing_dates.
Proof.
  intros Taken.
  destruct (find_loop_spec _ _ _ _
              (find_next_available_day_found (t + timedelta_days 1) existing_dates))
    as (k & Hk & E & A & Hmin).
  rewrite E, timedelta_days_add.
  apply find_next_available_day_unique.
  - lia.
  - rewrite <- timedelta_days_add, <- E. exact A.
  - intros j Hj. destruct (Z.eq_dec j 0) as [-> | Nz].
    + replace (t + timedelta_days 0) with t by (unfold timedelta_days; lia).
      intros [_ N]. contradiction.
    + replace (t + timedelta_days j)
        with (t + timedelta_days 1 + timedelta_days (j - 1))
        by (rewrite timedelta_days_add; f_equal; f_equal; lia).
      apply Hmin. lia.
Qed.

Lemma diligent_loop_hasty (plan_steps : list string) :
  forall (current_date : Z) (appointments : list (Z * string)),
    In (date current_date) (V3.dates_of appointments) ->
    V3.diligent_loop plan_steps current_date appointments
    = V3.hasty_loop plan_steps (current_date + timedelta_days 1) appointments.
Proof.
  induction plan_steps as [| step rest IH]; intros current_date appointments Taken;
    [reflexivity |].
  cbn [V3.diligent_loop V3.hasty_loop].
  rewrite <- (find_skip_taken current_date) by exact Taken.
  apply IH. unfold V3.dates_of. rewrite map_app. apply in_or_app. right.
  now left.
Qed.

Lemma diligent_loop_start (plan_steps : list string) (start_date : Z) :
  V3.diligent_loop plan_steps start_date []
  = V3.hasty_loop plan_steps start_date [].
Proof.
  destruct plan_steps as [| step rest]; [reflexivity |].
  cbn [V3.diligent_loop V3.hasty_loop].
  apply diligent_loop_hasty. now left.
Qed.

(** X21: the diligent and the hasty scheduler of [appointment_generator_v3.py]
    produce the same schedule for every plan and start: the diligent one
    restarts its search on the day it has just taken, which is skipped, so it
    never puts two steps on one day. *)
Theorem v3_diligent_is_hasty (plan_steps : list string) (start_date : Z)
    (coin coin' : bool) :
  V3.schedule_plan "scheduler_A_diligent" plan_steps start_date coin
  = V3.schedule_plan "scheduler_B_hasty" plan_steps start_date coin'.
Proof.
  unfold V3.schedule_plan.
  change ("scheduler_B_hasty" =? "scheduler_A_diligent")%string with false.
  change ("scheduler_A_diligent" =? "scheduler_A_diligent")%string with true.
  change ("scheduler_B_hasty" =? "scheduler_B_hasty")%string with true.
  cbv iota. apply diligent_loop_start.
Qed.

(** The hasty loop, once every taken date lies before the search. *)
Lemma hasty_loop_run (plan_steps : list string) :
  forall (current_date : Z) (appointments : list (Z * string)),
    (forall d, In d (V3.dates_of appointments) -> d < date current_date) ->
    V3.hasty_loop plan_steps current_date appointments
    = appointments
      ++ combine (business_run (List.length plan_steps)
                    (first_business_day current_date))
                 plan_steps.
Proof.
  induction plan_steps as [| step rest IH]; intros current_date appointments Free.
  - simpl. now rewrite app_nil_r.
  - cbn [V3.hasty_loop].
    rewrite (find_next_available_day_when_free _ _ Free).
    fold (first_business_day current_date).
    rewrite IH.
    + rewrite <- app_assoc. reflexivity.
    + intros d Hd. unfold V3.dates_of in Hd. rewrite map_app in Hd.
      rewrite date_add_days.
      pose proof (Z.div_le_mono _ _ NS_PER_DAY NS_PER_DAY_pos
                    (first_business_day_ge current_date)) as M.
      fold (date current_date) in M.
      fold (date (first_business_day current_date)) in M.
      apply in_app_or in Hd. destruct Hd as [Hd | [<- | []]].
      * specialize (Free d Hd). lia.
      * cbn [fst]. lia.
Qed.

Lemma hasty_schedule (plan_steps : list string) (start_date : Z) :
  V3.hasty_loop plan_steps start_date []
  = combine (business_run (List.length plan_steps) (first_business_day start_date))
      plan_steps.
Proof. rewrite hasty_loop_run; [reflexivity | intros d []]. Qed.

Lemma schedule_plan_run (scheduler_id : string) (plan_steps : list string)
    (start_date : Z) (follows_rules : bool) :
  V3.schedule_plan scheduler_id plan_steps start_date follows_rules
  = let steps := if makes_error scheduler_id follows_rules
                 then rev plan_steps else plan_steps in
    combine (business_run (List.length steps) (first_business_day start_date))
      steps.
Proof.
  unfold makes_error.
  destruct (String.eqb_spec scheduler_id "scheduler_A_diligent") as [-> | NA].
  { unfold V3.schedule_plan.
    change ("scheduler_A_diligent" =? "scheduler_A_diligent")%string with true.
    cbn [negb andb]. rewrite diligent_loop_start. apply hasty_schedule. }
  unfold V3.schedule_plan.
  apply String.eqb_neq in NA. rewrite NA.
  destruct (scheduler_id =? "scheduler_B_hasty")%string; cbn [negb andb];
    [apply hasty_schedule |].
  destruct follows_rules; cbn [negb]; apply hasty_schedule.
Qed.

Lemma business_run_length (n : nat) (t : Z) : List.length (business_run n t) = n.
Proof. revert t. induction n as [| n IH]; intros t; simpl; [| rewrite IH]; reflexivity. Qed.

Lemma business_run_weekdays (n : nat) :
  forall t, weekday t < 5 -> Forall (fun d => weekday d < 5) (business_run n t).
Proof.
  induction n as [| n IH]; intros t W; cbn [business_run]; constructor;
    [exact W |].
  apply IH. apply first_business_day_weekday.
Qed.

Lemma next_business_day_later (t : Z) : weekday t < 5 -> t < next_business_day t.
Proof.
  intros W. rewrite next_business_day_gap by exact W.
  unfold timedelta_days. pose proof NS_PER_DAY_pos.
  destruct (weekday t =? 4); lia.
Qed.

Lemma business_run_above (n : nat) :
  forall t u, weekday t < 5 -> u < t -> Forall (Z.lt u) (business_run n t).
Proof.
  induction n as [| n IH]; intros t u W L; cbn [business_run]; constructor;
    [exact L |].
  apply IH; [apply first_business_day_weekday |].
  pose proof (next_business_day_later t W). lia.
Qed.

Lemma business_run_increasing (n : nat) :
  forall t, weekday t < 5 -> StronglySorted Z.lt (business_run n t).
Proof.
  induction n as [| n IH]; intros t W; cbn [business_run]; constructor.
  - apply IH, first_business_day_weekday.
  - apply business_run_above; [apply first_business_day_weekday |].
    now apply next_business_day_later.
Qed.

Lemma map_fst_combine {A B : Type} (l : list A) (l' : list B) :
  List.length l = List.length l' -> map fst (combine l l') = l.
Proof.
  revert l'. induction l as [| x l IH]; intros [| y l'] E; simpl in *;
    try discriminate; [reflexivity |].
  now rewrite IH by lia.
Qed.

Lemma map_snd_combine {A B : Type} (l : list A) (l' : list B) :
  List.length l = List.length l' -> map snd (combine l l') = l'.
Proof.
  revert l'. induction l as [| x l IH]; intros [| y l'] E; simpl in *;
    try discriminate; [reflexivity |].
  now rewrite IH by lia.
Qed.

(** X22: every schedule of [appointment_generator_v3.py] puts the steps of
    the plan, in plan order (in reverse order when the forgetful scheduler
    errs), on consecutive business days from the first business day at or
    after the start, one step a day, all at the start's time of day. *)
Theorem v3_schedule_on_business_days (scheduler_id : string)
    (plan_steps : list string) (start_date : Z) (follows_rules : bool) :
  let steps := if makes_error scheduler_id follows_rules
               then rev plan_steps else plan_steps in
  let schedule := V3.schedule_plan scheduler_id plan_steps start_date follows_rules in
  map snd schedule = steps
  /\ map fst schedule
     = business_run (List.length plan_steps) (first_business_day start_date)
  /\ Forall (fun t => weekday t < 5) (map fst schedule)
  /\ StronglySorted Z.lt (map fst schedule).
Proof.
  intros steps schedule. subst schedule.
  rewrite schedule_plan_run. fold steps. cbv zeta.
  assert (List.length steps = List.length plan_steps) as L
    by (subst steps; destruct (makes_error _ _); [apply length_rev | reflexivity]).
  rewrite map_snd_combine, map_fst_combine
    by (rewrite business_run_length; reflexivity).
  rewrite L. split; [reflexivity |]. split; [reflexivity |].
  split.
  - apply business_run_weekdays, first_business_day_weekday.
  - apply business_run_increasing, first_business_day_weekday.
Qed.

(** ** The generated schedules under the validator *)

Lemma schedule_of_two (rows : DataFrame) (t0 t1 : Z) (s0 s1 : string) :
  schedule_of rows = [(t0, s0); (t1, s1)] ->
  exists a b, rows = [a; b]
              /\ APPT_DTTM a = t0 /\ APPT_TYPE a = s0
              /\ APPT_DTTM b = t1 /\ APPT_TYPE b = s1.
Proof.
  unfold schedule_of. destruct rows as [| a [| b [| c rows]]]; simpl; intros H;
    try discriminate.
  injection H as <- <- <- <-. now exists a, b.
Qed.

(** A plan of two steps, as the rows of a table. *)
Lemma v3_two_steps (scheduler_id : string) (s0 s1 : string) (start_date : Z)
    (follows_rules : bool) (rows : DataFrame) :
  schedule_of rows
  = V3.schedule_plan scheduler_id [s0; s1] start_date follows_rules ->
  let t0 := first_business_day start_date in
  exists a b k,
    rows = [a; b]
    /\ APPT_DTTM a = t0 /\ APPT_DTTM b = t0 + timedelta_days k
    /\ k = (if weekday t0 =? 4 then 3 else 1)
    /\ next_business_day t0 = t0 + timedelta_days k
    /\ (if makes_error scheduler_id follows_rules
        then APPT_TYPE a = s1 /\ APPT_TYPE b = s0
        else APPT_TYPE a = s0 /\ APPT_TYPE b = s1).
Proof.
  intros H t0. rewrite schedule_plan_run in H. cbv zeta in H.
  pose proof (next_business_day_gap t0 (first_business_day_weekday start_date)) as G.
  destruct (makes_error scheduler_id follows_rules);
    cbn [rev app List.length business_run combine] in H; fold t0 in H;
    apply schedule_of_two in H; destruct H as (a & b & -> & Ta & Sa & Tb & Sb);
    exists a, b, (if weekday t0 =? 4 then 3 else 1);
    rewrite <- G; repeat split; trivial.
Qed.

Ltac gap_facts k :=
  let Hk := fresh "Hk" in
  match goal with
  | E : k = (if ?c then 3 else 1) |- _ =>
      assert (k = 1 \/ k = 3) as Hk by (rewrite E; destruct c; auto)
  end;
  pose proof NS_PER_DAY_pos; unfold timedelta_days in *.

(** X23: a chemo cycle (Lab, then Chemo) scheduled by
    [appointment_generator_v3.py] passes the validator without a flag, the
    Chemo being one to three days after the Lab; when the forgetful
    scheduler reverses the plan the validator returns exactly the "Lab after
    Chemo" flag. *)
Theorem v3_chemo_cycle_validated (scheduler_id : string) (start_date : Z)
    (follows_rules : bool) (rows : DataFrame) :
  schedule_of rows
  = V3.schedule_plan scheduler_id V3.chemo_cycle start_date follows_rules ->
  let t0 := first_business_day start_date in
  check_patient_schedule rows
  = Ok (if makes_error scheduler_id follows_rules
        then [msg_lab_after (date (next_business_day t0)) (date t0)]
        else []).
Proof.
  intros H t0.
  destruct (v3_two_steps _ _ _ _ _ _ H) as (a & b & k & -> & Ta & Tb & Ek & Nk & Ty).
  fold t0 in Ta, Tb, Ek, Nk. rewrite Nk.
  destruct (makes_error scheduler_id follows_rules); destruct Ty as [Sa Sb].
  - rewrite (chemo_pair_flags [a; b] [] b a);
      [| apply perm_swap | exact Sb | exact Sa | constructor |].
    + rewrite Ta, Tb.
      replace (t0 + timedelta_days k >? t0) with true; [reflexivity |].
      symmetry. apply Z.gtb_gt. gap_facts k. lia.
    + unfold in_window. rewrite Ta, Tb. split; [exact Sb |].
      gap_facts k. lia.
  - rewrite (chemo_pair_flags [a; b] [] a b);
      [| apply Permutation_refl | exact Sa | exact Sb | constructor |].
    + rewrite Ta, Tb, date_add_days.
      replace (t0 >? t0 + timedelta_days k) with false
        by (symmetry; rewrite Z.gtb_ltb; apply Z.ltb_ge; gap_facts k; lia).
      replace (date t0 + k - date t0 <? 1) with false
        by (symmetry; apply Z.ltb_ge; gap_facts k; lia).
      reflexivity.
    + unfold in_window. rewrite Ta, Tb. split; [exact Sa |].
      gap_facts k. lia.
Qed.

(** X24: an imaging follow-up (Mammogram, then Oncology Visit) scheduled by
    [appointment_generator_v3.py] without error is flagged "too soon" by the
    validator unless the Mammogram falls on a Friday: the visit is on the
    next business day, and the validator asks for two calendar days.  When
    the forgetful scheduler reverses the plan the validator returns exactly
    the "before" flag. *)
Theorem v3_imaging_followup_validated (scheduler_id : string) (start_date : Z)
    (follows_rules : bool) (rows : DataFrame) :
  schedule_of rows
  = V3.schedule_plan scheduler_id V3.imaging_followup start_date follows_rules ->
  let t0 := first_business_day start_date in
  check_patient_schedule rows
  = Ok (if makes_error scheduler_id follows_rules
        then [msg_visit_before (date t0) (date (next_business_day t0))]
        else if weekday t0 =? 4 then []
        else [msg_too_soon (date (next_business_day t0)) (date t0)]).
Proof.
  intros H t0.
  destruct (v3_two_steps _ _ _ _ _ _ H) as (a & b & k & -> & Ta & Tb & Ek & Nk & Ty).
  fold t0 in Ta, Tb, Ek, Nk. rewrite Nk.
  destruct (makes_error scheduler_id follows_rules); destruct Ty as [Sa Sb].
  - rewrite (visit_pair_flags [a; b] [] b a);
      [| apply perm_swap | exact Sb | exact Sa | constructor |].
    + rewrite Ta, Tb.
      replace (t0 + timedelta_days k >? t0) with true; [reflexivity |].
      symmetry. apply Z.gtb_gt. gap_facts k. lia.
    + unfold in_window. rewrite Ta, Tb. split; [exact Sb |].
      gap_facts k. lia.
  - rewrite (visit_pair_flags [a; b] [] a b);
      [| apply Permutation_refl | exact Sa | exact Sb | constructor |].
    + rewrite Ta, Tb, date_add_days.
      replace (t0 >? t0 + timedelta_days k) with false
        by (symmetry; rewrite Z.gtb_ltb; apply Z.ltb_ge; gap_facts k; lia).
      replace (date t0 + k - date t0) with k by lia.
      rewrite Ek. now destruct (weekday t0 =? 4).
    + unfold in_window. rewrite Ta, Tb. split; [exact Sa |].
      gap_facts k. lia.
Qed.

(** X25: a radiation preparation (CT Simulation, then Radiation Therapy)
    scheduled by [appointment_generator_v3.py] without error passes the
    validator; when the forgetful scheduler reverses the plan the validator
    returns exactly the "before" flag. *)
Theorem v3_radiation_prep_validated (scheduler_id : string) (start_date : Z)
    (follows_rules : bool) (rows : DataFrame) :
  schedule_of rows
  = V3.schedule_plan scheduler_id V3.radiation_prep start_date follows_rules ->
  let t0 := first_business_day start_date in
  check_patient_schedule rows
  = Ok (if makes_error scheduler_id follows_rules
        then [msg_rt_before (date t0) (date (next_business_day t0))]
        else []).
Proof.
  intros H t0.
  destruct (v3_two_steps _ _ _ _ _ _ H) as (a & b & k & -> & Ta & Tb & Ek & Nk & Ty).
  fold t0 in Ta, Tb, Ek, Nk. rewrite Nk.
  destruct (makes_error scheduler_id follows_rules); destruct Ty as [Sa Sb].
  - rewrite (radiation_pair_flags [a; b] [] b a);
      [| apply perm_swap | exact Sb | exact Sa | constructor |].
    + rewrite Ta, Tb.
      replace (t0 + timedelta_days k >? t0) with true; [reflexivity |].
      symmetry. apply Z.gtb_gt. gap_facts k. lia.
    + unfold in_window. rewrite Ta, Tb. split; [exact Sb |].
      gap_facts k. lia.
  - rewrite (radiation_pair_flags [a; b] [] a b);
      [| apply Permutation_refl | exact Sa | exact Sb | constructor |].
    + rewrite Ta, Tb.
      replace (t0 >? t0 + timedelta_days k) with false
        by (symmetry; rewrite Z.gtb_ltb; apply Z.ltb_ge; gap_facts k; lia).
      reflexivity.
    + unfold in_window. rewrite Ta, Tb. split; [exact Sa |].
      gap_facts k. lia.
Qed.

Lemma v3_chemo_cycle_validated_witness :
  check_patient_schedule [gen_chemo_monday; gen_lab_tuesday]
  = Ok ["Order Error: Lab on 2024-01-02 is AFTER Chemo on 2024-01-01."].
Proof.
  refine (v3_chemo_cycle_validated "scheduler_C_forgetful" (at_time 19723 9)
            false [gen_chemo_monday; gen_lab_tuesday] _).
  vm_compute. reflexivity.
Defined.

Lemma v3_imaging_followup_validated_witness :
  check_patient_schedule [gen_mammogram_monday; gen_visit_tuesday]
  = Ok ["Timing Error: Visit on 2024-01-02 is too soon after Mammogram on 2024-01-01 (requires 2-day gap for results)."].
Proof.
  refine (v3_imaging_followup_validated "scheduler_A_diligent" (at_time 19723 9)
            true [gen_mammogram_monday; gen_visit_tuesday] _).
  vm_compute. reflexivity.
Defined.

Lemma v3_radiation_prep_validated_witness :
  check_patient_schedule [gen_simulation_monday; gen_radiation_tuesday] = Ok [].
Proof.
  refine (v3_radiation_prep_validated "scheduler_B_hasty" (at_time 19723 9)
            true [gen_simulation_monday; gen_radiation_tuesday] _).
  vm_compute. reflexivity.
Defined.

(** X26: a full work-up (CT, Bone Scan, Oncology Visit) scheduled by
    [appointment_generator_v3.py] is never flagged by the validator, not even
    when the forgetful scheduler reverses it and the visit comes first: the
    validator has no rule for these scans. *)
Theorem v3_full_workup_never_flagged (scheduler_id : string) (start_date : Z)
    (follows_rules : bool) (rows : DataFrame) :
  schedule_of rows
  = V3.schedule_plan scheduler_id V3.full_workup start_date follows_rules ->
  check_patient_schedule rows = Ok [].
Proof.
  intros H. apply no_related_no_flags. intros a Ia.
  assert (In (APPT_TYPE a) V3.full_workup) as T.
  { assert (In (APPT_TYPE a) (map snd (schedule_of rows))) as I.
    { unfold schedule_of. rewrite map_map. cbn [snd].
      now apply (in_map APPT_TYPE). }
    rewrite H, schedule_plan_run in I. cbv zeta in I.
    rewrite map_snd_combine in I by (rewrite business_run_length; reflexivity).
    destruct (makes_error scheduler_id follows_rules); [| exact I].
    now apply in_rev. }
  destruct T as [<- | [<- | [<- | []]]]; repeat split; discriminate.
Qed.

Lemma v3_full_workup_never_flagged_witness :
  check_patient_schedule [gen_visit_monday; gen_bone_scan_tuesday; gen_ct_wednesday]
  = Ok [].
Proof.
  refine (v3_full_workup_never_flagged "scheduler_C_forgetful" (at_time 19723 9)
            false [gen_visit_monday; gen_bone_scan_tuesday; gen_ct_wednesday] _).
  vm_compute. reflexivity.
Defined.

(** ** The schedules against the rules declared with the plans *)

Lemma v3_plan_run (scheduler_id : string) (plan_steps : list string)
    (start_date : Z) (follows_rules : bool) (dates : string -> Z) :
  dates_agree dates
    (V3.schedule_plan scheduler_id plan_steps start_date follows_rules) ->
  forall t step,
    In (t, step)
       (combine (business_run (List.length plan_steps) (first_business_day start_date))
          (if makes_error scheduler_id follows_rules
           then rev plan_steps else plan_steps)) ->
    dates step = t.
Proof.
  intros A t step I. apply A. rewrite schedule_plan_run. cbv zeta.
  destruct (makes_error scheduler_id follows_rules); [| exact I].
  now rewrite length_rev.
Qed.

(** X27: the schedules of [appointment_generator_v3.py] satisfy the ['rule']
    declared with their plan in [CARE_PLANS] exactly when the forgetful
    scheduler does not err: an unreversed schedule always satisfies the rule
    of its plan, a reversed one always violates it. *)
Theorem v3_schedules_and_plan_rules (scheduler_id : string) (start_date : Z)
    (follows_rules : bool) (dates : string -> Z) :
  (dates_agree dates
     (V3.schedule_plan scheduler_id V3.chemo_cycle start_date follows_rules)
   -> V3.rule_chemo_cycle dates = negb (makes_error scheduler_id follows_rules))
  /\ (dates_agree dates
        (V3.schedule_plan scheduler_id V3.imaging_followup start_date follows_rules)
      -> V3.rule_imaging_followup dates
         = negb (makes_error scheduler_id follows_rules))
  /\ (dates_agree dates
        (V3.schedule_plan scheduler_id V3.radiation_prep start_date follows_rules)
      -> V3.rule_radiation_prep dates
         = negb (makes_error scheduler_id follows_rules))
  /\ (dates_agree dates
        (V3.schedule_plan scheduler_id V3.full_workup start_date follows_rules)
      -> V3.rule_full_workup dates
         = negb (makes_error scheduler_id follows_rules)).
Proof.
  set (t0 := first_business_day start_date).
  pose proof (first_business_day_weekday start_date) as W0. fold t0 in W0.
  pose proof (next_business_day_later t0 W0) as L1.
  pose proof (next_business_day_later (next_business_day t0)
                (first_business_day_weekday _)) as L2.
  pose proof (next_business_day_gap t0 W0) as G1.
  assert (exists k, (k = 1 \/ k = 3) /\ next_business_day t0 = t0 + k * NS_PER_DAY)
    as (k & Hk & Ek).
  { exists (if weekday t0 =? 4 then 3 else 1).
    split; [destruct (weekday t0 =? 4); auto | exact G1]. }
  pose proof NS_PER_DAY_pos as Dpos.
  assert ((next_business_day t0 - t0) / NS_PER_DAY = k) as Dk.
  { rewrite Ek. replace (t0 + k * NS_PER_DAY - t0) with (k * NS_PER_DAY) by lia.
    apply Z.div_mul. lia. }
  assert ((t0 - next_business_day t0) / NS_PER_DAY = - k) as Dk'.
  { rewrite Ek. replace (t0 - (t0 + k * NS_PER_DAY)) with (- k * NS_PER_DAY) by lia.
    apply Z.div_mul. lia. }
  repeat split; intros A;
    pose proof (v3_plan_run _ _ _ _ _ A) as R; fold t0 in R;
    destruct (makes_error scheduler_id follows_rules);
    cbn [rev app List.length business_run combine V3.chemo_cycle
         V3.imaging_followup V3.radiation_prep V3.full_workup In negb] in R |- *.
  - unfold V3.rule_chemo_cycle.
    rewrite (R t0 "Chemo"), (R (next_business_day t0) "Lab") by auto.
    rewrite Dk'. destruct Hk as [-> | ->]; reflexivity.
  - unfold V3.rule_chemo_cycle.
    rewrite (R t0 "Lab"), (R (next_business_day t0) "Chemo") by auto.
    rewrite Dk. destruct Hk as [-> | ->]; reflexivity.
  - unfold V3.rule_imaging_followup.
    rewrite (R t0 "Oncology Visit"), (R (next_business_day t0) "Mammogram") by auto.
    rewrite Z.gtb_ltb. apply Z.ltb_ge. lia.
  - unfold V3.rule_imaging_followup.
    rewrite (R t0 "Mammogram"), (R (next_business_day t0) "Oncology Visit") by auto.
    apply Z.gtb_gt. lia.
  - unfold V3.rule_radiation_prep.
    rewrite (R t0 "Radiation Therapy"), (R (next_business_day t0) "CT Simulation")
      by auto.
    rewrite Z.gtb_ltb. apply Z.ltb_ge. lia.
  - unfold V3.rule_radiation_prep.
    rewrite (R t0 "CT Simulation"), (R (next_business_day t0) "Radiation Therapy")
      by auto.
    apply Z.gtb_gt. lia.
  - unfold V3.rule_full_workup.
    rewrite (R t0 "Oncology Visit"), (R (next_business_day t0) "Bone Scan"),
      (R (next_business_day (next_business_day t0)) "CT Chest/Abdomen/Pelvis")
      by auto.
    apply andb_false_iff. left. rewrite Z.gtb_ltb. apply Z.ltb_ge. lia.
  - unfold V3.rule_full_workup.
    rewrite (R t0 "CT Chest/Abdomen/Pelvis"), (R (next_business_day t0) "Bone Scan"),
      (R (next_business_day (next_business_day t0)) "Oncology Visit")
      by auto.
    apply andb_true_iff. split; apply Z.gtb_gt; lia.
Qed.

Lemma v3_schedules_and_plan_rules_witness :
  V3.rule_chemo_cycle
    (fun step => if (step =? "Lab")%string then at_time 19723 9 else at_time 19724 9)
  = true.
Proof.
  refine (proj1 (v3_schedules_and_plan_rules "scheduler_B_hasty" (at_time 19723 9)
                   true _) _).
  intros t step I. vm_compute in I.
  destruct I as [E | [E | []]]; injection E as <- <-; reflexivity.
Defined.

(** ** The phases of [appointment_generator_v5.py] *)

Lemma slot_bounds (p : Z * Z) :
  In p V5.BUSINESS_HOURS_TIMES -> 8 <= fst p <= 16 /\ 0 <= snd p <= 45.
Proof.
  assert (Forall (fun p => 8 <= fst p <= 16 /\ 0 <= snd p <= 45)
            V5.BUSINESS_HOURS_TIMES) as F
    by (repeat constructor; simpl; lia).
  rewrite Forall_forall in F. apply F.
Qed.

(** Replacing hour and minute by a business-hours slot keeps the date. *)
Lemma date_random_slot (rnd : V5.Random) (n : nat) (t : Z) :
  business_hours rnd -> date (V5.random_slot rnd n t) = date t.
Proof.
  intros B. unfold V5.random_slot, V5.replace_hour_minute.
  destruct (slot_bounds _ (B n)) as [Hh _].
  destruct (slot_bounds _ (B (S n))) as [_ Hm].
  pose proof (Z.mod_pos_bound t V5.NS_PER_MINUTE ltac:(reflexivity)) as R.
  set (h := fst (V5.choice rnd n)) in *.
  set (m := snd (V5.choice rnd (S n))) in *.
  set (r := t mod V5.NS_PER_MINUTE) in *.
  unfold date at 1.
  replace (date t * NS_PER_DAY + h * V5.NS_PER_HOUR + m * V5.NS_PER_MINUTE + r)
    with (h * V5.NS_PER_HOUR + m * V5.NS_PER_MINUTE + r + date t * NS_PER_DAY)
    by lia.
  rewrite Z.div_add by (unfold NS_PER_DAY; lia).
  rewrite Z.div_small; [lia |].
  unfold V5.NS_PER_HOUR, V5.NS_PER_MINUTE, NS_PER_DAY in *. lia.
Qed.

Lemma date_first_business_day (t : Z) :
  date t <= date (first_business_day t) <= date t + 2.
Proof.
  unfold first_business_day. rewrite date_add_days.
  pose proof (weekday_range t).
  destruct (weekday t <? 5) eqn:W; [lia |]. apply Z.ltb_ge in W. lia.
Qed.

(** Timestamps on different dates are ordered as their dates, and are less
    than a day further apart than the dates. *)
Lemma dates_apart (a b : Z) :
  date a < date b ->
  a < b /\ b - a < (date b - date a + 1) * NS_PER_DAY.
Proof.
  intros H. pose proof (date_spec a). pose proof (date_spec b).
  pose proof NS_PER_DAY_pos. split; nia.
Qed.

(** The diligent scheduler on a phase of two steps: the second appointment
    falls on the first business day that is at least the minimal gap, and at
    least one day, after the first. *)
Lemma v5_diligent_two_steps (rnd : V5.Random) (plan_details : V5.PlanDetails)
    (s0 s1 : string) (start_date : Z) (existing_dates : list Z) :
  business_hours rnd ->
  V5.steps plan_details = [s0; s1] ->
  0 <= V5.get_min_gap plan_details ->
  (forall d, In d existing_dates -> d < date start_date) ->
  exists a0 a1,
    V5.schedule_phase rnd "scheduler_A_diligent" plan_details start_date
      existing_dates
    = Ok ([(a0, s0); (a1, s1)], existing_dates ++ [date a0; date a1])
    /\ date a0 + Z.max 1 (V5.get_min_gap plan_details) <= date a1
    /\ date a1 <= date a0 + Z.max 1 (V5.get_min_gap plan_details) + 2.
Proof.
  intros B St G Free.
  unfold V5.schedule_phase.
  change ("scheduler_A_diligent" =? "scheduler_A_diligent")%string with true.
  cbv iota. rewrite St.
  cbn [V5.diligent_loop Nat.ltb Nat.leb bind Nat.mul Nat.add app
       V5.last_datetime rev fst].
  set (a0 := V5.random_slot rnd 0
               (find_next_available_day start_date existing_dates)).
  set (g := V5.get_min_gap plan_details) in *.
  set (ex1 := existing_dates ++ [date a0]).
  set (a1 := V5.random_slot rnd 2
               (find_next_available_day (a0 + timedelta_days g) ex1)).
  exists a0, a1. split.
  { do 2 f_equal. subst ex1. now rewrite <- app_assoc. }
  assert (date a0 = date (first_business_day start_date)) as D0.
  { subst a0. rewrite date_random_slot by exact B.
    now rewrite (find_next_available_day_when_free _ _ Free). }
  pose proof (date_first_business_day start_date) as F0.
  assert (forall d, In d ex1 -> d <= date a0) as Ex1.
  { intros d Hd. subst ex1. apply in_app_or in Hd.
    destruct Hd as [Hd | [<- | []]]; [specialize (Free d Hd) |]; lia. }
  assert (find_next_available_day (a0 + timedelta_days g) ex1
          = first_business_day (a0 + timedelta_days (Z.max 1 g))) as F1.
  { destruct (Z.eq_dec g 0) as [-> | Ng].
    - replace (a0 + timedelta_days 0) with a0 by (unfold timedelta_days; lia).
      rewrite find_skip_taken
        by (subst ex1; apply in_or_app; right; now left).
      change (Z.max 1 0) with 1.
      apply find_next_available_day_when_free.
      intros d Hd. specialize (Ex1 d Hd). rewrite date_add_days. lia.
    - replace (Z.max 1 g) with g by lia.
      apply find_next_available_day_when_free.
      intros d Hd. specialize (Ex1 d Hd). rewrite date_add_days. lia. }
  assert (date a1 = date (first_business_day (a0 + timedelta_days (Z.max 1 g))))
    as D1 by (subst a1; rewrite date_random_slot by exact B; now rewrite F1).
  pose proof (date_first_business_day (a0 + timedelta_days (Z.max 1 g))) as F2.
  rewrite date_add_days in F2. lia.
Qed.

Ltac apart_facts H :=
  let A := fresh "A" in
  pose proof (dates_apart _ _ H) as A; destruct A;
  pose proof NS_PER_DAY_pos; unfold timedelta_days in *.

(** X28: a two-step phase of [CARE_PLANS] (chemo cycle, imaging follow-up,
    radiation preparation) scheduled by the diligent scheduler of
    [appointment_generator_v5.py], for a patient whose taken dates all lie
    before the start, passes the validator without a flag, whatever time
    slots are drawn. *)
Theorem v5_diligent_phases_pass (rnd : V5.Random) (plan_details : V5.PlanDetails)
    (start_date : Z) (existing_dates : list Z) :
  business_hours rnd ->
  In plan_details [V5.chemo_cycle; V5.imaging_followup; V5.radiation_prep] ->
  (forall d, In d existing_dates -> d < date start_date) ->
  exists appointments existing_dates',
    V5.schedule_phase rnd "scheduler_A_diligent" plan_details start_date
      existing_dates
    = Ok (appointments, existing_dates')
    /\ (forall rows, schedule_of rows = appointments ->
          check_patient_schedule rows = Ok []).
Proof.
  intros B Hp Free.
  destruct Hp as [<- | [<- | [<- | []]]].
  - destruct (v5_diligent_two_steps rnd V5.chemo_cycle "Lab" "Chemo" start_date
                existing_dates B eq_refl ltac:(discriminate) Free)
      as (a0 & a1 & E & Lo & Hi).
    change (V5.get_min_gap V5.chemo_cycle) with 0 in Lo, Hi.
    eexists. eexists. split; [exact E |]. intros rows Hr.
    apply schedule_of_two in Hr. destruct Hr as (r0 & r1 & -> & T0 & S0 & T1 & S1).
    assert (date a0 < date a1) as Lt by lia.
    rewrite (chemo_pair_flags [r0; r1] [] r0 r1);
      [| apply Permutation_refl | exact S0 | exact S1 | constructor |].
    + rewrite T0, T1.
      replace (a0 >? a1) with false
        by (symmetry; rewrite Z.gtb_ltb; apply Z.ltb_ge; apart_facts Lt; lia).
      replace (date a1 - date a0 <? 1) with false
        by (symmetry; apply Z.ltb_ge; lia).
      reflexivity.
    + unfold in_window. rewrite T0, T1. split; [exact S0 |].
      apart_facts Lt. nia.
  - destruct (v5_diligent_two_steps rnd V5.imaging_followup "Mammogram"
                "Oncology Visit" start_date existing_dates B eq_refl
                ltac:(discriminate) Free)
      as (a0 & a1 & E & Lo & Hi).
    change (V5.get_min_gap V5.imaging_followup) with 2 in Lo, Hi.
    eexists. eexists. split; [exact E |]. intros rows Hr.
    apply schedule_of_two in Hr. destruct Hr as (r0 & r1 & -> & T0 & S0 & T1 & S1).
    assert (date a0 < date a1) as Lt by lia.
    rewrite (visit_pair_flags [r0; r1] [] r0 r1);
      [| apply Permutation_refl | exact S0 | exact S1 | constructor |].
    + rewrite T0, T1.
      replace (a0 >? a1) with false
        by (symmetry; rewrite Z.gtb_ltb; apply Z.ltb_ge; apart_facts Lt; lia).
      replace (date a1 - date a0 <? 2) with false
        by (symmetry; apply Z.ltb_ge; lia).
      reflexivity.
    + unfold in_window. rewrite T0, T1. split; [exact S0 |].
      apart_facts Lt. nia.
  - destruct (v5_diligent_two_steps rnd V5.radiation_prep "CT Simulation"
                "Radiation Therapy" start_date existing_dates B eq_refl
                ltac:(discriminate) Free)
      as (a0 & a1 & E & Lo & Hi).
    change (V5.get_min_gap V5.radiation_prep) with 1 in Lo, Hi.
    eexists. eexists. split; [exact E |]. intros rows Hr.
    apply schedule_of_two in Hr. destruct Hr as (r0 & r1 & -> & T0 & S0 & T1 & S1).
    assert (date a0 < date a1) as Lt by lia.
    rewrite (radiation_pair_flags [r0; r1] [] r0 r1);
      [| apply Permutation_refl | exact S0 | exact S1 | constructor |].
    + rewrite T0, T1.
      replace (a0 >? a1) with false
        by (symmetry; rewrite Z.gtb_ltb; apply Z.ltb_ge; apart_facts Lt; lia).
      reflexivity.
    + unfold in_window. rewrite T0, T1. split; [exact S0 |].
      apart_facts Lt. nia.
Qed.

Lemma rnd_plain_business_hours (lt_04 : bool) : business_hours (rnd_plain lt_04).
Proof.
  intros n. cbn [rnd_plain V5.choice]. unfold V5.BUSINESS_HOURS_TIMES.
  cbn [flat_map map app]. do 10 right. now left.
Qed.

Lemma v5_diligent_phases_pass_witness :
  exists appointments existing_dates',
    V5.schedule_phase (rnd_plain false) "scheduler_A_diligent" V5.chemo_cycle
      (at_time 19723 9) [19722]
    = Ok (appointments, existing_dates')
    /\ (forall rows, schedule_of rows = appointments ->
          check_patient_schedule rows = Ok []).
Proof.
  apply (v5_diligent_phases_pass (rnd_plain false) V5.chemo_cycle
           (at_time 19723 9) [19722]).
  - apply rnd_plain_business_hours.
  - now left.
  - intros d [<- | []]. reflexivity.
Defined.

(** The diligent schedule of the witness, computed. *)
Example v5_diligent_chemo_cycle :
  V5.schedule_phase (rnd_plain false) "scheduler_A_diligent" V5.chemo_cycle
    (at_time 19723 9) [19722]
  = Ok (schedule_of [gen5_lab_monday; gen5_chemo_tuesday], [19722; 19723; 19724]).
Proof. vm_compute. reflexivity. Qed.

Lemma hasty_loop_lt_04 (c : nat -> Z * Z) (r : nat -> Z) (b b' : bool)
    (remaining : list string) :
  forall i current_date appointments existing_dates,
    V5.hasty_loop (V5.mkRandom c r b) remaining i current_date appointments
      existing_dates
    = V5.hasty_loop (V5.mkRandom c r b') remaining i current_date appointments
        existing_dates.
Proof.
  induction remaining as [| step rest IH]; intros; [reflexivity |].
  cbn [V5.hasty_loop]. unfold V5.random_slot.
  cbn [V5.choice V5.randint_2_5]. apply IH.
Qed.

Lemma rev_short {A : Type} (l : list A) : (List.length l <= 1)%nat -> rev l = l.
Proof. destruct l as [| x [| y l]]; simpl; intros H; [reflexivity .. | lia]. Qed.

Lemma schedule_of_rev (rows : DataFrame) :
  schedule_of (rev rows) = rev (schedule_of rows).
Proof. unfold schedule_of. apply map_rev. Qed.

(** X29: the "reverse the order" error of the forgetful scheduler of
    [appointment_generator_v5.py] (taken for plans whose minimal gap is 0,
    such as the chemo cycle) only reverses the list of appointments: every
    step keeps its datetime, the taken dates are the same, and the validator
    returns the same flags as without the error. *)
Theorem v5_reverse_error_is_harmless (c : nat -> Z * Z) (r : nat -> Z)
    (plan_details : V5.PlanDetails) (start_date : Z) (existing_dates : list Z) :
  V5.get_min_gap plan_details <= 0 ->
  exists appointments existing_dates',
    V5.schedule_phase (V5.mkRandom c r false) "scheduler_C_forgetful"
      plan_details start_date existing_dates
    = Ok (appointments, existing_dates')
    /\ V5.schedule_phase (V5.mkRandom c r true) "scheduler_C_forgetful"
         plan_details start_date existing_dates
       = Ok (rev appointments, existing_dates')
    /\ (forall rows, schedule_of rows = appointments ->
          schedule_of (rev rows) = rev appointments
          /\ exists flags flags',
               check_patient_schedule rows = Ok flags
               /\ check_patient_schedule (rev rows) = Ok flags'
               /\ Permutation flags flags').
Proof.
  intros G. unfold V5.schedule_phase.
  change ("scheduler_C_forgetful" =? "scheduler_A_diligent")%string with false.
  change ("scheduler_C_forgetful" =? "scheduler_C_forgetful")%string with true.
  cbv iota. rewrite (hasty_loop_lt_04 c r true false).
  destruct (V5.hasty_loop (V5.mkRandom c r false) (V5.steps plan_details) 0
              start_date [] existing_dates) as [appointments ex'].
  cbn [V5.random_lt_04 andb].
  exists appointments, ex'. split; [reflexivity |]. split.
  - replace (V5.get_min_gap plan_details >? 0) with false
      by (symmetry; rewrite Z.gtb_ltb; apply Z.ltb_ge; exact G).
    rewrite andb_false_r.
    destruct (1 <? List.length appointments)%nat eqn:L; [reflexivity |].
    apply Nat.ltb_ge in L. now rewrite rev_short.
  - intros rows <-. split; [apply schedule_of_rev |].
    exists (list_set (raw_flags rows)), (list_set (raw_flags (rev rows))).
    rewrite !check_patient_schedule_value.
    split; [reflexivity |]. split; [reflexivity |].
    apply list_set_perm, flags_perm, Permutation_rev.
Qed.

Lemma v5_reverse_error_is_harmless_witness :
  exists appointments existing_dates',
    V5.schedule_phase (V5.mkRandom (fun _ => (10, 30)) (fun _ => 2) false)
      "scheduler_C_forgetful" V5.chemo_cycle (at_time 19723 9) []
    = Ok (appointments, existing_dates')
    /\ V5.schedule_phase (V5.mkRandom (fun _ => (10, 30)) (fun _ => 2) true)
         "scheduler_C_forgetful" V5.chemo_cycle (at_time 19723 9) []
       = Ok (rev appointments, existing_dates')
    /\ (forall rows, schedule_of rows = appointments ->
          schedule_of (rev rows) = rev appointments
          /\ exists flags flags',
               check_patient_schedule rows = Ok flags
               /\ check_patient_schedule (rev rows) = Ok flags'
               /\ Permutation flags flags').
Proof.
  apply (v5_reverse_error_is_harmless (fun _ => (10, 30)) (fun _ => 2)
           V5.chemo_cycle (at_time 19723 9) []).
  vm_compute. discriminate.
Defined.

(** X30: the same-day error of the forgetful scheduler of
    [appointment_generator_v5.py] on an imaging follow-up puts the Oncology
    Visit on the Mammogram's date, and the validator then always returns
    exactly one flag: the "before" flag when the visit's slot is earlier than
    the Mammogram's, the "too soon" flag otherwise. *)
Theorem v5_same_day_error_flagged (rnd : V5.Random) (start_date : Z)
    (existing_dates : list Z) :
  business_hours rnd ->
  V5.random_lt_04 rnd = true ->
  exists mammo_time visit_time existing_dates',
    V5.schedule_phase rnd "scheduler_C_forgetful" V5.imaging_followup
      start_date existing_dates
    = Ok ([(mammo_time, "Mammogram"); (visit_time, "Oncology Visit")],
          existing_dates')
    /\ date visit_time = date mammo_time
    /\ (forall rows,
          schedule_of rows
          = [(mammo_time, "Mammogram"); (visit_time, "Oncology Visit")] ->
          check_patient_schedule rows
          = Ok [if mammo_time >? visit_time
                then msg_visit_before (date visit_time) (date mammo_time)
                else msg_too_soon (date visit_time) (date mammo_time)]).
Proof.
  intros B Err. unfold V5.schedule_phase.
  change ("scheduler_C_forgetful" =? "scheduler_A_diligent")%string with false.
  change ("scheduler_C_forgetful" =? "scheduler_C_forgetful")%string with true.
  cbv iota. rewrite Err.
  cbn [V5.imaging_followup V5.steps V5.hasty_loop app andb List.length
       Nat.ltb Nat.leb V5.same_day_error fst snd Nat.add Nat.mul].
  change (V5.get_min_gap (V5.mkPlan ["Mammogram"; "Oncology Visit"] (Some 2) (Some 7)) >? 0)
    with true.
  cbv iota.
  set (a0 := V5.random_slot rnd 0
               (find_next_available_day start_date existing_dates)).
  set (v := V5.random_slot rnd 4 a0).
  eexists a0, v, _. split; [reflexivity |].
  assert (date v = date a0) as D by (subst v; now apply date_random_slot).
  split; [exact D |].
  intros rows Hr.
  apply schedule_of_two in Hr. destruct Hr as (r0 & r1 & -> & T0 & S0 & T1 & S1).
  rewrite (visit_pair_flags [r0; r1] [] r0 r1);
    [| apply Permutation_refl | exact S0 | exact S1 | constructor |].
  - rewrite T0, T1, D, Z.sub_diag.
    now destruct (a0 >? v).
  - unfold in_window. rewrite T0, T1. split; [exact S0 |].
    pose proof (same_date_close _ _ D). pose proof NS_PER_DAY_pos.
    unfold timedelta_days. lia.
Qed.

Lemma v5_same_day_error_flagged_witness :
  exists mammo_time visit_time existing_dates',
    V5.schedule_phase (rnd_plain true) "scheduler_C_forgetful" V5.imaging_followup
      (at_time 19723 9) []
    = Ok ([(mammo_time, "Mammogram"); (visit_time, "Oncology Visit")],
          existing_dates')
    /\ date visit_time = date mammo_time
    /\ (forall rows,
          schedule_of rows
          = [(mammo_time, "Mammogram"); (visit_time, "Oncology Visit")] ->
          check_patient_schedule rows
          = Ok [if mammo_time >? visit_time
                then msg_visit_before (date visit_time) (date mammo_time)
                else msg_too_soon (date visit_time) (date mammo_time)]).
Proof.
  apply (v5_same_day_error_flagged (rnd_plain true) (at_time 19723 9) []).
  - apply rnd_plain_business_hours.
  - reflexivity.
Defined.

(** The rows of the witness under the validator. *)
Example v5_same_day_error_rows :
  V5.schedule_phase (rnd_plain true) "scheduler_C_forgetful" V5.imaging_followup
    (at_time 19723 9) []
  = Ok (schedule_of [gen5_mammogram_monday; gen5_visit_monday], [19723; 19725])
  /\ check_patient_schedule [gen5_mammogram_monday; gen5_visit_monday]
     = Ok ["Timing Error: Visit on 2024-01-01 is too soon after Mammogram on 2024-01-01 (requires 2-day gap for results)."].
Proof. split; vm_compute; reflexivity. Qed.
